(** * Crypto-prediction-AI: the acquisition / merge / validate / analyse pipeline

    A shallow embedding of the JavaScript sources

    - the pipeline script, the entry point [index.js] of [package.json]
      ([mergeExchangeData], [validateData], [calculateAverageVolume],
      [analyzeData], [mergeWithExistingData], [main]),
    - [src/fetcher.js] ([PriceFetcher.makeRequest], [PriceFetcher.fetchAllData]),
    - [src/exchanges/BaseExchange.js] and [src/exchanges/OKXExchange.js],

    together with the properties of the specification that were checked
    against them.

    JavaScript numbers are IEEE 754 binary64 values; they are modelled by
    Rocq's primitive floats, which are the same format, so every arithmetic
    step of the embedding rounds exactly as the program does. *)

From Stdlib Require Import ZArith List String Ascii Bool Lia Floats Uint63 DecimalString.
From Stdlib Require Import Sorted Permutation.
From stdpp Require Import base gmap strings.
Import ListNotations.

Local Open Scope string_scope.
Local Open Scope list_scope.
Local Open Scope Z_scope.

(* ===================================================================== *)
(** * JavaScript values, numbers and completions *)
(* ===================================================================== *)

(** A field of a record read with [obj.field]: either the property is
    absent ([undefined]) or it holds a number (the clients build every
    numeric field with [parseFloat], whose result may be [NaN]). *)
Inductive JsVal : Type :=
| JUndefined
| JNumber (f : float).

(** [ToNumber] of the language specification on these values. *)
Definition ToNumber (v : JsVal) : float :=
  match v with
  | JUndefined => nan
  | JNumber f => f
  end.

(** The global [isNaN(v)]: [ToNumber] then the NaN test. *)
Definition isNaN (v : JsVal) : bool := is_nan (ToNumber v).

(** [a + b] and [a - b] on operands that are numbers or [undefined], and
    [a > b] on numbers (a comparison with NaN is false). *)
Definition js_add (a b : JsVal) : JsVal := JNumber (ToNumber a + ToNumber b).
Definition js_sub (a b : JsVal) : float := (ToNumber a - ToNumber b)%float.
Definition js_gt (a b : float) : bool := (b <? a)%float.

(** The length of an array as a number. Array lengths are below 2^32, where
    the conversion is exact. *)
Definition float_of_nat (n : nat) : float := of_uint63 (Uint63.of_Z (Z.of_nat n)).

Definition is_pos_zero (x : float) : bool :=
  match classify x with FloatClass.PZero => true | _ => false end.
Definition is_neg_zero (x : float) : bool :=
  match classify x with FloatClass.NZero => true | _ => false end.

(** [Math.max(...l)]: starts from [-Infinity]; a NaN argument makes the
    result NaN; [+0] is larger than [-0]. *)
Fixpoint Math_max_from (highest : float) (l : list float) : float :=
  match l with
  | [] => highest
  | x :: rest =>
      if is_nan x then nan
      else if (is_pos_zero x && is_neg_zero highest) || (highest <? x)%float
           then Math_max_from x rest
           else Math_max_from highest rest
  end.
Definition Math_max (l : list JsVal) : float :=
  Math_max_from neg_infinity (map ToNumber l).

(** [Math.min(...l)], dually. *)
Fixpoint Math_min_from (lowest : float) (l : list float) : float :=
  match l with
  | [] => lowest
  | x :: rest =>
      if is_nan x then nan
      else if (is_neg_zero x && is_pos_zero lowest) || (x <? lowest)%float
           then Math_min_from x rest
           else Math_min_from lowest rest
  end.
Definition Math_min (l : list JsVal) : float :=
  Math_min_from infinity (map ToNumber l).

(** [arr.reduce((a, b) => a + b)] without an initial value, on a non-empty
    array: the first element seeds the accumulator. *)
Definition reduce_add (l : list JsVal) : option JsVal :=
  match l with
  | [] => None
  | x :: rest => Some (fold_left js_add rest x)
  end.

(** Outcome of running a piece of code: a value, or a thrown error. *)
Inductive JsError : Type :=
| TypeError (what : string)
| Error (message : string)
| ThrownUndefined.

Inductive Completion (A : Type) : Type :=
| Normal (a : A)
| Throw (e : JsError).
Arguments Normal {A} a.
Arguments Throw {A} e.

Definition bind {A B : Type} (c : Completion A) (k : A -> Completion B) : Completion B :=
  match c with
  | Normal a => k a
  | Throw e => Throw e
  end.

Declare Scope js_scope.
Delimit Scope js_scope with js.
Notation "'let*' x ':=' c 'in' k" := (bind c (fun x => k))
  (at level 10, x name, c at level 100, k at level 200) : js_scope.
Notation "'let*' ' p ':=' c 'in' k" := (bind c (fun x => let 'p := x in k))
  (at level 10, p pattern, c at level 100, k at level 200) : js_scope.
Local Open Scope js_scope.

(** [arr.forEach(f)] threading the state the callback mutates. *)
Fixpoint forEachM {A St : Type} (f : A -> St -> Completion St) (l : list A) (s : St)
  : Completion St :=
  match l with
  | [] => Normal s
  | x :: rest => let* s' := f x s in forEachM f rest s'
  end.

(** [arr.map(f)] for a callback that may throw. *)
Fixpoint mapM {A B : Type} (f : A -> Completion B) (l : list A) : Completion (list B) :=
  match l with
  | [] => Normal []
  | x :: rest => let* y := f x in let* ys := mapM f rest in Normal (y :: ys)
  end.

(** [arr.forEach((x, index) => ...)] with the index passed along. *)
Fixpoint forEachIdx {A St : Type} (f : A -> nat -> St -> Completion St)
  (l : list A) (index : nat) (s : St) : Completion St :=
  match l with
  | [] => Normal s
  | x :: rest => let* s' := f x index s in forEachIdx f rest (S index) s'
  end.

(* ===================================================================== *)
(** * Objects and Maps with string keys *)
(* ===================================================================== *)

(** A plain object or a [Map] whose keys are strings: the entries in
    insertion order, one per key. ([Object.keys] lists integer-like keys
    first; source names and dates are not integer-like.) *)
Module Obj.
Section Obj.
Context {V : Type}.

(** [o[k]] / [m.get(k)]; [None] is [undefined]. *)
Fixpoint get (k : string) (o : list (string * V)) : option V :=
  match o with
  | [] => None
  | (k', v) :: rest => if String.eqb k k' then Some v else get k rest
  end.

(** [m.has(k)]. *)
Definition has (k : string) (o : list (string * V)) : bool :=
  match get k o with Some _ => true | None => false end.

(** [o[k] = v] / [m.set(k, v)]: an existing key keeps its position. *)
Fixpoint set (k : string) (v : V) (o : list (string * V)) : list (string * V) :=
  match o with
  | [] => [(k, v)]
  | (k', v') :: rest =>
      if String.eqb k k' then (k', v) :: rest else (k', v') :: set k v rest
  end.

(** [Object.keys(o)] / [m.keys()]. *)
Definition keys (o : list (string * V)) : list string := map fst o.

(** [Object.values(o)] / [m.values()]. *)
Definition values (o : list (string * V)) : list V := map snd o.
End Obj.
End Obj.

(* ===================================================================== *)
(** * Data model *)
(* ===================================================================== *)

(** One daily candle of one source, as [formatData] builds it. *)
Module Kline.
Record t : Type := mk {
  date : string;
  open : JsVal;
  high : JsVal;
  low : JsVal;
  close : JsVal;
  volume : JsVal;
  trades : JsVal;
  quoteVolume : JsVal
}.
End Kline.

(** One merged day: [{date, exchanges: {name: record}}]. *)
Module Day.
Record t : Type := mk {
  date : string;
  exchanges : list (string * Kline.t)
}.
End Day.

(** What one source's fetch hands to the merger: [{name, data}]. *)
Record FetchResult : Type := {
  name : string;
  data : list Kline.t
}.

(** The four kinds of anomaly entries the validator pushes. *)
Module PriceDiff.
Record t : Type := mk {
  date : string;
  exchanges : list string;
  maxDiff : float;
  diffPercent : float
}.
End PriceDiff.

Module VolumeSpike.
Record t : Type := mk {
  date : string;
  exchange : string;
  volume : JsVal;
  avgVolume : float
}.
End VolumeSpike.

Module DataMissing.
Record t : Type := mk {
  date : string;
  exchanges : list string
}.
End DataMissing.

Module PriceGap.
Record t : Type := mk {
  date : string;
  exchange : string;
  gapPercent : float;
  prevClose : JsVal;
  currOpen : JsVal
}.
End PriceGap.

Record Anomalies : Type := {
  priceDiff : list PriceDiff.t;
  volumeSpikes : list VolumeSpike.t;
  dataMissing : list DataMissing.t;
  priceGaps : list PriceGap.t
}.

Record Stats : Type := {
  totalDays : nat;
  validDays : nat;
  exchangeCoverage : gmap string nat
}.

Record ValidationResults : Type := {
  valid : list Day.t;
  anomalies : Anomalies;
  stats : Stats
}.

(* ===================================================================== *)
(** * The validator: [validateData] and [calculateAverageVolume] *)
(* ===================================================================== *)

(** Reading a property of [v]: a [TypeError] when [v] is [undefined]. *)
Definition prop {A : Type} (v : option A) (what : string) : Completion A :=
  match v with
  | Some a => Normal a
  | None => Throw (TypeError what)
  end.

(** [arr.slice(start, stop)] for [start <= stop]. *)
Definition slice {A : Type} (start stop : nat) (l : list A) : list A :=
  firstn (stop - start) (skipn start l).

Definition is_defined (v : JsVal) : bool :=
  match v with JUndefined => false | JNumber _ => true end.

(** [d.exchanges[exchange]?.volume]. *)
Definition volumeOf (exchange : string) (d : Day.t) : JsVal :=
  match Obj.get exchange (Day.exchanges d) with
  | Some r => Kline.volume r
  | None => JUndefined
  end.

Definition calculateAverageVolume (data : list Day.t) (exchange : string)
  (currentIndex : nat) : float :=
  let windowSize := 30%nat in
  let startIndex := Nat.max 0 (currentIndex - windowSize) in
  let volumes :=
    List.filter is_defined
      (map (volumeOf exchange) (slice startIndex currentIndex data)) in
  match reduce_add volumes with
  | Some total => (ToNumber total / float_of_nat (length volumes))%float
  | None => 0%float
  end.

(** The test of rule 1 for one source of the day. *)
Definition completeRecord (dayData : Day.t) (exchange : string) : bool :=
  match Obj.get exchange (Day.exchanges dayData) with
  | Some data =>
      negb (isNaN (Kline.open data)) && negb (isNaN (Kline.high data))
      && negb (isNaN (Kline.low data)) && negb (isNaN (Kline.close data))
      && negb (isNaN (Kline.volume data))
  | None => false
  end.

Definition push_dataMissing (e : DataMissing.t) (r : ValidationResults) :=
  {| valid := valid r;
     anomalies := {| priceDiff := priceDiff (anomalies r);
                     volumeSpikes := volumeSpikes (anomalies r);
                     dataMissing := dataMissing (anomalies r) ++ [e];
                     priceGaps := priceGaps (anomalies r) |};
     stats := stats r |}.

Definition push_priceDiff (e : PriceDiff.t) (r : ValidationResults) :=
  {| valid := valid r;
     anomalies := {| priceDiff := priceDiff (anomalies r) ++ [e];
                     volumeSpikes := volumeSpikes (anomalies r);
                     dataMissing := dataMissing (anomalies r);
                     priceGaps := priceGaps (anomalies r) |};
     stats := stats r |}.

Definition push_volumeSpike (e : VolumeSpike.t) (r : ValidationResults) :=
  {| valid := valid r;
     anomalies := {| priceDiff := priceDiff (anomalies r);
                     volumeSpikes := volumeSpikes (anomalies r) ++ [e];
                     dataMissing := dataMissing (anomalies r);
                     priceGaps := priceGaps (anomalies r) |};
     stats := stats r |}.

Definition push_priceGap (e : PriceGap.t) (r : ValidationResults) :=
  {| valid := valid r;
     anomalies := {| priceDiff := priceDiff (anomalies r);
                     volumeSpikes := volumeSpikes (anomalies r);
                     dataMissing := dataMissing (anomalies r);
                     priceGaps := priceGaps (anomalies r) ++ [e] |};
     stats := stats r |}.

(** The state of one iteration: the results object and [isValidDay]. *)
Definition DayState : Type := (ValidationResults * bool)%type.

(** 1. Basic data completeness check. *)
Definition checkCompleteness (dayData : Day.t) (exchanges : list string)
  (st : DayState) : DayState :=
  let dataCompleteness := forallb (completeRecord dayData) exchanges in
  if negb dataCompleteness
  then (push_dataMissing (DataMissing.mk (Day.date dayData) exchanges) (fst st), false)
  else st.

(** The percentage of rule 2 from the closing prices of the day. *)
Definition priceSpread (prices : list JsVal) (total : JsVal) : float * float :=
  let avgPrice := (ToNumber total / float_of_nat (length prices))%float in
  let maxDiff := (Math_max prices - Math_min prices)%float in
  (maxDiff, (maxDiff / avgPrice * 100)%float).

(** 2. Price anomaly check. *)
Definition checkPrices (dayData : Day.t) (exchanges : list string)
  (st : DayState) : Completion DayState :=
  if (1 <? length exchanges)%nat then
    let* prices :=
      mapM (fun e => let* d := prop (Obj.get e (Day.exchanges dayData)) "close"
                     in Normal (Kline.close d)) exchanges in
    let* total := prop (reduce_add prices) "reduce" in
    let '(maxDiff, diffPercent) := priceSpread prices total in
    if js_gt diffPercent 1
    then Normal (push_priceDiff
                   (PriceDiff.mk (Day.date dayData) exchanges maxDiff diffPercent)
                   (fst st), false)
    else Normal st
  else Normal st.

(** 3. Volume spike check, for one source. *)
Definition checkVolume (mergedData : list Day.t) (index : nat) (dayData : Day.t)
  (exchange : string) (st : DayState) : Completion DayState :=
  let* data := prop (Obj.get exchange (Day.exchanges dayData)) "volume" in
  let volume := Kline.volume data in
  let avgVolume := calculateAverageVolume mergedData exchange index in
  if js_gt (ToNumber volume) (avgVolume * 3)
  then Normal (push_volumeSpike
                 (VolumeSpike.mk (Day.date dayData) exchange volume avgVolume)
                 (fst st), false)
  else Normal st.

(** The percentage of rule 4. *)
Definition gapPercentOf (currOpen prevClose : JsVal) : float :=
  (abs (js_sub currOpen prevClose / ToNumber prevClose) * 100)%float.

(** 4. Price gap check, for one source. *)
Definition checkGap (mergedData : list Day.t) (index : nat) (dayData : Day.t)
  (exchange : string) (st : DayState) : Completion DayState :=
  let* prevDay := prop (nth_error mergedData (index - 1)) "exchanges" in
  let prevData := Obj.get exchange (Day.exchanges prevDay) in
  let currData := Obj.get exchange (Day.exchanges dayData) in
  match prevData, currData with
  | Some prevData, Some currData =>
      let prevClose := Kline.close prevData in
      let currOpen := Kline.open currData in
      let gapPercent := gapPercentOf currOpen prevClose in
      if js_gt gapPercent 5
      then Normal (push_priceGap
                     (PriceGap.mk (Day.date dayData) exchange gapPercent prevClose currOpen)
                     (fst st), false)
      else Normal st
  | _, _ => Normal st
  end.

(** [if (!coverage[exchange]) coverage[exchange] = 0; coverage[exchange]++]. *)
Definition bumpCoverage (coverage : gmap string nat) (exchange : string)
  : gmap string nat :=
  let coverage :=
    match coverage !! exchange with
    | None | Some O => <[exchange := O]> coverage
    | Some _ => coverage
    end in
  alter S exchange coverage.

(** Update statistics. *)
Definition updateStats (dayData : Day.t) (exchanges : list string) (st : DayState)
  : ValidationResults :=
  let '(r, isValidDay) := st in
  if isValidDay then
    {| valid := valid r ++ [dayData];
       anomalies := anomalies r;
       stats := {| totalDays := S (totalDays (stats r));
                   validDays := S (validDays (stats r));
                   exchangeCoverage :=
                     fold_left bumpCoverage exchanges (exchangeCoverage (stats r)) |} |}
  else
    {| valid := valid r;
       anomalies := anomalies r;
       stats := {| totalDays := S (totalDays (stats r));
                   validDays := validDays (stats r);
                   exchangeCoverage := exchangeCoverage (stats r) |} |}.

(** The body of [mergedData.forEach((dayData, index) => ...)]. *)
Definition validateDay (mergedData : list Day.t) (dayData : Day.t) (index : nat)
  (validationResults : ValidationResults) : Completion ValidationResults :=
  let exchanges := Obj.keys (Day.exchanges dayData) in
  let st := (validationResults, true) in
  let st := checkCompleteness dayData exchanges st in
  let* st := checkPrices dayData exchanges st in
  let* st := forEachM (checkVolume mergedData index dayData) exchanges st in
  let* st := (if (0 <? index)%nat
              then forEachM (checkGap mergedData index dayData) exchanges st
              else Normal st) in
  Normal (updateStats dayData exchanges st).

Definition emptyResults : ValidationResults :=
  {| valid := [];
     anomalies := {| priceDiff := []; volumeSpikes := []; dataMissing := [];
                     priceGaps := [] |};
     stats := {| totalDays := 0; validDays := 0; exchangeCoverage := ∅ |} |}.

Definition validateData (mergedData : list Day.t) : Completion ValidationResults :=
  forEachIdx (validateDay mergedData) mergedData 0 emptyResults.

(* ===================================================================== *)
(** * Dates and sorting *)
(* ===================================================================== *)

(** The value of a decimal digit character. *)
Definition digit (c : ascii) : option Z :=
  let n := Z.of_nat (nat_of_ascii c) in
  if (48 <=? n) && (n <=? 57) then Some (n - 48) else None.

(** [DaysInYear] and [DayFromYear] of the language specification. *)
Definition isLeapYear (y : Z) : bool :=
  (y mod 4 =? 0) && (negb (y mod 100 =? 0) || (y mod 400 =? 0)).

Definition DayFromYear (y : Z) : Z :=
  365 * (y - 1970) + (y - 1969) / 4 - (y - 1901) / 100 + (y - 1601) / 400.

Definition daysInMonth (y m : Z) : Z :=
  if m =? 2 then (if isLeapYear y then 29 else 28)
  else if (m =? 4) || (m =? 6) || (m =? 9) || (m =? 11) then 30
  else 31.

(** Days of the year before the first of month [m]. *)
Definition daysBeforeMonth (y m : Z) : Z :=
  let feb := if isLeapYear y then 29 else 28 in
  match m with
  | 1 => 0
  | 2 => 31
  | 3 => 31 + feb
  | 4 => 62 + feb
  | 5 => 92 + feb
  | 6 => 123 + feb
  | 7 => 153 + feb
  | 8 => 184 + feb
  | 9 => 215 + feb
  | 10 => 245 + feb
  | 11 => 276 + feb
  | _ => 306 + feb
  end.

Definition msPerDay : Z := 86400000.

(** The time value of a calendar day, [MakeDate(MakeDay(y, m - 1, d), 0)]. *)
Definition timeOfDay (y m d : Z) : Z :=
  (DayFromYear y + daysBeforeMonth y m + (d - 1)) * msPerDay.

Definition validYMD (y m d : Z) : bool :=
  (1 <=? m) && (m <=? 12) && (1 <=? d) && (d <=? daysInMonth y m).

(** The year, month and day written in a [YYYY-MM-DD] string. *)
Definition parseYMD (s : string) : option (Z * Z * Z) :=
  match list_ascii_of_string s with
  | [y1; y2; y3; y4; s1; m1; m2; s2; d1; d2] =>
      if Ascii.eqb s1 "-" && Ascii.eqb s2 "-" then
        match digit y1, digit y2, digit y3, digit y4,
              digit m1, digit m2, digit d1, digit d2 with
        | Some a, Some b, Some c, Some d, Some e, Some f, Some g, Some h =>
            Some (1000 * a + 100 * b + 10 * c + d, 10 * e + f, 10 * g + h)
        | _, _, _, _, _, _, _, _ => None
        end
      else None
  | _ => None
  end.

(** [new Date(s).getTime()] for the date strings of this program, which
    the clients write with [format('YYYY-MM-DD')]: a date-only string is read
    as midnight UTC of that day. [None] stands for the time value NaN of an
    invalid date; strings that are not a calendar day in this form (among
    them moment's ['Invalid date']) are given that value here. *)
Definition Date_getTime (s : string) : option Z :=
  match parseYMD s with
  | Some (y, m, d) => if validYMD y m d then Some (timeOfDay y m d) else None
  | None => None
  end.

Definition isCalendarDay (s : string) : bool :=
  match Date_getTime s with Some _ => true | None => false end.

(** [YearFromTime] of the language specification on day numbers: the year
    [y] with [DayFromYear y <= day < DayFromYear (y + 1)]. The estimate from
    the mean length of a year is off by one at most. *)
Definition YearFromDay (day : Z) : Z :=
  let y := 1970 + day * 400 / 146097 in
  if day <? DayFromYear y then y - 1
  else if DayFromYear (y + 1) <=? day then y + 1
  else y.

(** [MonthFromTime] plus 1: the last of [months] that starts on or before
    the day of the year, January otherwise. *)
Fixpoint monthFrom (y dayInYear : Z) (months : list Z) : Z :=
  match months with
  | [] => 1
  | m :: rest =>
      if daysBeforeMonth y m <=? dayInYear then m else monthFrom y dayInYear rest
  end.

Definition MonthFromDay (y dayInYear : Z) : Z :=
  monthFrom y dayInYear [12; 11; 10; 9; 8; 7; 6; 5; 4; 3; 2].

Definition digitChar (n : Z) : ascii := ascii_of_nat (Z.to_nat (48 + n)).

Definition pad2 (n : Z) : list ascii := [digitChar (n / 10); digitChar (n mod 10)].

Definition pad4 (n : Z) : list ascii :=
  [digitChar (n / 1000); digitChar (n / 100 mod 10); digitChar (n / 10 mod 10);
   digitChar (n mod 10)].

(** [formatTimestamp(timestamp)] of [utils.js],
    [new Date(timestamp).toISOString().split('T')[0]], for an integer time
    value: the UTC day it falls in, written [YYYY-MM-DD]. This holds within
    the years 0 to 9999; outside them [toISOString] writes a signed year of
    six digits or throws a [RangeError], which is [None] here. *)
Definition formatTimestamp (timestamp : Z) : option string :=
  let day := timestamp / msPerDay in
  let y := YearFromDay day in
  if (0 <=? y) && (y <=? 9999) then
    let dayInYear := day - DayFromYear y in
    let m := MonthFromDay y dayInYear in
    let d := dayInYear - daysBeforeMonth y m + 1 in
    Some (string_of_list_ascii
            (pad4 y ++ ["-"%char] ++ pad2 m ++ ["-"%char] ++ pad2 d))
  else None.

(** The comparator [(a, b) => new Date(a.date) - new Date(b.date)]; time
    values are integers below 2^53, on which the subtraction is exact. A NaN
    result is read by [sort] as [+0]. *)
Definition compareByDate (a b : Day.t) : Z :=
  match Date_getTime (Day.date a), Date_getTime (Day.date b) with
  | Some x, Some y => x - y
  | _, _ => 0
  end.

(** [Array.prototype.sort(cmp)]. The sort is stable, and for a comparator that
    is a consistent ordering of the elements every stable sort returns the
    list computed here by insertion. (When the comparator is inconsistent,
    which for [compareByDate] needs a date that does not parse, the order is
    left to the engine.) *)
Fixpoint sort_insert {A : Type} (cmp : A -> A -> Z) (x : A) (l : list A) : list A :=
  match l with
  | [] => [x]
  | y :: rest => if cmp x y <=? 0 then x :: l else y :: sort_insert cmp x rest
  end.

Fixpoint sort {A : Type} (cmp : A -> A -> Z) (l : list A) : list A :=
  match l with
  | [] => []
  | x :: rest => sort_insert cmp x (sort cmp rest)
  end.

(* ===================================================================== *)
(** * The merger: [mergeExchangeData] *)
(* ===================================================================== *)

(** The body of [result.data.forEach(dayData => ...)]: create the day on its
    first record, then store the record under the source's name in the day
    the map holds. *)
Definition addRecord (name : string) (mergedMap : list (string * Day.t))
  (dayData : Kline.t) : list (string * Day.t) :=
  let date := Kline.date dayData in
  let mergedMap :=
    if negb (Obj.has date mergedMap)
    then Obj.set date (Day.mk date []) mergedMap
    else mergedMap in
  match Obj.get date mergedMap with
  | Some day =>
      Obj.set date (Day.mk (Day.date day) (Obj.set name dayData (Day.exchanges day)))
        mergedMap
  | None => mergedMap
  end.

(** The body of [results.forEach(result => ...)]; [None] is a [null] result. *)
Definition addResult (mergedMap : list (string * Day.t)) (result : option FetchResult)
  : list (string * Day.t) :=
  match result with
  | None => mergedMap
  | Some result => fold_left (addRecord (name result)) (data result) mergedMap
  end.

Definition mergeExchangeData (results : list (option FetchResult)) : list Day.t :=
  let mergedMap := fold_left addResult results [] in
  sort compareByDate (Obj.values mergedMap).

(* ===================================================================== *)
(** * The incremental merger: [mergeWithExistingData] *)
(* ===================================================================== *)

(** [new Map(entries)] and the loop of [set] calls: the last entry of a key
    gives its value, the first its position. *)
Definition indexByDate (items : list Day.t) (dateIndex : list (string * Day.t))
  : list (string * Day.t) :=
  fold_left (fun m item => Obj.set (Day.date item) item m) items dateIndex.

(** [existingFile] is what reading and parsing [btc_price_validated.json]
    gives: [None] when that throws (no such file, or not JSON), which the
    [catch] turns into returning [newData]. *)
Definition mergeWithExistingData (existingFile : option (list Day.t))
  (newData : list Day.t) : list Day.t :=
  match existingFile with
  | Some existingData =>
      let dateIndex := indexByDate existingData [] in
      let dateIndex := indexByDate newData dateIndex in
      sort compareByDate (Obj.values dateIndex)
  | None => newData
  end.

(* ===================================================================== *)
(** * The analyzer: [analyzeData] *)
(* ===================================================================== *)

Module Extreme.
Record t : Type := mk {
  value : JsVal;
  date : string;
  exchange : string
}.
End Extreme.

Module SumCount.
Record t : Type := mk {
  sum : float;
  count : nat
}.
End SumCount.

Module PriceAverage.
Record t : Type := mk {
  sum : float;
  count : nat;
  prices : list JsVal
}.
End PriceAverage.

Module PriceStats.
Record t : Type := mk {
  highest : Extreme.t;
  lowest : Extreme.t;
  averages : list (string * PriceAverage.t);
  volatility : list (string * float)
}.
End PriceStats.

Module VolumeStats.
Record t : Type := mk {
  highest : Extreme.t;
  daily : list (string * SumCount.t);
  total : list (string * float);
  marketShare : list (string * string)
}.
End VolumeStats.

Module Trends.
Record t : Type := mk {
  upDays : list (string * nat);
  downDays : list (string * nat);
  flatDays : list (string * nat);
  maxUpStreak : list (string * nat);
  maxDownStreak : list (string * nat)
}.
End Trends.

Module YearStats.
Record t : Type := mk {
  avgPrice : SumCount.t;
  totalVolume : float;
  volatility : list JsVal
}.
End YearStats.

Module BucketStats.
Record t : Type := mk {
  avgPrice : SumCount.t;
  totalVolume : float
}.
End BucketStats.

Module TimeStats.
Record t : Type := mk {
  byYear : list (string * YearStats.t);
  byMonth : list (string * BucketStats.t);
  byWeekday : list (string * BucketStats.t)
}.
End TimeStats.

Record Analysis : Type := {
  price : PriceStats.t;
  volume : VolumeStats.t;
  trends : Trends.t;
  timeStats : TimeStats.t
}.

Definition emptyAnalysis : Analysis :=
  {| price := PriceStats.mk (Extreme.mk (JNumber 0) "" "")
                (Extreme.mk (JNumber infinity) "" "") [] [];
     volume := VolumeStats.mk (Extreme.mk (JNumber 0) "" "") [] [] [];
     trends := Trends.mk [] [] [] [] [];
     timeStats := TimeStats.mk [] [] [] |}.

(** [counter[k]++] on a counter that holds a number. *)
Definition increment (k : string) (counter : list (string * nat)) : list (string * nat) :=
  match Obj.get k counter with
  | Some n => Obj.set k (S n) counter
  | None => counter
  end.

Definition addSample (v : JsVal) (a : SumCount.t) : SumCount.t :=
  SumCount.mk (SumCount.sum a + ToNumber v) (S (SumCount.count a)).

(** 1. Price statistics. *)
Definition priceStep (date exchange : string) (data : Kline.t) (p : PriceStats.t)
  : PriceStats.t :=
  let close := Kline.close data in
  let highest :=
    if js_gt (ToNumber close) (ToNumber (Extreme.value (PriceStats.highest p)))
    then Extreme.mk close date exchange else PriceStats.highest p in
  let lowest :=
    if js_gt (ToNumber (Extreme.value (PriceStats.lowest p))) (ToNumber close)
    then Extreme.mk close date exchange else PriceStats.lowest p in
  let averages :=
    match Obj.get exchange (PriceStats.averages p) with
    | None => Obj.set exchange (PriceAverage.mk 0 0 []) (PriceStats.averages p)
    | Some _ => PriceStats.averages p
    end in
  let averages :=
    match Obj.get exchange averages with
    | Some a =>
        Obj.set exchange
          (PriceAverage.mk (PriceAverage.sum a + ToNumber close)
             (S (PriceAverage.count a)) (PriceAverage.prices a ++ [close]))
          averages
    | None => averages
    end in
  PriceStats.mk highest lowest averages (PriceStats.volatility p).

(** 2. Volume statistics. *)
Definition volumeStep (date exchange : string) (data : Kline.t) (v : VolumeStats.t)
  : VolumeStats.t :=
  let daily :=
    match Obj.get exchange (VolumeStats.daily v) with
    | None => Obj.set exchange (SumCount.mk 0 0) (VolumeStats.daily v)
    | Some _ => VolumeStats.daily v
    end in
  let daily :=
    match Obj.get exchange daily with
    | Some a => Obj.set exchange (addSample (Kline.volume data) a) daily
    | None => daily
    end in
  let highest :=
    if js_gt (ToNumber (Kline.volume data))
         (ToNumber (Extreme.value (VolumeStats.highest v)))
    then Extreme.mk (Kline.volume data) date exchange else VolumeStats.highest v in
  VolumeStats.mk highest daily (VolumeStats.total v) (VolumeStats.marketShare v).

(** 3. Trend statistics. The counters of a source are (re)set to 0 whenever
    its [upDays] entry is missing or 0. *)
Definition trendStep (mergedData : list Day.t) (index : nat) (exchange : string)
  (data : Kline.t) (t : Trends.t) : Completion Trends.t :=
  let t :=
    match Obj.get exchange (Trends.upDays t) with
    | None | Some O =>
        Trends.mk (Obj.set exchange O (Trends.upDays t))
          (Obj.set exchange O (Trends.downDays t))
          (Obj.set exchange O (Trends.flatDays t))
          (Obj.set exchange O (Trends.maxUpStreak t))
          (Obj.set exchange O (Trends.maxDownStreak t))
    | Some _ => t
    end in
  if (0 <? index)%nat then
    let* prevDayData := prop (nth_error mergedData (index - 1)) "exchanges" in
    match Obj.get exchange (Day.exchanges prevDayData) with
    | Some prevDay =>
        let priceChange := js_sub (Kline.close data) (Kline.close prevDay) in
        if js_gt priceChange 0 then
          Normal (Trends.mk (increment exchange (Trends.upDays t)) (Trends.downDays t)
                    (Trends.flatDays t) (Trends.maxUpStreak t) (Trends.maxDownStreak t))
        else if js_gt 0 priceChange then
          Normal (Trends.mk (Trends.upDays t) (increment exchange (Trends.downDays t))
                    (Trends.flatDays t) (Trends.maxUpStreak t) (Trends.maxDownStreak t))
        else
          Normal (Trends.mk (Trends.upDays t) (Trends.downDays t)
                    (increment exchange (Trends.flatDays t))
                    (Trends.maxUpStreak t) (Trends.maxDownStreak t))
    | None => Normal t
    end
  else Normal t.

(** The library functions the analyzer calls and this development does not
    define: [Math.log], [Math.pow], [moment(date).format(pattern)] and
    [number.toFixed(digits)]. *)
Section Analyzer.
Variable Math_log : float -> float.
Variable Math_pow : float -> float -> float.
Variable moment_format : string -> string -> string.
Variable toFixed : float -> nat -> string.

Definition addToBucket (data : Kline.t) (b : BucketStats.t) : BucketStats.t :=
  BucketStats.mk (addSample (Kline.close data) (BucketStats.avgPrice b))
    (BucketStats.totalVolume b + ToNumber (Kline.volume data)).

Definition bucketStep (key : string) (data : Kline.t)
  (buckets : list (string * BucketStats.t)) : list (string * BucketStats.t) :=
  let buckets :=
    match Obj.get key buckets with
    | None => Obj.set key (BucketStats.mk (SumCount.mk 0 0) 0) buckets
    | Some _ => buckets
    end in
  match Obj.get key buckets with
  | Some b => Obj.set key (addToBucket data b) buckets
  | None => buckets
  end.

Definition yearStep (key : string) (data : Kline.t)
  (years : list (string * YearStats.t)) : list (string * YearStats.t) :=
  let years :=
    match Obj.get key years with
    | None => Obj.set key (YearStats.mk (SumCount.mk 0 0) 0 []) years
    | Some _ => years
    end in
  match Obj.get key years with
  | Some y =>
      Obj.set key
        (YearStats.mk (addSample (Kline.close data) (YearStats.avgPrice y))
           (YearStats.totalVolume y + ToNumber (Kline.volume data))
           (YearStats.volatility y ++ [Kline.close data]))
        years
  | None => years
  end.

(** 4. Time dimension statistics. *)
Definition timeStep (date : string) (data : Kline.t) (s : TimeStats.t) : TimeStats.t :=
  let year := moment_format date "YYYY" in
  let month := moment_format date "YYYY-MM" in
  let weekday := moment_format date "dddd" in
  TimeStats.mk (yearStep year data (TimeStats.byYear s))
    (bucketStep month data (TimeStats.byMonth s))
    (bucketStep weekday data (TimeStats.byWeekday s)).

(** The body of [exchanges.forEach(exchange => ...)] inside the pass. *)
Definition analyzeRecord (mergedData : list Day.t) (index : nat) (dayData : Day.t)
  (exchange : string) (analysis : Analysis) : Completion Analysis :=
  let* data := prop (Obj.get exchange (Day.exchanges dayData)) "close" in
  let date := Day.date dayData in
  let* trends := trendStep mergedData index exchange data (trends analysis) in
  Normal {| price := priceStep date exchange data (price analysis);
            volume := volumeStep date exchange data (volume analysis);
            trends := trends;
            timeStats := timeStep date data (timeStats analysis) |}.

Definition analyzeDay (mergedData : list Day.t) (dayData : Day.t) (index : nat)
  (analysis : Analysis) : Completion Analysis :=
  forEachM (analyzeRecord mergedData index dayData)
    (Obj.keys (Day.exchanges dayData)) analysis.

(** [Math.log(prices[i] / prices[i-1])] for [i] from 1. *)
Fixpoint logReturns (prices : list JsVal) : list float :=
  match prices with
  | p0 :: (p1 :: _) as rest =>
      Math_log (ToNumber p1 / ToNumber p0) :: logReturns rest
  | _ => []
  end.

(** Annualized volatility of one price series. *)
Definition volatilityOf (prices : list JsVal) : float :=
  let returns := logReturns prices in
  let n := float_of_nat (length returns) in
  let mean := (fold_left (fun a b => a + b) returns 0 / n)%float in
  let variance :=
    (fold_left (fun a b => a + Math_pow (b - mean) 2) returns 0 / n)%float in
  (PrimFloat.sqrt (variance * 252) * 100)%float.

(** The final statistics: volatility, then market share. *)
Definition finalize (analysis : Analysis) : Analysis :=
  let p := price analysis in
  let volatility :=
    fold_left
      (fun vol entry => Obj.set (fst entry) (volatilityOf (PriceAverage.prices (snd entry))) vol)
      (PriceStats.averages p) (PriceStats.volatility p) in
  let v := volume analysis in
  let totalVolume :=
    fold_left (fun sum d => (sum + SumCount.sum d)%float)
      (Obj.values (VolumeStats.daily v)) 0%float in
  let marketShare :=
    fold_left
      (fun share entry =>
         Obj.set (fst entry)
           (String.append (toFixed (SumCount.sum (snd entry) / totalVolume * 100) 2) "%")
           share)
      (VolumeStats.daily v) (VolumeStats.marketShare v) in
  {| price := PriceStats.mk (PriceStats.highest p) (PriceStats.lowest p)
                (PriceStats.averages p) volatility;
     volume := VolumeStats.mk (VolumeStats.highest v) (VolumeStats.daily v)
                 (VolumeStats.total v) marketShare;
     trends := trends analysis;
     timeStats := timeStats analysis |}.

Definition analyzeData (mergedData : list Day.t) : Completion Analysis :=
  let* analysis := forEachIdx (analyzeDay mergedData) mergedData 0 emptyAnalysis in
  Normal (finalize analysis).

End Analyzer.

(* ===================================================================== *)
(** * The pipeline: [fetchExchangeData], [saveData], [main] *)
(* ===================================================================== *)

(** What a data file holds: the value handed to [JSON.stringify]. *)
Inductive File : Type :=
| RawFile (records : list Kline.t)
| ValidatedFile (days : list Day.t)
| AnomaliesFile (a : Anomalies)
| AnalysisFile (a : Analysis).

(** An exchange client as the pipeline uses it: its name and the outcome
    of [fetchKlines(startTime, endTime)]. *)
Module Exchange.
Record t : Type := mk {
  name : string;
  fetchKlines : Completion (list Kline.t)
}.
End Exchange.

(** The surroundings of one run: [argv.mode], the two dates of the raw file
    names ([moment(startTime).format('YYYYMMDD')] and the same for
    [endTime]), and whether [fs.writeFile] succeeds on a file. The start
    time only reaches the clients, whose outcome is given. *)
Module Env.
Record t : Type := mk {
  mode : string;
  startYMD : string;
  endYMD : string;
  writable : string -> bool
}.
End Env.

Definition lowerAscii (c : ascii) : ascii :=
  let n := nat_of_ascii c in
  if ((65 <=? n) && (n <=? 90))%nat then ascii_of_nat (n + 32) else c.

(** [s.toLowerCase()] on ASCII names. *)
Fixpoint toLowerCase (s : string) : string :=
  match s with
  | EmptyString => EmptyString
  | String c rest => String (lowerAscii c) (toLowerCase rest)
  end.

Section Pipeline.
Variable Math_log : float -> float.
Variable Math_pow : float -> float -> float.
Variable moment_format : string -> string -> string.
Variable toFixed : float -> nat -> string.
Variable env : Env.t.

(** [saveData(data, filename)]: the whole document is written, or the write
    throws and the file is left as it was. *)
Definition saveData (content : File) (filename : string) (fs : gmap string File)
  : Completion (gmap string File) :=
  if Env.writable env filename
  then Normal (<[filename := content]> fs)
  else Throw (Error "write failed").

Definition rawFilename (exchangeName : string) : string :=
  String.append "btc_price_"
    (String.append (toLowerCase exchangeName)
       (String.append "_"
          (String.append (Env.startYMD env)
             (String.append "_" (String.append (Env.endYMD env) ".json"))))).

Definition fetchExchangeData (exchange : Exchange.t) (fs : gmap string File)
  : Completion FetchResult * gmap string File :=
  match Exchange.fetchKlines exchange with
  | Throw e => (Throw e, fs)
  | Normal data =>
      match saveData (RawFile data) (rawFilename (Exchange.name exchange)) fs with
      | Throw e => (Throw e, fs)
      | Normal fs' => (Normal {| name := Exchange.name exchange; data := data |}, fs')
      end
  end.

(** [exchanges.map(exchange => fetchExchangeData(...).catch(error => null))]
    under [Promise.all]; the fetches write different files, so they are run
    here one after the other. *)
Fixpoint fetchAll (exchanges : list Exchange.t) (fs : gmap string File)
  : list (option FetchResult) * gmap string File :=
  match exchanges with
  | [] => ([], fs)
  | exchange :: rest =>
      let '(r, fs) := fetchExchangeData exchange fs in
      let result := match r with Normal result => Some result | Throw _ => None end in
      let '(results, fs) := fetchAll rest fs in
      (result :: results, fs)
  end.

Definition isNotNull {A : Type} (o : option A) : bool :=
  match o with Some _ => true | None => false end.

Definition validatedPath : string := "btc_price_validated.json".

(** [JSON.parse(await fs.readFile(validatedPath))] as the incremental merger
    uses it: [None] when the file is missing or does not hold an array. The
    days come back as they were written (JSON would turn a field that is NaN
    into [null]; the reading here does not show that). *)
Definition readValidated (fs : gmap string File) : option (list Day.t) :=
  match fs !! validatedPath with
  | Some (ValidatedFile days) => Some days
  | _ => None
  end.

(** The [try] block of [main] after the fetches, for the clients
    [exchanges]; the result is the exit code of the process (1 from the
    [catch], 0 when [main] returns) and the files. *)
Definition pipeline (exchanges : list Exchange.t) (fs : gmap string File)
  : Z * gmap string File :=
  let '(results, fs) := fetchAll exchanges fs in
  let validResults := List.filter isNotNull results in
  if (0 <? length validResults)%nat then
    let mergedData := mergeExchangeData validResults in
    match validateData mergedData with
    | Throw _ => (1, fs)
    | Normal validation =>
        match analyzeData Math_log Math_pow moment_format toFixed mergedData with
        | Throw _ => (1, fs)
        | Normal analysis =>
            let valid :=
              if String.eqb (Env.mode env) "increment"
              then mergeWithExistingData (readValidated fs) (valid validation)
              else valid validation in
            match saveData (ValidatedFile valid) validatedPath fs with
            | Throw _ => (1, fs)
            | Normal fs1 =>
                match saveData (AnomaliesFile (anomalies validation))
                        "btc_price_anomalies.json" fs1 with
                | Throw _ => (1, fs1)
                | Normal fs2 =>
                    match saveData (AnalysisFile analysis)
                            "btc_price_analysis.json" fs2 with
                    | Throw _ => (1, fs2)
                    | Normal fs3 => (0, fs3)
                    end
                end
            end
        end
    end
  else (0, fs).

(** [main] runs the pipeline on its two clients,
    [new BinanceExchange()] and [new HuobiExchange()]. *)
Definition main (binance huobi : Exchange.t) (fs : gmap string File)
  : Z * gmap string File :=
  pipeline [binance; huobi] fs.

End Pipeline.

(** ** [printComparison] *)

(** The lines [printComparison] writes to the console. *)
Inductive Line : Type :=
| Heading
| NameLine (name : string)
| RecordsLine (records : nat)
| RangeLine (first last : string)
| VolumeLine (average : string).

(** [result.data.reduce((sum, d) => sum + d.volume, 0) / result.data.length]. *)
Definition averageVolume (data : list Kline.t) : float :=
  (fold_left (fun sum d => sum + ToNumber (Kline.volume d)) data 0
   / float_of_nat (length data))%float.

(** The body of [results.forEach(result => ...)]. The lines written before
    a throw stay written. *)
Definition printResult (toFixed : float -> nat -> string) (result : option FetchResult)
  (out : list Line) : Completion unit * list Line :=
  match result with
  | None => (Normal tt, out)
  | Some result =>
      let records := data result in
      let out := out ++ [NameLine (name result); RecordsLine (length records)] in
      match nth_error records 0, nth_error records (length records - 1)%nat with
      | Some first, Some last =>
          (Normal tt,
           out ++ [RangeLine (Kline.date first) (Kline.date last);
                   VolumeLine (String.append (toFixed (averageVolume records) 2%nat)
                                 " BTC")])
      | _, _ => (Throw (TypeError "date"), out)
      end
  end.

Fixpoint printResults (toFixed : float -> nat -> string)
  (results : list (option FetchResult)) (out : list Line)
  : Completion unit * list Line :=
  match results with
  | [] => (Normal tt, out)
  | result :: rest =>
      match printResult toFixed result out with
      | (Normal _, out) => printResults toFixed rest out
      | (Throw e, out) => (Throw e, out)
      end
  end.

Definition printComparison (toFixed : float -> nat -> string)
  (results : list (option FetchResult)) : Completion unit * list Line :=
  printResults toFixed results [Heading].

(* ===================================================================== *)
(** * The fetch clients *)
(* ===================================================================== *)

(** What a client does to the outside, in order. *)
Inductive Event : Type :=
| Probe (url : string) (resolved : bool)
| Request (url : string) (succeeded : bool)
| Switch (url : string)
| SwitchProxy (proxy : string)
| Sleep (ms : float).

(** The state of a client: its endpoint and proxy indices, the number of
    answers it has drawn from the network so far, and its event log. *)
Module Client.
Record t : Type := mk {
  currentEndpointIndex : nat;
  currentProxyIndex : nat;
  tick : nat;
  log : list Event
}.
End Client.

Definition start : Client.t := Client.mk 0 0 0 [].

Definition emit (e : Event) (c : Client.t) : Client.t :=
  Client.mk (Client.currentEndpointIndex c) (Client.currentProxyIndex c)
    (Client.tick c) (Client.log c ++ [e]).

Definition advance (c : Client.t) : Client.t :=
  Client.mk (Client.currentEndpointIndex c) (Client.currentProxyIndex c)
    (S (Client.tick c)) (Client.log c).

(** [await this.sleep(ms)]. *)
Definition sleep (ms : float) (c : Client.t) : Client.t := emit (Sleep ms) c.

(** The outcome of a fetch loop: the function returned, it threw, or the
    run was cut after the given number of iterations. *)
Inductive Outcome (A : Type) : Type :=
| Returned (a : A)
| Raised (e : JsError)
| Unfinished.
Arguments Returned {A} a.
Arguments Raised {A} e.
Arguments Unfinished {A}.

(** The variables of a fetch loop: [allData], [currentStartTime] (a time
    value, [None] for NaN) and [failureCount]. *)
Module Loop.
Record t (Row : Type) : Type := mk {
  allData : list Row;
  currentStartTime : option Z;
  failureCount : nat
}.
Arguments mk {Row} _ _ _.
Arguments allData {Row} _.
Arguments currentStartTime {Row} _.
Arguments failureCount {Row} _.
End Loop.

(** [config.js]; the values are those of the configuration template. *)
Module Config.
Record t : Type := mk {
  API_ENDPOINTS : list string;
  MAX_RETRIES : nat;
  RETRY_DELAY : float
}.
End Config.

Definition defaultConfig : Config.t :=
  Config.mk
    ["https://api.binance.com"; "https://api1.binance.com";
     "https://api2.binance.com"; "https://api3.binance.com";
     "https://api-apac.binance.com"; "https://api-eu.binance.com"]
    5 2000.

(** [2000 * Math.pow(2, i)] by doubling, which is exact. *)
Fixpoint timesPow2 (x : float) (i : nat) : float :=
  match i with
  | O => x
  | S i' => (timesPow2 x i' * 2)%float
  end.

(** A number written in a template string. *)
Definition showNat (n : nat) : string :=
  DecimalString.NilZero.string_of_uint (Nat.to_uint n).

Definition js_min (a b : float) : float :=
  Math_min [JNumber a; JNumber b].

(** The network: whether a lookup of the host of [url] resolves, what a
    request to [url] with the given start time answers, and the values of
    [Math.random()]; each is asked for the [n]-th answer drawn. [Row] is a
    row of the wire format. *)
Record Network (Row : Type) : Type := {
  dns : nat -> string -> bool;
  http : nat -> string -> option Z -> Completion (list Row);
  random : nat -> float
}.
Arguments dns {Row} _ _ _.
Arguments http {Row} _ _ _ _.
Arguments random {Row} _ _.

Definition lessThan (t : option Z) (endTime : Z) : bool :=
  match t with
  | Some t => t <? endTime
  | None => false
  end.

(** The time value read from the last row of a page, plus 1. *)
Definition lastTime {Row : Type} (timeOf : Row -> option Z) (rows : list Row)
  : option Z :=
  match last rows with
  | Some row => option_map (fun t => t + 1) (timeOf row)
  | None => None
  end.

Definition MAX_FAILURES : nat := 10.

(** ** [PriceFetcher] ([src/fetcher.js]) *)
Module PriceFetcher.
Section PriceFetcher.
(** [closeTimeOf row] is the time value of [new Date(row[6])], [None] for NaN. *)
Variable Row : Type.
Variable closeTimeOf : Row -> option Z.
Variable net : Network Row.
Variable config : Config.t.

Definition baseURL (c : Client.t) : string :=
  nth (Client.currentEndpointIndex c) (Config.API_ENDPOINTS config) "".

(** [switchEndpoint()], for a list of endpoints that is not empty. *)
Definition switchEndpoint (c : Client.t) : Client.t :=
  let i := ((Client.currentEndpointIndex c + 1)
              mod length (Config.API_ENDPOINTS config))%nat in
  emit (Switch (nth i (Config.API_ENDPOINTS config) ""))
    (Client.mk i (Client.currentProxyIndex c) (Client.tick c) (Client.log c)).

(** [checkDNS(hostname)]: the lookup error is caught and gives [false]. *)
Definition checkDNS (hostname : string) (c : Client.t) : bool * Client.t :=
  let ok := dns net (Client.tick c) hostname in
  (ok, advance (emit (Probe hostname ok) c)).

Definition axios_get (url : string) (startTime : option Z) (c : Client.t)
  : Completion (list Row) * Client.t :=
  let r := http net (Client.tick c) url startTime in
  let ok := match r with Normal _ => true | Throw _ => false end in
  (r, advance (emit (Request url ok) c)).

(** The loop [for (attempt = 0; attempt < MAX_RETRIES; attempt++)] of
    [makeRequest], entered with [remaining = MAX_RETRIES - attempt]. The
    function returns [undefined] ([None]) when the loop runs out. *)
Fixpoint makeRequestFrom (remaining attempt : nat) (endpoint : string)
  (startTime : option Z) (c : Client.t)
  : Completion (option (list Row)) * Client.t :=
  match remaining with
  | O => (Normal None, c)
  | S remaining' =>
      let '(isAvailable, c) := checkDNS (baseURL c) c in
      if negb isAvailable then
        makeRequestFrom remaining' (S attempt) endpoint startTime (switchEndpoint c)
      else
        let '(response, c) :=
          axios_get (String.append (baseURL c) endpoint) startTime c in
        match response with
        | Normal data => (Normal (Some data), c)
        | Throw _ =>
            if (attempt =? Config.MAX_RETRIES config - 1)%nat then
              (Throw (Error (String.append "Failed to fetch data after "
                               (String.append (showNat (Config.MAX_RETRIES config))
                                  " attempts"))), c)
            else
              makeRequestFrom remaining' (S attempt) endpoint startTime
                (sleep (Config.RETRY_DELAY config) (switchEndpoint c))
        end
  end.

Definition makeRequest (endpoint : string) (startTime : option Z) (c : Client.t)
  : Completion (option (list Row)) * Client.t :=
  makeRequestFrom (Config.MAX_RETRIES config) 0 endpoint startTime c.

Definition fetchKlines (startTime : option Z) (c : Client.t)
  : Completion (option (list Row)) * Client.t :=
  makeRequest "/api/v3/klines" startTime c.

(** The [while (currentStartTime < endTime)] loop of [fetchAllData], cut
    after [fuel] iterations. *)
Fixpoint fetchAllDataFrom (fuel : nat) (endTime : Z) (st : Loop.t Row) (c : Client.t)
  : Outcome (list Row) * Loop.t Row * Client.t :=
  if negb (lessThan (Loop.currentStartTime st) endTime) then
    (Returned (Loop.allData st), st, c)
  else
    match fuel with
    | O => (Unfinished, st, c)
    | S fuel' =>
        let '(r, c) := fetchKlines (Loop.currentStartTime st) c in
        match r with
        | Normal None | Normal (Some []) => (Returned (Loop.allData st), st, c)
        | Normal (Some data) =>
            let allData := Loop.allData st ++ data in
            let st := Loop.mk allData (lastTime closeTimeOf data) 0 in
            let c := sleep 300 c in
            let c := if (length allData mod 100 =? 0)%nat then sleep 2000 c else c in
            fetchAllDataFrom fuel' endTime st c
        | Throw _ =>
            let st := Loop.mk (Loop.allData st) (Loop.currentStartTime st)
                        (S (Loop.failureCount st)) in
            if (MAX_FAILURES <=? Loop.failureCount st)%nat then
              (Returned (Loop.allData st), st, c)
            else
              fetchAllDataFrom fuel' endTime st (switchEndpoint (sleep 5000 c))
        end
    end.

Definition fetchAllData (fuel : nat) (startTime endTime : Z) (c : Client.t)
  : Outcome (list Row) * Loop.t Row * Client.t :=
  fetchAllDataFrom fuel endTime (Loop.mk [] (Some startTime) 0) c.

End PriceFetcher.
End PriceFetcher.

(** ** [BaseExchange] ([src/exchanges/BaseExchange.js]) *)
Module BaseExchange.
Section BaseExchange.
Variable Row : Type.
Variable net : Network Row.

(** [checkDomain(url)]: the lookup error is caught and gives [false]. *)
Definition checkDomain (url : string) (c : Client.t) : bool * Client.t :=
  let ok := dns net (Client.tick c) url in
  (ok, advance (emit (Probe url ok) c)).

Definition axios (url : string) (startTime : option Z) (c : Client.t)
  : Completion (list Row) * Client.t :=
  let r := http net (Client.tick c) url startTime in
  let ok := match r with Normal _ => true | Throw _ => false end in
  (r, advance (emit (Request url ok) c)).

Definition Math_random (c : Client.t) : float * Client.t :=
  (random net (Client.tick c), advance c).

(** [Math.min(2000 * Math.pow(2, n) + Math.random() * 1000, 10000)]. *)
Definition backoffTime (n : nat) (rnd : float) : float :=
  js_min (timesPow2 2000 n + rnd * 1000) 10000.

(** The loop [for (i = 0; i < maxRetries; i++)] of [makeRequest], entered
    with [remaining = maxRetries - i]; after the loop, [throw lastError]. *)
Fixpoint makeRequestFrom (remaining i : nat) (url : string) (startTime : option Z)
  (lastError : option JsError) (c : Client.t) : Completion (list Row) * Client.t :=
  match remaining with
  | O =>
      (Throw (match lastError with Some e => e | None => ThrownUndefined end), c)
  | S remaining' =>
      let '(resolved, c) := checkDomain url c in
      let '(r, c) :=
        if negb resolved then (Throw (Error "DNS lookup failed"), c)
        else axios url startTime c in
      match r with
      | Normal response => (Normal response, c)
      | Throw error =>
          let '(rnd, c) := Math_random c in
          makeRequestFrom remaining' (S i) url startTime (Some error)
            (sleep (backoffTime i rnd) c)
      end
  end.

Definition makeRequest (url : string) (startTime : option Z) (maxRetries : nat)
  (c : Client.t) : Completion (list Row) * Client.t :=
  makeRequestFrom maxRetries 0 url startTime None c.

End BaseExchange.
End BaseExchange.

(** ** [OKXExchange] ([src/exchanges/OKXExchange.js]) *)
Module OKXExchange.
Section OKXExchange.
(** [openTimeOf row] is the time value of [moment(row[0])], [None] for NaN;
    [formatData] turns the rows into records. *)
Variable Row : Type.
Variable openTimeOf : Row -> option Z.
Variable formatData : list Row -> list Kline.t.
Variable net : Network Row.

Definition backupUrls : list string :=
  ["https://www.okx.com"; "https://aws.okx.com"; "https://okx.com";
   "https://api.okx.com"].

Definition proxies : list string :=
  ["http://51.159.115.233:3128"; "http://165.225.208.243:10605";
   "http://165.225.208.77:10605"; "http://165.225.208.243:10605";
   "http://165.225.208.77:10605"].

Definition baseUrl (c : Client.t) : string :=
  match Client.currentEndpointIndex c with
  | O => "https://www.okx.com"
  | S i => nth i backupUrls ""
  end.

Definition switchEndpoint (c : Client.t) : Client.t :=
  let i := ((Client.currentEndpointIndex c + 1) mod (length backupUrls + 1))%nat in
  let c := Client.mk i (Client.currentProxyIndex c) (Client.tick c) (Client.log c) in
  emit (Switch (baseUrl c)) c.

Definition switchProxy (c : Client.t) : Client.t :=
  let i := ((Client.currentProxyIndex c + 1) mod length proxies)%nat in
  emit (SwitchProxy (nth i proxies ""))
    (Client.mk (Client.currentEndpointIndex c) i (Client.tick c) (Client.log c)).

(** The [while (currentStartTime < endTime)] loop of [fetchKlines], cut
    after [fuel] iterations. Every request asks for the window that starts
    at [startTime]. *)
Fixpoint fetchKlinesFrom (fuel : nat) (startTime endTime : Z) (st : Loop.t Row)
  (c : Client.t) : Outcome (list Kline.t) * Loop.t Row * Client.t :=
  if negb (lessThan (Loop.currentStartTime st) endTime) then
    (Returned (formatData (Loop.allData st)), st, c)
  else
    match fuel with
    | O => (Unfinished, st, c)
    | S fuel' =>
        let c := switchProxy c in
        let '(r, c) :=
          BaseExchange.makeRequest Row net
            (String.append (baseUrl c) "/api/v5/market/history-candles")
            (Some startTime) 3 c in
        match r with
        | Normal [] => (Returned (formatData (Loop.allData st)), st, c)
        | Normal data =>
            let st := Loop.mk (Loop.allData st ++ data) (lastTime openTimeOf data) 0 in
            fetchKlinesFrom fuel' startTime endTime st (sleep 1000 c)
        | Throw _ =>
            let st := Loop.mk (Loop.allData st) (Loop.currentStartTime st)
                        (S (Loop.failureCount st)) in
            if (MAX_FAILURES <=? Loop.failureCount st)%nat then
              (Raised (Error "Too many consecutive failures"), st, c)
            else
              let c := switchEndpoint c in
              let '(rnd, c) := BaseExchange.Math_random Row net c in
              fetchKlinesFrom fuel' startTime endTime st
                (sleep (BaseExchange.backoffTime (Loop.failureCount st) rnd) c)
        end
    end.

Definition fetchKlines (fuel : nat) (startTime endTime : Z) (c : Client.t)
  : Outcome (list Kline.t) * Loop.t Row * Client.t :=
  fetchKlinesFrom fuel startTime endTime (Loop.mk [] (Some startTime) 0) c.

End OKXExchange.
End OKXExchange.

(* ===================================================================== *)
(** * Notions used to state the properties, and sample data *)
(* ===================================================================== *)

(** ** What each rule reports for one day

    The entries a rule pushes for a day, as a list: rule 1 at most one
    entry for the day, rule 2 at most one, rules 3 and 4 at most one for
    each source. *)

(** The close of a source on a day, [undefined] without a record. *)
Definition closeOf (dayData : Day.t) (exchange : string) : JsVal :=
  match Obj.get exchange (Day.exchanges dayData) with
  | Some r => Kline.close r
  | None => JUndefined
  end.

(** Rule 1: an entry when some source's record is not complete. *)
Definition missingOf (dayData : Day.t) : list DataMissing.t :=
  let exchanges := Obj.keys (Day.exchanges dayData) in
  if forallb (completeRecord dayData) exchanges then []
  else [DataMissing.mk (Day.date dayData) exchanges].

(** [(max(close) - min(close)) / mean(close) * 100], with the difference. *)
Definition deviation (prices : list JsVal) : float * float :=
  let mean :=
    (ToNumber (fold_left js_add (tl prices) (hd JUndefined prices))
     / float_of_nat (length prices))%float in
  let diff := (Math_max prices - Math_min prices)%float in
  (diff, (diff / mean * 100)%float).

(** Rule 2: with two sources or more, an entry when the percentage is
    above 1. *)
Definition priceDiffOf (dayData : Day.t) : list PriceDiff.t :=
  let exchanges := Obj.keys (Day.exchanges dayData) in
  if (2 <=? length exchanges)%nat then
    let '(maxDiff, diffPercent) := deviation (map (closeOf dayData) exchanges) in
    if (1 <? diffPercent)%float
    then [PriceDiff.mk (Day.date dayData) exchanges maxDiff diffPercent]
    else []
  else [].

(** Rule 3: an entry for a source whose volume is above 3 times its
    trailing average. *)
Definition spikeOf (mergedData : list Day.t) (index : nat) (dayData : Day.t)
  (exchange : string) : list VolumeSpike.t :=
  let volume := volumeOf exchange dayData in
  let avgVolume := calculateAverageVolume mergedData exchange index in
  if (avgVolume * 3 <? ToNumber volume)%float
  then [VolumeSpike.mk (Day.date dayData) exchange volume avgVolume]
  else [].

Definition spikesOf (mergedData : list Day.t) (index : nat) (dayData : Day.t)
  : list VolumeSpike.t :=
  flat_map (spikeOf mergedData index dayData) (Obj.keys (Day.exchanges dayData)).

(** Rule 4: an entry for a source whose open is more than 5 percent away
    from its close of the previous entry. *)
Definition gapOf (prevDay dayData : Day.t) (exchange : string) : list PriceGap.t :=
  match Obj.get exchange (Day.exchanges prevDay),
        Obj.get exchange (Day.exchanges dayData) with
  | Some prevData, Some currData =>
      let gapPercent := gapPercentOf (Kline.open currData) (Kline.close prevData) in
      if (5 <? gapPercent)%float
      then [PriceGap.mk (Day.date dayData) exchange gapPercent
              (Kline.close prevData) (Kline.open currData)]
      else []
  | _, _ => []
  end.

Definition gapsOf (mergedData : list Day.t) (index : nat) (dayData : Day.t)
  : list PriceGap.t :=
  match index with
  | O => []
  | S i =>
      match nth_error mergedData i with
      | Some prevDay =>
          flat_map (gapOf prevDay dayData) (Obj.keys (Day.exchanges dayData))
      | None => []
      end
  end.

Definition isNil {A : Type} (l : list A) : bool :=
  match l with [] => true | _ :: _ => false end.

(** No rule fired for the day at [index]. *)
Definition noRuleFired (mergedData : list Day.t) (index : nat) (dayData : Day.t)
  : bool :=
  isNil (missingOf dayData) && isNil (priceDiffOf dayData)
  && isNil (spikesOf mergedData index dayData)
  && isNil (gapsOf mergedData index dayData).

(** Pushing the entries a rule reports, and clearing [isValidDay] when there
    are some. *)
Definition addAnomalies (pd : list PriceDiff.t) (vs : list VolumeSpike.t)
  (dm : list DataMissing.t) (pg : list PriceGap.t) (st : DayState) : DayState :=
  ({| valid := valid (fst st);
      anomalies := {| priceDiff := priceDiff (anomalies (fst st)) ++ pd;
                      volumeSpikes := volumeSpikes (anomalies (fst st)) ++ vs;
                      dataMissing := dataMissing (anomalies (fst st)) ++ dm;
                      priceGaps := priceGaps (anomalies (fst st)) ++ pg |};
      stats := stats (fst st) |},
   snd st && isNil pd && isNil vs && isNil dm && isNil pg).

(** One iteration of the validator without the error plumbing. *)
Definition dayStep (mergedData : list Day.t) (dayData : Day.t) (index : nat)
  (r : ValidationResults) : ValidationResults :=
  updateStats dayData (Obj.keys (Day.exchanges dayData))
    (addAnomalies (priceDiffOf dayData) (spikesOf mergedData index dayData)
       (missingOf dayData) (gapsOf mergedData index dayData) (r, true)).

Fixpoint daySteps (mergedData : list Day.t) (days : list Day.t) (index : nat)
  (r : ValidationResults) : ValidationResults :=
  match days with
  | [] => r
  | dayData :: rest => daySteps mergedData rest (S index) (dayStep mergedData dayData index r)
  end.

(** [flat_map] with the position of each element. *)
Fixpoint flatMapIdx {A B : Type} (f : nat -> A -> list B) (index : nat) (l : list A)
  : list B :=
  match l with
  | [] => []
  | x :: rest => f index x ++ flatMapIdx f (S index) rest
  end.

(** The days of [days] that are kept, [days] starting at position [index]. *)
Definition keptDays (mergedData : list Day.t) (index : nat) (days : list Day.t)
  : list Day.t :=
  flatMapIdx (fun i d => if noRuleFired mergedData i d then [d] else []) index days.

(** The number of days whose record has an entry for [exchange]. *)
Definition daysWith (exchange : string) (days : list Day.t) : nat :=
  length (List.filter (fun d => Obj.has exchange (Day.exchanges d)) days).

(** The number of [dataMissing] entries dated [date]. *)
Definition missingEntriesOn (date : string) (entries : list DataMissing.t) : nat :=
  length (List.filter (fun e => String.eqb (DataMissing.date e) date) entries).

(** A day object is well formed when its source keys are distinct. *)
Definition wfDay (d : Day.t) : Prop := NoDup (Obj.keys (Day.exchanges d)).

#[global] Instance wfDay_dec (d : Day.t) : Decision (wfDay d).
Proof. unfold wfDay. apply _. Defined.

(** The entry rule 2 pushes for a day, with the measured values. *)
Definition priceDiffEntry (dayData : Day.t) : PriceDiff.t :=
  let exchanges := Obj.keys (Day.exchanges dayData) in
  let dev := deviation (map (closeOf dayData) exchanges) in
  PriceDiff.mk (Day.date dayData) exchanges (fst dev) (snd dev).

(** The measured percentage of a day. *)
Definition deviationPercent (dayData : Day.t) : float :=
  snd (deviation (map (closeOf dayData) (Obj.keys (Day.exchanges dayData)))).

(** One of the five price and volume fields of a record is absent or is
    not a number. *)
Definition incompleteRecord (r : Kline.t) : bool :=
  isNaN (Kline.open r) || isNaN (Kline.high r) || isNaN (Kline.low r)
  || isNaN (Kline.close r) || isNaN (Kline.volume r).

(** ** Sample days *)

(** A record whose four prices are [price]. *)
Definition sampleRecord (date : string) (price volume : float) : Kline.t :=
  Kline.mk date (JNumber price) (JNumber price) (JNumber price) (JNumber price)
    (JNumber volume) JUndefined JUndefined.

(** Two sources agree on the first day and differ by 2 on the second. *)
Definition sampleMerged : list Day.t :=
  [ Day.mk "2024-01-01"
      [("A", sampleRecord "2024-01-01" 100 0); ("B", sampleRecord "2024-01-01" 100 0)];
    Day.mk "2024-01-02"
      [("A", sampleRecord "2024-01-02" 100 0); ("B", sampleRecord "2024-01-02" 102 0)] ].

(** A day whose only record has no close. *)
Definition sampleIncompleteRecord : Kline.t :=
  Kline.mk "2024-01-03" (JNumber 100) (JNumber 100) (JNumber 100) JUndefined
    (JNumber 0) JUndefined JUndefined.

Definition sampleIncomplete : list Day.t :=
  [ Day.mk "2024-01-03" [("A", sampleIncompleteRecord)] ].

(** Source [A] starts on the second day, with a volume of 1000. *)
Definition sampleFirstDay : list Day.t :=
  [ Day.mk "2024-01-01" [("B", sampleRecord "2024-01-01" 100 0)];
    Day.mk "2024-01-02"
      [("A", sampleRecord "2024-01-02" 100 1000); ("B", sampleRecord "2024-01-02" 100 0)] ].

(** ** Dates and order *)

(** The number of a day within its year, from 0. *)
Definition dayOfYear (y m d : Z) : Z := daysBeforeMonth y m + (d - 1).

(** The time value of a day's date, 0 when the date does not parse. *)
Definition timeOf (d : Day.t) : Z :=
  match Date_getTime (Day.date d) with
  | Some t => t
  | None => 0
  end.

(** [a] is dated strictly before [b]. *)
Definition dateBefore (a b : Day.t) : Prop := timeOf a < timeOf b.

(** Every day of the list is dated with a calendar day. *)
Definition calendarDays (l : list Day.t) : Prop :=
  Forall (fun d => isCalendarDay (Day.date d) = true) l.

(** The comparator that orders by a key, and the order it sorts into. *)
Definition byKey {A : Type} (key : A -> Z) (a b : A) : Z := key a - key b.

Definition keyLe {A : Type} (key : A -> Z) (a b : A) : Prop := key a <= key b.

(** ** The maps of the two mergers *)

(** The record stored for source [name] on [date] in the map of days. *)
Definition cell (m : list (string * Day.t)) (date name : string) : option Kline.t :=
  match Obj.get date m with
  | Some d => Obj.get name (Day.exchanges d)
  | None => None
  end.

(** Every day of the map is stored under its own date. *)
Definition keyed (m : list (string * Day.t)) : Prop :=
  Forall (fun kd => Day.date (snd kd) = fst kd) m.

(** The last record of a sequence that is dated [date]. *)
Fixpoint lastOn (date : string) (l : list Kline.t) : option Kline.t :=
  match l with
  | [] => None
  | r :: rest =>
      match lastOn date rest with
      | Some r' => Some r'
      | None => if String.eqb (Kline.date r) date then Some r else None
      end
  end.

(** The dates of all the records of the results. *)
Definition inputDates (results : list (option FetchResult)) : list string :=
  flat_map (fun result =>
              match result with
              | Some result => map Kline.date (data result)
              | None => []
              end) results.

(** Source [A] reports 3 January twice, out of order with 1 January. *)
Definition sampleResults : list (option FetchResult) :=
  [ Some {| name := "A";
            data := [sampleRecord "2024-01-03" 1 1; sampleRecord "2024-01-01" 2 2;
                     sampleRecord "2024-01-03" 5 5] |};
    Some {| name := "B";
            data := [sampleRecord "2024-01-02" 1 1; sampleRecord "2024-01-01" 2 2] |} ].

(** The days of a list, each under its date. *)
Definition pairs (l : list Day.t) : list (string * Day.t) :=
  map (fun d => (Day.date d, d)) l.

(** The last day of a sequence that is dated [date]. *)
Fixpoint lastDay (date : string) (l : list Day.t) : option Day.t :=
  match l with
  | [] => None
  | d :: rest =>
      match lastDay date rest with
      | Some d' => Some d'
      | None => if String.eqb (Day.date d) date then Some d else None
      end
  end.

(** A persisted sequence of two days, and new data that brings the second
    day again with another close, and a third day. *)
Definition sampleExisting : list Day.t :=
  [ Day.mk "2024-01-01" [("A", sampleRecord "2024-01-01" 100 0)];
    Day.mk "2024-01-02" [("A", sampleRecord "2024-01-02" 100 0);
                         ("B", sampleRecord "2024-01-02" 100 0)] ].

Definition sampleIncoming : list Day.t :=
  [ Day.mk "2024-01-03" [("A", sampleRecord "2024-01-03" 107 0)];
    Day.mk "2024-01-02" [("A", sampleRecord "2024-01-02" 105 0)] ].

(** ** Runs of the pipeline *)

(** The three result files can all be written. *)
Definition resultsWritable (env : Env.t) : bool :=
  Env.writable env validatedPath
  && Env.writable env "btc_price_anomalies.json"
  && Env.writable env "btc_price_analysis.json".

(** The results of the fetches that are not [null]. *)
Definition validResultsOf (env : Env.t) (exchanges : list Exchange.t)
  (fs : gmap string File) : list (option FetchResult) :=
  List.filter isNotNull (fst (fetchAll env exchanges fs)).

(** Stand-ins for the library functions, for evaluating the pipeline on
    sample inputs; the facts stated on those runs hold whatever the
    functions return. *)
Definition libLog (x : float) : float := nan.
Definition libPow (x y : float) : float := nan.
Definition libFormat (date pattern : string) : string := pattern.
Definition libFixed (x : float) (digits : nat) : string := "".

(** A run in full mode where every file can be written, and one where the
    analysis file cannot. *)
Definition fullEnv : Env.t :=
  Env.mk "full" "20170701" "20240102" (fun _ => true).

Definition readOnlyAnalysisEnv : Env.t :=
  Env.mk "full" "20170701" "20240102"
    (fun filename => negb (String.eqb filename "btc_price_analysis.json")).

(** A client whose fetch throws, and one that returns one record. *)
Definition downExchange (name : string) : Exchange.t :=
  Exchange.mk name (Throw (Error "Too many consecutive failures")).

Definition oneDayExchange : Exchange.t :=
  Exchange.mk "Binance" (Normal [sampleRecord "2024-01-02" 100 1000]).

(** A validated file from an earlier run. *)
Definition sampleFiles : gmap string File :=
  {[ validatedPath := ValidatedFile sampleExisting ]}.

(** The highest close of an analysis, and of the analysis file. *)
Definition highestClose (a : Completion Analysis) : option JsVal :=
  match a with
  | Normal a => Some (Extreme.value (PriceStats.highest (price a)))
  | Throw _ => None
  end.

Definition persistedHighestClose (fs : gmap string File) : option JsVal :=
  match fs !! "btc_price_analysis.json" with
  | Some (AnalysisFile a) => Some (Extreme.value (PriceStats.highest (price a)))
  | _ => None
  end.

(** The analysis of the days the validator keeps. *)
Definition analysisOfValid (mergedData : list Day.t) : Completion Analysis :=
  match validateData mergedData with
  | Normal r => analyzeData libLog libPow libFormat libFixed (valid r)
  | Throw e => Throw e
  end.

(** ** Event logs and networks *)

(** Every request of the log comes right after a probe that resolved, of a
    host the requested URL starts with. *)
Fixpoint requestsProbed (log : list Event) : bool :=
  match log with
  | [] => true
  | Probe host true :: Request url _ :: rest =>
      String.prefix host url && requestsProbed rest
  | Request _ _ :: _ => false
  | _ :: rest => requestsProbed rest
  end.

(** Every failed probe of the log is followed at once by an endpoint switch. *)
Fixpoint rotatesOnFailedProbe (log : list Event) : bool :=
  match log with
  | [] => true
  | Probe _ false :: rest =>
      match rest with
      | Switch _ :: _ => rotatesOnFailedProbe rest
      | _ => false
      end
  | _ :: rest => rotatesOnFailedProbe rest
  end.

Definition isFailedProbe (e : Event) : bool :=
  match e with Probe _ false => true | _ => false end.

Definition isFailedRequest (e : Event) : bool :=
  match e with Request _ false => true | _ => false end.

Definition isRequest (e : Event) : bool :=
  match e with Request _ _ => true | _ => false end.

Definition isSwitch (e : Event) : bool :=
  match e with Switch _ => true | _ => false end.

Definition countEvents (p : Event -> bool) (log : list Event) : nat :=
  length (List.filter p log).

(** The attempts a log shows as used up: failed probes and failed requests. *)
Definition attemptsSpent (log : list Event) : nat :=
  (countEvents isFailedProbe log + countEvents isFailedRequest log)%nat.

(** The call ended without a response: it threw, or returned [undefined]. *)
Definition noResponse {A : Type} (r : Completion (option A)) : bool :=
  match r with Normal (Some _) => false | _ => true end.

(** A network on which every lookup fails, with a configuration of 5 tries. *)
Definition unresolvableNet : Network Z :=
  {| dns := fun _ _ => false;
     http := fun _ _ _ => Normal [];
     random := fun _ => 0%float |}.

Definition isThrow {A : Type} (r : Completion A) : bool :=
  match r with Throw _ => true | Normal _ => false end.

(** Every request of the network throws. *)
Definition requestsFail {Row : Type} (net : Network Row) : Prop :=
  forall n url startTime, isThrow (http net n url startTime) = true.

(** Every lookup of the network resolves. *)
Definition lookupsResolve {Row : Type} (net : Network Row) : Prop :=
  forall n url, dns net n url = true.

(** Rows that are their own time value, made into records of one day. *)
Definition sampleFormat (rows : list Z) : list Kline.t :=
  map (fun _ => sampleRecord "2024-01-01" 100 0) rows.

(** A network that answers nothing but errors, and one that answers the
    first request with a page of one row and every later one with an error. *)
Definition downNet : Network Z :=
  {| dns := fun _ _ => true;
     http := fun _ _ _ => Throw (Error "timeout of 30000ms exceeded");
     random := fun _ => 0.5%float |}.

Definition flakyNet : Network Z :=
  {| dns := fun _ _ => true;
     http := fun n _ _ =>
               if (n <? 2)%nat then Normal [1000]
               else Throw (Error "timeout of 30000ms exceeded");
     random := fun _ => 0.5%float |}.

(** ** Notions of the further properties *)

(** A day of the map has distinct source keys and at least one record. *)
Definition fullDay (d : Day.t) : Prop := wfDay d /\ Day.exchanges d <> [].

(** One visit of the analyzer's pass: a date, a source and its record. *)
Module Visit.
Record t : Type := mk {
  date : string;
  exchange : string;
  data : Kline.t
}.
End Visit.

(** The visits of a day, key by key, and of the days, day by day. *)
Definition visitsOf (d : Day.t) : list Visit.t :=
  flat_map (fun k => match Obj.get k (Day.exchanges d) with
                     | Some r => [Visit.mk (Day.date d) k r]
                     | None => []
                     end)
    (Obj.keys (Day.exchanges d)).

Definition visited (mergedData : list Day.t) : list Visit.t :=
  flat_map visitsOf mergedData.

(** The closes of a source, in the order of the visits. *)
Definition closesOf (exchange : string) (visits : list Visit.t) : list JsVal :=
  flat_map (fun v => if String.eqb (Visit.exchange v) exchange
                     then [Kline.close (Visit.data v)] else [])
    visits.

(** The running sum of [sum += close], from 0. *)
Definition sumOf (closes : list JsVal) : float :=
  fold_left (fun sum close => (sum + ToNumber close)%float) closes 0%float.

(** The entry of a source in [price.averages] after these closes. *)
Definition averageOf (closes : list JsVal) : option PriceAverage.t :=
  match closes with
  | [] => None
  | _ => Some (PriceAverage.mk (sumOf closes) (length closes) closes)
  end.

(** A counter of the trends is missing or 0. *)
Definition noneOrZero (n : option nat) : Prop := n = None \/ n = Some O.

(** What the counters of the trends satisfy for a source: when its up
    counter is 0 its two other counters hold at most one day, and its
    streaks are 0 or missing. *)
Definition countersKept (t : Trends.t) (ex : string) : Prop :=
  (Obj.get ex (Trends.upDays t) = Some O ->
   exists dn fl, Obj.get ex (Trends.downDays t) = Some dn
                 /\ Obj.get ex (Trends.flatDays t) = Some fl /\ (dn + fl <= 1)%nat)
  /\ noneOrZero (Obj.get ex (Trends.maxUpStreak t))
  /\ noneOrZero (Obj.get ex (Trends.maxDownStreak t)).

(** A run in increment mode where every file can be written, and a run in
    full mode where the anomalies file cannot. *)
Definition incrementEnv : Env.t :=
  Env.mk "increment" "20240102" "20240103" (fun _ => true).

Definition readOnlyAnomaliesEnv : Env.t :=
  Env.mk "full" "20170701" "20240102"
    (fun filename => negb (String.eqb filename "btc_price_anomalies.json")).

(** Every lookup of the network fails. *)
Definition lookupsFail {Row : Type} (net : Network Row) : Prop :=
  forall n url, dns net n url = false.

(** Every page the network answers ends after the start time it was asked
    for (an empty page, or one whose last row has no time, ends the loop). *)
Definition pagesAdvance {Row : Type} (timeOf : Row -> option Z) (net : Network Row)
  : Prop :=
  forall n url t rows,
    http net n url (Some t) = Normal rows ->
    match lastTime timeOf rows with
    | Some t' => t < t'
    | None => True
    end.

(** The network answers every request for the window that starts at
    [startTime] with the same page. *)
Definition answersWith {Row : Type} (net : Network Row) (startTime : Z)
  (page : list Row) : Prop :=
  forall n url, http net n url (Some startTime) = Normal page.

(** A network whose pages hold one row, 1000 after the start time asked
    for, and one that answers every request with the row 1000. *)
Definition advancingNet : Network Z :=
  {| dns := fun _ _ => true;
     http := fun _ _ startTime =>
               match startTime with
               | Some t => Normal [t + 1000]
               | None => Normal []
               end;
     random := fun _ => 0.5%float |}.

Definition stuckNet : Network Z :=
  {| dns := fun _ _ => true;
     http := fun _ _ _ => Normal [1000];
     random := fun _ => 0.5%float |}.

(** A run in which no file can be written. *)
Definition readOnlyEnv : Env.t :=
  Env.mk "full" "20170701" "20240102" (fun _ => false).

(** One source falling for two days in a row. *)
Definition sampleFalling : list Day.t :=
  [ Day.mk "2024-01-01" [("A", sampleRecord "2024-01-01" 102 0)];
    Day.mk "2024-01-02" [("A", sampleRecord "2024-01-02" 101 0)];
    Day.mk "2024-01-03" [("A", sampleRecord "2024-01-03" 100 0)] ].

(** The analysis of these days. *)
Definition sampleFallingAnalysis : Analysis :=
  match analyzeData libLog libPow libFormat libFixed sampleFalling with
  | Normal a => a
  | Throw _ => emptyAnalysis
  end.

(* ===================================================================== *)
(** * Properties of objects *)
(* ===================================================================== *)

Lemma get_of_key {V : Type} (k : string) (o : list (string * V)) :
  In k (Obj.keys o) -> exists v, Obj.get k o = Some v.
Proof.
  induction o as [|[k' v'] o IH]; simpl; [tauto|].
  intros [Heq | Hin].
  - subst k'. rewrite String.eqb_refl. eauto.
  - destruct (String.eqb k k'); eauto.
Qed.

Lemma get_none_not_key {V : Type} (k : string) (o : list (string * V)) :
  Obj.get k o = None <-> ~ In k (Obj.keys o).
Proof.
  induction o as [|[k' v'] o IH]; simpl; [tauto|].
  destruct (String.eqb_spec k k') as [->|Hne].
  - split; [discriminate | intros H; exfalso; auto].
  - rewrite IH. split; [intros H [E|E]; [congruence | tauto] | tauto].
Qed.

Lemma get_set_same {V : Type} (k : string) (v : V) (o : list (string * V)) :
  Obj.get k (Obj.set k v o) = Some v.
Proof.
  induction o as [|[k' v'] o IH]; simpl.
  - now rewrite String.eqb_refl.
  - destruct (String.eqb k k') eqn:E; simpl; rewrite E; auto.
Qed.

Lemma get_set_other {V : Type} (k k0 : string) (v : V) (o : list (string * V)) :
  k0 <> k -> Obj.get k0 (Obj.set k v o) = Obj.get k0 o.
Proof.
  intros Hne. induction o as [|[k' v'] o IH]; simpl.
  - destruct (String.eqb_spec k0 k); congruence.
  - destruct (String.eqb_spec k k') as [->|Hkk']; simpl.
    + destruct (String.eqb_spec k0 k'); congruence.
    + now rewrite IH.
Qed.

Lemma keys_set {V : Type} (k : string) (v : V) (o : list (string * V)) :
  Obj.keys (Obj.set k v o) =
  if Obj.has k o then Obj.keys o else Obj.keys o ++ [k].
Proof.
  unfold Obj.has. induction o as [|[k' v'] o IH]; simpl; [reflexivity|].
  destruct (String.eqb k k') eqn:E; simpl; [reflexivity|].
  rewrite IH. now destruct (Obj.get k o).
Qed.

Lemma has_true_iff {V : Type} (k : string) (o : list (string * V)) :
  Obj.has k o = true <-> In k (Obj.keys o).
Proof.
  unfold Obj.has. destruct (Obj.get k o) eqn:E.
  - split; [intros _|reflexivity].
    destruct (in_dec string_dec k (Obj.keys o)) as [H|H]; [exact H|].
    apply get_none_not_key in H. congruence.
  - apply get_none_not_key in E. split; [discriminate | tauto].
Qed.

Lemma NoDup_keys_set {V : Type} (k : string) (v : V) (o : list (string * V)) :
  NoDup (Obj.keys o) -> NoDup (Obj.keys (Obj.set k v o)).
Proof.
  intros Hnd. rewrite keys_set. destruct (Obj.has k o) eqn:E; [exact Hnd|].
  apply NoDup_app. split; [exact Hnd|]. split.
  - intros x Hx Hin. apply list_elem_of_In in Hx, Hin. simpl in Hin.
    destruct Hin as [<-|[]]. apply has_true_iff in Hx. congruence.
  - apply NoDup_singleton.
Qed.

(* ===================================================================== *)
(** * The validator, day by day *)
(* ===================================================================== *)

Lemma addAnomalies_nil (st : DayState) : addAnomalies [] [] [] [] st = st.
Proof.
  destruct st as [[v [a b c d] s] f]. unfold addAnomalies; simpl.
  rewrite !app_nil_r, !andb_true_r. reflexivity.
Qed.

Lemma addAnomalies_compose pd vs dm pg pd' vs' dm' pg' (st : DayState) :
  addAnomalies pd' vs' dm' pg' (addAnomalies pd vs dm pg st) =
  addAnomalies (pd ++ pd') (vs ++ vs') (dm ++ dm') (pg ++ pg') st.
Proof.
  destruct st as [[v [a b c d] s] f]. unfold addAnomalies; simpl.
  rewrite <- !app_assoc. f_equal.
  destruct f, pd, vs, dm, pg, pd', vs', dm', pg'; reflexivity.
Qed.

Lemma checkCompleteness_spec (dayData : Day.t) (st : DayState) :
  checkCompleteness dayData (Obj.keys (Day.exchanges dayData)) st =
  addAnomalies [] [] (missingOf dayData) [] st.
Proof.
  unfold checkCompleteness, missingOf.
  destruct (forallb _ _); simpl.
  - now rewrite addAnomalies_nil.
  - destruct st as [[v [a b c d] s] f]. unfold addAnomalies, push_dataMissing; simpl.
    rewrite !app_nil_r, !andb_false_r. reflexivity.
Qed.

Lemma mapM_close (dayData : Day.t) (ks : list string) :
  (forall k, In k ks -> In k (Obj.keys (Day.exchanges dayData))) ->
  mapM (fun e => let* d := prop (Obj.get e (Day.exchanges dayData)) "close"
                 in Normal (Kline.close d)) ks
  = Normal (map (closeOf dayData) ks).
Proof.
  induction ks as [|k ks IH]; intros Hin; simpl; [reflexivity|].
  destruct (get_of_key k (Day.exchanges dayData)) as [r Hr]; [apply Hin; now left|].
  unfold closeOf at 1. rewrite Hr. simpl.
  rewrite IH by (intros; apply Hin; now right). reflexivity.
Qed.

Lemma checkPrices_spec (dayData : Day.t) (st : DayState) :
  checkPrices dayData (Obj.keys (Day.exchanges dayData)) st =
  Normal (addAnomalies (priceDiffOf dayData) [] [] [] st).
Proof.
  unfold checkPrices, priceDiffOf.
  set (ks := Obj.keys (Day.exchanges dayData)).
  replace (2 <=? length ks)%nat with (1 <? length ks)%nat
    by (destruct (length ks) as [|[|n]]; reflexivity).
  destruct (1 <? length ks)%nat eqn:Hlen; [|now rewrite addAnomalies_nil].
  rewrite mapM_close by auto. simpl.
  destruct (map (closeOf dayData) ks) as [|p ps] eqn:Hps.
  - destruct ks; [discriminate Hlen | discriminate Hps].
  - simpl. unfold priceSpread, deviation, js_gt. simpl.
    destruct (_ <? _)%float; [|now rewrite addAnomalies_nil].
    destruct st as [[v [a b c d] s] f]. unfold addAnomalies, push_priceDiff; simpl.
    rewrite !app_nil_r, !andb_false_r. reflexivity.
Qed.

Lemma checkVolume_spec mergedData index (dayData : Day.t) (k : string) (st : DayState) :
  In k (Obj.keys (Day.exchanges dayData)) ->
  checkVolume mergedData index dayData k st =
  Normal (addAnomalies [] (spikeOf mergedData index dayData k) [] [] st).
Proof.
  intros Hk. unfold checkVolume, spikeOf, volumeOf.
  destruct (get_of_key k (Day.exchanges dayData) Hk) as [r Hr]. rewrite Hr. simpl.
  unfold js_gt. destruct (_ <? _)%float; [|now rewrite addAnomalies_nil].
  destruct st as [[v [a b c d] s] f]. unfold addAnomalies, push_volumeSpike; simpl.
  rewrite !app_nil_r, !andb_false_r. reflexivity.
Qed.

Lemma forEach_checkVolume mergedData index (dayData : Day.t) (ks : list string)
  (st : DayState) :
  (forall k, In k ks -> In k (Obj.keys (Day.exchanges dayData))) ->
  forEachM (checkVolume mergedData index dayData) ks st =
  Normal (addAnomalies [] (flat_map (spikeOf mergedData index dayData) ks) [] [] st).
Proof.
  revert st. induction ks as [|k ks IH]; intros st Hin; simpl.
  - now rewrite addAnomalies_nil.
  - rewrite checkVolume_spec by (apply Hin; now left). simpl.
    rewrite IH by (intros; apply Hin; now right).
    now rewrite addAnomalies_compose.
Qed.

Lemma checkGap_spec mergedData i (prevDay dayData : Day.t) (k : string) (st : DayState) :
  nth_error mergedData i = Some prevDay ->
  checkGap mergedData (S i) dayData k st =
  Normal (addAnomalies [] [] [] (gapOf prevDay dayData k) st).
Proof.
  intros Hprev. unfold checkGap, gapOf. simpl. rewrite Nat.sub_0_r, Hprev. simpl.
  destruct (Obj.get k (Day.exchanges prevDay)); [|now rewrite addAnomalies_nil].
  destruct (Obj.get k (Day.exchanges dayData)); [|now rewrite addAnomalies_nil].
  unfold js_gt. destruct (_ <? _)%float; [|now rewrite addAnomalies_nil].
  destruct st as [[v [a b c d] s] f]. unfold addAnomalies, push_priceGap; simpl.
  rewrite !app_nil_r, !andb_false_r. reflexivity.
Qed.

Lemma forEach_checkGap mergedData i (prevDay dayData : Day.t) (ks : list string)
  (st : DayState) :
  nth_error mergedData i = Some prevDay ->
  forEachM (checkGap mergedData (S i) dayData) ks st =
  Normal (addAnomalies [] [] [] (flat_map (gapOf prevDay dayData) ks) st).
Proof.
  intros Hprev. revert st. induction ks as [|k ks IH]; intros st; simpl.
  - now rewrite addAnomalies_nil.
  - rewrite (checkGap_spec _ _ prevDay) by assumption. simpl.
    rewrite IH. now rewrite addAnomalies_compose.
Qed.

(** One iteration never throws when the previous day exists. *)
Lemma validateDay_spec mergedData (dayData : Day.t) (index : nat)
  (r : ValidationResults) :
  (index <= length mergedData)%nat ->
  validateDay mergedData dayData index r = Normal (dayStep mergedData dayData index r).
Proof.
  intros Hidx. unfold validateDay, dayStep.
  rewrite checkCompleteness_spec, checkPrices_spec. cbn [bind].
  rewrite forEach_checkVolume by auto. cbn [bind].
  rewrite !addAnomalies_compose. cbn [app].
  destruct index as [|i]; cbn [Nat.ltb Nat.leb bind gapsOf].
  - rewrite !app_nil_r. reflexivity.
  - destruct (nth_error mergedData i) as [prevDay|] eqn:Hprev.
    + rewrite (forEach_checkGap _ _ prevDay) by assumption. cbn [bind].
      rewrite addAnomalies_compose, !app_nil_r. reflexivity.
    + apply nth_error_None in Hprev. lia.
Qed.

Lemma dayStep_eq mergedData (dayData : Day.t) (index : nat) (r : ValidationResults) :
  let kept := noRuleFired mergedData index dayData in
  dayStep mergedData dayData index r =
  {| valid := valid r ++ (if kept then [dayData] else []);
     anomalies :=
       {| priceDiff := priceDiff (anomalies r) ++ priceDiffOf dayData;
          volumeSpikes := volumeSpikes (anomalies r) ++ spikesOf mergedData index dayData;
          dataMissing := dataMissing (anomalies r) ++ missingOf dayData;
          priceGaps := priceGaps (anomalies r) ++ gapsOf mergedData index dayData |};
     stats :=
       {| totalDays := S (totalDays (stats r));
          validDays := validDays (stats r) + (if kept then 1 else 0);
          exchangeCoverage :=
            if kept
            then fold_left bumpCoverage (Obj.keys (Day.exchanges dayData))
                   (exchangeCoverage (stats r))
            else exchangeCoverage (stats r) |} |}.
Proof.
  unfold dayStep, noRuleFired, addAnomalies, updateStats. cbn [fst snd andb].
  destruct (isNil (missingOf dayData)), (isNil (priceDiffOf dayData)),
    (isNil (spikesOf mergedData index dayData)),
    (isNil (gapsOf mergedData index dayData)); cbn [andb];
    rewrite ?app_nil_r, ?Nat.add_0_r, ?Nat.add_1_r; reflexivity.
Qed.

Lemma forEachIdx_validate mergedData (days : list Day.t) (index : nat)
  (r : ValidationResults) :
  (index + length days <= length mergedData)%nat ->
  forEachIdx (validateDay mergedData) days index r =
  Normal (daySteps mergedData days index r).
Proof.
  revert index r. induction days as [|d days IH]; intros index r Hlen.
  - reflexivity.
  - cbn [forEachIdx daySteps]. cbn [length] in Hlen.
    rewrite validateDay_spec by lia. cbn [bind]. apply IH. lia.
Qed.

Lemma validateData_eq (mergedData : list Day.t) :
  validateData mergedData = Normal (daySteps mergedData mergedData 0 emptyResults).
Proof. unfold validateData. apply forEachIdx_validate. simpl. lia. Qed.

Lemma daySteps_valid mergedData (days : list Day.t) (index : nat) r :
  valid (daySteps mergedData days index r) = valid r ++ keptDays mergedData index days.
Proof.
  revert index r. induction days as [|d days IH]; intros index r; cbn [daySteps].
  - unfold keptDays. simpl. now rewrite app_nil_r.
  - rewrite IH, dayStep_eq. cbn [valid]. unfold keptDays. cbn [flatMapIdx].
    now rewrite <- app_assoc.
Qed.

Lemma daySteps_anomalies mergedData (days : list Day.t) (index : nat) r :
  let a := anomalies (daySteps mergedData days index r) in
  priceDiff a = priceDiff (anomalies r) ++ flatMapIdx (fun _ d => priceDiffOf d) index days
  /\ volumeSpikes a =
     volumeSpikes (anomalies r) ++ flatMapIdx (spikesOf mergedData) index days
  /\ dataMissing a = dataMissing (anomalies r) ++ flatMapIdx (fun _ d => missingOf d) index days
  /\ priceGaps a = priceGaps (anomalies r) ++ flatMapIdx (gapsOf mergedData) index days.
Proof.
  revert index r. induction days as [|d days IH]; intros index r; cbn [daySteps flatMapIdx].
  - rewrite !app_nil_r. auto.
  - destruct (IH (S index) (dayStep mergedData d index r)) as (H1 & H2 & H3 & H4).
    cbn zeta in *. rewrite H1, H2, H3, H4, dayStep_eq. cbn [anomalies priceDiff
      volumeSpikes dataMissing priceGaps]. rewrite <- !app_assoc. auto.
Qed.

Lemma daySteps_days mergedData (days : list Day.t) (index : nat) r :
  totalDays (stats (daySteps mergedData days index r)) =
    (totalDays (stats r) + length days)%nat
  /\ validDays (stats (daySteps mergedData days index r)) =
    (validDays (stats r) + length (keptDays mergedData index days))%nat.
Proof.
  revert index r. induction days as [|d days IH]; intros index r; cbn [daySteps].
  - unfold keptDays. simpl. lia.
  - destruct (IH (S index) (dayStep mergedData d index r)) as [H1 H2].
    rewrite H1, H2, dayStep_eq. cbn [stats totalDays validDays length].
    unfold keptDays. cbn [flatMapIdx]. rewrite length_app.
    destruct (noRuleFired mergedData index d); simpl; lia.
Qed.

(** The counter of [exchange] goes up by one, the others stay. *)
Lemma bumpCoverage_lookup (coverage : gmap string nat) (exchange k : string) :
  default O (bumpCoverage coverage exchange !! k) =
  (default O (coverage !! k) + (if String.eqb k exchange then 1 else 0))%nat.
Proof.
  unfold bumpCoverage.
  destruct (String.eqb_spec k exchange) as [->|Hne].
  - rewrite lookup_alter_eq.
    destruct (coverage !! exchange) as [[|n]|] eqn:E.
    + rewrite lookup_insert_eq. simpl. reflexivity.
    + rewrite E. simpl. lia.
    + rewrite lookup_insert_eq. simpl. reflexivity.
  - rewrite lookup_alter_ne by congruence.
    destruct (coverage !! exchange) as [[|n]|] eqn:E;
      rewrite ?lookup_insert_ne by congruence; lia.
Qed.

Lemma bumpCoverage_fold (ks : list string) (coverage : gmap string nat) (k : string) :
  NoDup ks ->
  default O (fold_left bumpCoverage ks coverage !! k) =
  (default O (coverage !! k) + (if in_dec string_dec k ks then 1 else 0))%nat.
Proof.
  intros Hnd. revert coverage. induction Hnd as [|k0 ks Hnotin Hnd IH]; intros coverage.
  - simpl. lia.
  - cbn [fold_left]. rewrite IH, bumpCoverage_lookup.
    rewrite list_elem_of_In in Hnotin.
    destruct (String.eqb_spec k k0) as [->|Hne].
    + destruct (in_dec string_dec k0 ks) as [Hin|_].
      * exfalso. now apply Hnotin.
      * destruct (in_dec string_dec k0 (k0 :: ks)) as [_|Hn]; [lia|].
        exfalso. apply Hn. now left.
    + destruct (in_dec string_dec k ks) as [Hin|Hn];
      destruct (in_dec string_dec k (k0 :: ks)) as [Hin'|Hn']; try lia.
      * exfalso. apply Hn'. now right.
      * exfalso. destruct Hin' as [E|E]; [congruence | tauto].
Qed.

Lemma bumpCoverage_positive (coverage : gmap string nat) (exchange : string) :
  (forall k n, coverage !! k = Some n -> (0 < n)%nat) ->
  forall k n, bumpCoverage coverage exchange !! k = Some n -> (0 < n)%nat.
Proof.
  intros Hpos k n. unfold bumpCoverage.
  destruct (String.eqb_spec k exchange) as [->|Hne].
  - rewrite lookup_alter_eq.
    destruct (coverage !! exchange) as [[|m]|] eqn:E;
      rewrite ?lookup_insert_eq, ?E; simpl; intros [= <-]; lia.
  - rewrite lookup_alter_ne by congruence.
    destruct (coverage !! exchange) as [[|m]|] eqn:E;
      rewrite ?lookup_insert_ne by congruence; apply Hpos.
Qed.

Lemma fold_bumpCoverage_positive (ks : list string) (coverage : gmap string nat) :
  (forall k n, coverage !! k = Some n -> (0 < n)%nat) ->
  forall k n, fold_left bumpCoverage ks coverage !! k = Some n -> (0 < n)%nat.
Proof.
  revert coverage. induction ks as [|k0 ks IH]; intros coverage Hpos; simpl; [exact Hpos|].
  apply IH. now apply bumpCoverage_positive.
Qed.

Lemma daysWith_app (k : string) (l1 l2 : list Day.t) :
  daysWith k (l1 ++ l2) = (daysWith k l1 + daysWith k l2)%nat.
Proof. unfold daysWith. now rewrite List.filter_app, length_app. Qed.

Lemma daySteps_coverage mergedData (days : list Day.t) (index : nat) r (k : string) :
  Forall wfDay days ->
  default O (exchangeCoverage (stats (daySteps mergedData days index r)) !! k) =
  (default O (exchangeCoverage (stats r) !! k)
   + daysWith k (keptDays mergedData index days))%nat.
Proof.
  intros Hwf. revert index r.
  induction Hwf as [|d days Hd Hwf IH]; intros index r; cbn [daySteps].
  - unfold keptDays, daysWith. simpl. lia.
  - rewrite IH, dayStep_eq. cbn [stats exchangeCoverage].
    unfold keptDays. cbn [flatMapIdx]. rewrite daysWith_app.
    fold (keptDays mergedData (S index) days).
    destruct (noRuleFired mergedData index d).
    + rewrite bumpCoverage_fold by exact Hd.
      unfold daysWith at 2. cbn [List.filter].
      destruct (in_dec string_dec k (Obj.keys (Day.exchanges d))) as [Hin|Hn].
      * apply has_true_iff in Hin. rewrite Hin. simpl. lia.
      * destruct (Obj.has k (Day.exchanges d)) eqn:E.
        -- apply has_true_iff in E. tauto.
        -- simpl. lia.
    + unfold daysWith at 2. simpl. lia.
Qed.

Lemma daySteps_coverage_positive mergedData (days : list Day.t) (index : nat) r :
  (forall k n, exchangeCoverage (stats r) !! k = Some n -> (0 < n)%nat) ->
  forall k n,
    exchangeCoverage (stats (daySteps mergedData days index r)) !! k = Some n ->
    (0 < n)%nat.
Proof.
  revert index r. induction days as [|d days IH]; intros index r Hpos; cbn [daySteps].
  - exact Hpos.
  - apply IH. rewrite dayStep_eq. cbn [stats exchangeCoverage].
    destruct (noRuleFired mergedData index d); [|exact Hpos].
    now apply fold_bumpCoverage_positive.
Qed.

Lemma In_flatMapIdx {A B : Type} (f : nat -> A -> list B) (l : list A) (index : nat)
  (y : B) :
  In y (flatMapIdx f index l) <->
  exists i x, nth_error l i = Some x /\ In y (f (index + i)%nat x).
Proof.
  revert index. induction l as [|x l IH]; intros index; cbn [flatMapIdx].
  - split; [intros [] | intros (i & x & H & _); destruct i; discriminate].
  - rewrite in_app_iff, IH. split.
    + intros [H | (i & x' & Hn & Hy)].
      * exists O, x. rewrite Nat.add_0_r. auto.
      * exists (S i), x'. rewrite Nat.add_succ_r. auto.
    + intros (i & x' & Hn & Hy). destruct i as [|i].
      * left. simpl in Hn. injection Hn as ->. now rewrite Nat.add_0_r in Hy.
      * right. exists i, x'. rewrite Nat.add_succ_r in Hy. auto.
Qed.

(** C2. The validator returns a result for every merged sequence. A day is
    in [valid] exactly when none of the four rules reported an entry for it
    (the four anomaly lists being the entries the rules report, day by day),
    [stats.validDays] is the length of [valid] and [stats.totalDays] that of
    the input, and [exchangeCoverage] holds for each source the number of
    valid days that have a record of that source (no entry when there is
    none). *)
Theorem validateData_valid_and_coverage (mergedData : list Day.t) :
  Forall wfDay mergedData ->
  exists r,
    validateData mergedData = Normal r
    /\ valid r = keptDays mergedData 0 mergedData
    /\ (forall d, In d (valid r) <->
          exists i, nth_error mergedData i = Some d
                    /\ noRuleFired mergedData i d = true)
    /\ priceDiff (anomalies r) = flatMapIdx (fun _ d => priceDiffOf d) 0 mergedData
    /\ volumeSpikes (anomalies r) = flatMapIdx (spikesOf mergedData) 0 mergedData
    /\ dataMissing (anomalies r) = flatMapIdx (fun _ d => missingOf d) 0 mergedData
    /\ priceGaps (anomalies r) = flatMapIdx (gapsOf mergedData) 0 mergedData
    /\ validDays (stats r) = length (valid r)
    /\ totalDays (stats r) = length mergedData
    /\ (forall s, exchangeCoverage (stats r) !! s =
                  match daysWith s (valid r) with
                  | O => None
                  | S n => Some (S n)
                  end).
Proof.
  intros Hwf. eexists. split; [apply validateData_eq|].
  pose proof (daySteps_valid mergedData mergedData 0 emptyResults) as Hv.
  cbn [valid emptyResults app] in Hv.
  destruct (daySteps_anomalies mergedData mergedData 0 emptyResults) as (A1 & A2 & A3 & A4).
  destruct (daySteps_days mergedData mergedData 0 emptyResults) as [D1 D2].
  repeat split; try assumption.
  - rewrite Hv. unfold keptDays. rewrite In_flatMapIdx.
    intros (i & x & Hn & Hy). cbn [Nat.add] in Hy.
    destruct (noRuleFired mergedData i x) eqn:E; [|destruct Hy].
    destruct Hy as [<-|[]]. eauto.
  - intros (i & Hn & Hk). rewrite Hv. unfold keptDays. apply In_flatMapIdx.
    exists i, d. split; [exact Hn|]. cbn [Nat.add]. rewrite Hk. now left.
  - rewrite D2, Hv. reflexivity.
  - intros s.
    pose proof (daySteps_coverage mergedData mergedData 0 emptyResults s Hwf) as Hc.
    cbn [emptyResults stats exchangeCoverage] in Hc.
    rewrite lookup_empty in Hc. cbn [default Nat.add] in Hc. rewrite <- Hv in Hc.
    pose proof (daySteps_coverage_positive mergedData mergedData 0 emptyResults) as Hp.
    cbn [emptyResults stats exchangeCoverage] in Hp.
    specialize (Hp (fun k n H => ltac:(rewrite lookup_empty in H; discriminate)) s).
    destruct (exchangeCoverage (stats (daySteps mergedData mergedData 0 emptyResults)) !! s)
      as [n|] eqn:E.
    + specialize (Hp n eq_refl). cbn [default] in Hc. rewrite <- Hc.
      destruct n; [lia | reflexivity].
    + cbn [default] in Hc. now rewrite <- Hc.
Qed.

(* ===================================================================== *)
(** * Facts about binary64 arithmetic *)
(* ===================================================================== *)

Lemma SFltb_irrefl (s : spec_float) : SFltb s s = false.
Proof.
  unfold SFltb. destruct s as [b|b| |b m e]; simpl; try reflexivity.
  - now destruct b.
  - destruct b; rewrite Z.compare_refl, Pos.compare_cont_refl; reflexivity.
Qed.

Lemma ltb_irrefl (x : float) : (x <? x)%float = false.
Proof. rewrite FloatAxioms.ltb_spec. apply SFltb_irrefl. Qed.

Lemma sub_self (x : float) :
  Prim2SF (x - x) = S754_nan \/ Prim2SF (x - x) = S754_zero false.
Proof.
  rewrite FloatAxioms.sub_spec. unfold SF64sub, SFsub.
  destruct (Prim2SF x) as [b|b| |b m e]; auto.
  - destruct b; auto.
  - destruct b; auto.
  - right. rewrite Z.sub_diag. reflexivity.
Qed.

Lemma no_deviation (D mean : float) :
  Prim2SF D = S754_nan \/ Prim2SF D = S754_zero false ->
  (1 <? D / mean * 100)%float = false.
Proof.
  intros H. rewrite FloatAxioms.ltb_spec, FloatAxioms.mul_spec, FloatAxioms.div_spec.
  replace (Prim2SF 100) with (S754_finite false 7036874417766400 (-46)) by reflexivity.
  replace (Prim2SF 1) with (S754_finite false 4503599627370496 (-52)) by reflexivity.
  destruct H as [-> | ->]; [reflexivity|].
  destruct (Prim2SF mean) as [b|b| |b m e]; reflexivity.
Qed.

Lemma not_nan_SF (x : float) : is_nan x = false -> Prim2SF x <> S754_nan.
Proof.
  unfold is_nan. rewrite FloatAxioms.eqb_spec. intros H E. rewrite E in H. discriminate.
Qed.

Lemma not_above_neg_infinity (x : float) :
  is_nan x = false -> (neg_infinity <? x)%float = false -> x = neg_infinity.
Proof.
  intros Hn Hlt. apply not_nan_SF in Hn. rewrite FloatAxioms.ltb_spec in Hlt.
  apply Prim2SF_inj. change (Prim2SF neg_infinity) with (S754_infinity true) in *.
  destruct (Prim2SF x) as [b|b| |b m e]; try destruct b;
    cbn in Hlt; try discriminate; try congruence.
Qed.

Lemma not_below_infinity (x : float) :
  is_nan x = false -> (x <? infinity)%float = false -> x = infinity.
Proof.
  intros Hn Hlt. apply not_nan_SF in Hn. rewrite FloatAxioms.ltb_spec in Hlt.
  apply Prim2SF_inj. change (Prim2SF infinity) with (S754_infinity false) in *.
  destruct (Prim2SF x) as [b|b| |b m e]; try destruct b;
    cbn in Hlt; try discriminate; try congruence.
Qed.

Lemma zero_signs (x : float) : is_pos_zero x && is_neg_zero x = false.
Proof. unfold is_pos_zero, is_neg_zero. destruct (classify x); reflexivity. Qed.

Lemma Math_max_from_same (x : float) (l : list float) :
  is_nan x = false -> (forall y, In y l -> y = x) -> Math_max_from x l = x.
Proof.
  intros Hn. induction l as [|y l IH]; intros Hall; simpl; [reflexivity|].
  rewrite (Hall y) by now left. rewrite Hn, zero_signs, ltb_irrefl. simpl.
  apply IH. intros; apply Hall; now right.
Qed.

Lemma Math_min_from_same (x : float) (l : list float) :
  is_nan x = false -> (forall y, In y l -> y = x) -> Math_min_from x l = x.
Proof.
  intros Hn. induction l as [|y l IH]; intros Hall; simpl; [reflexivity|].
  rewrite (Hall y) by now left. rewrite Hn, andb_comm, zero_signs, ltb_irrefl. simpl.
  apply IH. intros; apply Hall; now right.
Qed.

Lemma Math_max_same (c : JsVal) (prices : list JsVal) :
  prices <> [] -> (forall p, In p prices -> p = c) ->
  Math_max prices = (if isNaN c then nan else ToNumber c).
Proof.
  unfold Math_max, isNaN. destruct prices as [|p prices]; [congruence|]. intros _ Hall.
  cbn [map Math_max_from]. rewrite (Hall p) by now left.
  destruct (is_nan (ToNumber c)) eqn:Hn; [reflexivity|].
  assert (Hrest : forall y, In y (map ToNumber prices) -> y = ToNumber c).
  { intros y Hy. apply in_map_iff in Hy as (q & <- & Hq). f_equal. apply Hall. now right. }
  replace (is_neg_zero neg_infinity) with false by reflexivity. rewrite andb_false_r.
  cbn [orb]. destruct (neg_infinity <? ToNumber c)%float eqn:Hlt.
  - now apply Math_max_from_same.
  - rewrite (not_above_neg_infinity _ Hn Hlt) in *. now apply Math_max_from_same.
Qed.

Lemma Math_min_same (c : JsVal) (prices : list JsVal) :
  prices <> [] -> (forall p, In p prices -> p = c) ->
  Math_min prices = (if isNaN c then nan else ToNumber c).
Proof.
  unfold Math_min, isNaN. destruct prices as [|p prices]; [congruence|]. intros _ Hall.
  cbn [map Math_min_from]. rewrite (Hall p) by now left.
  destruct (is_nan (ToNumber c)) eqn:Hn; [reflexivity|].
  assert (Hrest : forall y, In y (map ToNumber prices) -> y = ToNumber c).
  { intros y Hy. apply in_map_iff in Hy as (q & <- & Hq). f_equal. apply Hall. now right. }
  replace (is_pos_zero infinity) with false by reflexivity. rewrite andb_false_r.
  cbn [orb]. destruct (ToNumber c <? infinity)%float eqn:Hlt.
  - now apply Math_min_from_same.
  - rewrite (not_below_infinity _ Hn Hlt) in *. now apply Math_min_from_same.
Qed.

Lemma identical_prices_no_deviation (c : JsVal) (prices : list JsVal) :
  prices <> [] -> (forall p, In p prices -> p = c) ->
  (1 <? snd (deviation prices))%float = false.
Proof.
  intros Hne Hall. unfold deviation. cbn [snd].
  rewrite (Math_max_same c), (Math_min_same c) by assumption.
  apply no_deviation. destruct (isNaN c); [left; reflexivity | apply sub_self].
Qed.

(* ===================================================================== *)
(** * Rule 2: cross-source price deviation *)
(* ===================================================================== *)

Lemma priceDiffOf_cases (dayData : Day.t) :
  priceDiffOf dayData =
  if (2 <=? length (Obj.keys (Day.exchanges dayData)))%nat
     && (1 <? deviationPercent dayData)%float
  then [priceDiffEntry dayData] else [].
Proof.
  unfold priceDiffOf, priceDiffEntry, deviationPercent.
  destruct (2 <=? _)%nat; [|reflexivity]. cbn [andb].
  destruct (deviation _) as [maxDiff diffPercent]. reflexivity.
Qed.

Lemma entries_dated {A B : Type} (f : nat -> A -> list B) (dateA : A -> string)
  (dateB : B -> string) (l : list A) (index : nat) :
  (forall i x e, In e (f i x) -> dateB e = dateA x) ->
  forall e, In e (flatMapIdx f index l) -> In (dateB e) (map dateA l).
Proof.
  intros Hdate e He. apply In_flatMapIdx in He as (i & x & Hn & Hin).
  apply Hdate in Hin. rewrite Hin. apply in_map. eapply nth_error_In; eauto.
Qed.

(** With distinct dates, the entries dated as a day are those the rules
    reported for that day. *)
Lemma entries_of_date {A B : Type} (f : nat -> A -> list B) (dateA : A -> string)
  (dateB : B -> string) (l : list A) (index : nat) (i : nat) (x : A) (e : B) :
  (forall i x e, In e (f i x) -> dateB e = dateA x) ->
  NoDup (map dateA l) ->
  nth_error l i = Some x ->
  In e (flatMapIdx f index l) -> dateB e = dateA x -> In e (f (index + i)%nat x).
Proof.
  intros Hdate Hnd Hx He Heq.
  apply In_flatMapIdx in He as (j & y & Hy & Hin).
  assert (dateA y = dateA x) as Hsame by (rewrite <- Heq; symmetry; eauto).
  assert (j = i) as ->.
  { apply NoDup_ListNoDup in Hnd.
    apply (proj1 (List.NoDup_nth_error (map dateA l)) Hnd).
    - apply nth_error_Some. rewrite nth_error_map, Hy. discriminate.
    - rewrite !nth_error_map, Hy, Hx. simpl. congruence. }
  congruence.
Qed.

(** C6. On a day with at least two sources, the validator's [priceDiff]
    list holds the day's entry (its date, its sources, the measured
    difference and percentage) exactly when
    [(max(close) - min(close)) / mean(close) * 100] is above 1, and the
    entries rule 2 reports for the day are that entry or none. When all the
    sources of the day have the same close, the rule reports nothing for
    the day, and with distinct dates no [priceDiff] entry carries its date. *)
Theorem priceDeviation_iff_above_one_percent (mergedData : list Day.t)
  (dayData : Day.t) :
  In dayData mergedData ->
  (2 <= length (Obj.keys (Day.exchanges dayData)))%nat ->
  exists r,
    validateData mergedData = Normal r
    /\ priceDiff (anomalies r) = flatMapIdx (fun _ d => priceDiffOf d) 0 mergedData
    /\ (In (priceDiffEntry dayData) (priceDiff (anomalies r))
        <-> (1 <? deviationPercent dayData)%float = true)
    /\ priceDiffOf dayData =
       (if (1 <? deviationPercent dayData)%float then [priceDiffEntry dayData] else [])
    /\ (forall c,
          (forall k, In k (Obj.keys (Day.exchanges dayData)) -> closeOf dayData k = c) ->
          (1 <? deviationPercent dayData)%float = false
          /\ priceDiffOf dayData = []
          /\ (NoDup (map Day.date mergedData) ->
              forall e, In e (priceDiff (anomalies r)) ->
                        PriceDiff.date e <> Day.date dayData)).
Proof.
  intros Hin Hlen. eexists. split; [apply validateData_eq|].
  destruct (daySteps_anomalies mergedData mergedData 0 emptyResults) as (A1 & _).
  cbn [emptyResults anomalies priceDiff app] in A1.
  assert (Hcases : priceDiffOf dayData =
            if (1 <? deviationPercent dayData)%float then [priceDiffEntry dayData] else []).
  { rewrite priceDiffOf_cases. apply Nat.leb_le in Hlen. now rewrite Hlen. }
  split; [exact A1|]. split; [|split; [exact Hcases|]].
  - rewrite A1, In_flatMapIdx. split.
    + intros (i & d & Hd & He). rewrite priceDiffOf_cases in He.
      destruct (_ && _) eqn:E; [|destruct He].
      destruct He as [He|[]]. apply andb_prop in E as [_ E].
      apply (f_equal PriceDiff.diffPercent) in He.
      change (deviationPercent d = deviationPercent dayData) in He.
      now rewrite <- He.
    + intros Hgt. apply In_nth_error in Hin as [i Hi].
      exists i, dayData. split; [exact Hi|]. rewrite Hcases, Hgt. now left.
  - intros c Hsame.
    assert (Hno : (1 <? deviationPercent dayData)%float = false).
    { unfold deviationPercent. apply (identical_prices_no_deviation c).
      - destruct (Obj.keys (Day.exchanges dayData)); [simpl in Hlen; lia | discriminate].
      - intros p Hp. apply in_map_iff in Hp as (k & <- & Hk). now apply Hsame. }
    split; [exact Hno|]. split; [now rewrite Hcases, Hno|].
    intros Hnd e He Hdate. rewrite A1 in He.
    apply In_nth_error in Hin as [i Hi].
    eapply (entries_of_date _ Day.date PriceDiff.date) in He; eauto.
    + rewrite Hcases, Hno in He. destruct He.
    + intros j x e' He'. rewrite priceDiffOf_cases in He'.
      destruct (_ && _); [|destruct He']. destruct He' as [<-|[]]. reflexivity.
Qed.

(* ===================================================================== *)
(** * Rule 1: completeness *)
(* ===================================================================== *)

Lemma isNaN_iff (v : JsVal) :
  isNaN v = true <-> v = JUndefined \/ exists f, v = JNumber f /\ is_nan f = true.
Proof.
  destruct v as [|f]; unfold isNaN; simpl.
  - split; [auto | reflexivity].
  - split; [eauto | intros [H|(g & [= ->] & H)]; [discriminate | exact H]].
Qed.

Lemma key_of_get {V : Type} (k : string) (v : V) (o : list (string * V)) :
  Obj.get k o = Some v -> In k (Obj.keys o).
Proof.
  intros H. destruct (in_dec string_dec k (Obj.keys o)) as [Hin|Hn]; [exact Hin|].
  apply get_none_not_key in Hn. congruence.
Qed.

Lemma missingOf_incomplete (dayData : Day.t) (k : string) (rec : Kline.t) :
  Obj.get k (Day.exchanges dayData) = Some rec ->
  incompleteRecord rec = true ->
  missingOf dayData =
  [DataMissing.mk (Day.date dayData) (Obj.keys (Day.exchanges dayData))].
Proof.
  intros Hget Hinc. unfold missingOf.
  destruct (forallb _ _) eqn:E; [|reflexivity].
  rewrite forallb_forall in E. specialize (E k (key_of_get _ _ _ Hget)).
  unfold completeRecord in E. rewrite Hget in E.
  unfold incompleteRecord in Hinc.
  destruct (isNaN (Kline.open rec)), (isNaN (Kline.high rec)),
    (isNaN (Kline.low rec)), (isNaN (Kline.close rec)),
    (isNaN (Kline.volume rec)); discriminate.
Qed.

Lemma missingOf_date (dayData : Day.t) (e : DataMissing.t) :
  In e (missingOf dayData) -> DataMissing.date e = Day.date dayData.
Proof.
  unfold missingOf. destruct (forallb _ _); [intros []|].
  intros [<-|[]]. reflexivity.
Qed.

Lemma missingEntriesOn_app (date : string) (l1 l2 : list DataMissing.t) :
  missingEntriesOn date (l1 ++ l2) =
  (missingEntriesOn date l1 + missingEntriesOn date l2)%nat.
Proof. unfold missingEntriesOn. now rewrite List.filter_app, length_app. Qed.

Lemma missingEntriesOn_other (date : string) (l : list DataMissing.t) :
  (forall e, In e l -> DataMissing.date e <> date) -> missingEntriesOn date l = O.
Proof.
  unfold missingEntriesOn. induction l as [|e l IH]; intros H; [reflexivity|].
  cbn [List.filter]. destruct (String.eqb_spec (DataMissing.date e) date) as [E|_].
  - exfalso. apply (H e); [now left | exact E].
  - apply IH. intros; apply H; now right.
Qed.

Lemma missingEntriesOn_day (dayData : Day.t) (days : list Day.t) (index : nat)
  (e : DataMissing.t) :
  NoDup (map Day.date days) -> In dayData days -> missingOf dayData = [e] ->
  missingEntriesOn (Day.date dayData)
    (flatMapIdx (fun _ d => missingOf d) index days) = 1%nat.
Proof.
  intros Hnd Hin Hone. revert index.
  induction days as [|x days IH]; intros index; [destruct Hin|].
  cbn [map] in Hnd. apply NoDup_cons in Hnd as [Hx Hnd]. rewrite list_elem_of_In in Hx.
  cbn [flatMapIdx]. rewrite missingEntriesOn_app. destruct Hin as [->|Hin].
  - rewrite Hone. unfold missingEntriesOn at 1. cbn [List.filter].
    rewrite (missingOf_date dayData e) by (rewrite Hone; now left).
    rewrite String.eqb_refl. cbn [length].
    rewrite missingEntriesOn_other; [reflexivity|].
    intros e' He' Hd. apply Hx. rewrite <- Hd.
    apply (entries_dated (fun _ d => missingOf d) Day.date DataMissing.date days (S index));
      [intros _ d e0; apply missingOf_date | exact He'].
  - rewrite (IH Hnd Hin), (missingEntriesOn_other _ (missingOf x)); [reflexivity|].
    intros e' He' Hd. apply missingOf_date in He'. apply Hx.
    rewrite <- He', Hd. now apply in_map.
Qed.

(** C9. Validation returns a result on every input, never a thrown error.
    For a day on which some source's record has an open, high, low, close
    or volume that is absent or not a number, rule 1 reports exactly one
    entry for the day, carrying its date and its sources; that entry is in
    the [dataMissing] list, which holds the entries of rule 1 day by day,
    and with distinct dates it is the only entry of the list with that
    date. *)
Theorem validateData_missing_once_and_total (mergedData : list Day.t)
  (dayData : Day.t) (exchange : string) (record : Kline.t) :
  In dayData mergedData ->
  Obj.get exchange (Day.exchanges dayData) = Some record ->
  incompleteRecord record = true ->
  (forall days, exists r, validateData days = Normal r)
  /\ exists r,
       validateData mergedData = Normal r
       /\ dataMissing (anomalies r) = flatMapIdx (fun _ d => missingOf d) 0 mergedData
       /\ missingOf dayData =
          [DataMissing.mk (Day.date dayData) (Obj.keys (Day.exchanges dayData))]
       /\ In (DataMissing.mk (Day.date dayData) (Obj.keys (Day.exchanges dayData)))
            (dataMissing (anomalies r))
       /\ (NoDup (map Day.date mergedData) ->
           missingEntriesOn (Day.date dayData) (dataMissing (anomalies r)) = 1%nat).
Proof.
  intros Hin Hget Hinc. split.
  { intros days. eexists. apply validateData_eq. }
  eexists. split; [apply validateData_eq|].
  destruct (daySteps_anomalies mergedData mergedData 0 emptyResults) as (_ & _ & A3 & _).
  cbn [emptyResults anomalies dataMissing app] in A3.
  pose proof (missingOf_incomplete dayData exchange record Hget Hinc) as Hone.
  split; [exact A3|]. split; [exact Hone|]. split.
  - rewrite A3. apply In_flatMapIdx. apply In_nth_error in Hin as [i Hi].
    exists i, dayData. split; [exact Hi|]. rewrite Hone. now left.
  - intros Hnd. rewrite A3. now apply (missingEntriesOn_day dayData mergedData 0 _ Hnd Hin Hone).
Qed.

(* ===================================================================== *)
(** * Rule 3: volume spikes *)
(* ===================================================================== *)

Lemma In_slice {A : Type} (start stop : nat) (l : list A) (x : A) :
  In x (slice start stop l) ->
  exists j, (start <= j < stop)%nat /\ nth_error l j = Some x.
Proof.
  unfold slice. intros H. apply In_nth_error in H as [n Hn].
  assert (n < stop - start)%nat as Hlt.
  { assert (n < length (firstn (stop - start) (skipn start l)))%nat
      by (apply nth_error_Some; congruence).
    rewrite length_firstn in *. lia. }
  rewrite nth_error_firstn in Hn.
  destruct (n <? stop - start)%nat eqn:E; [|apply Nat.ltb_ge in E; lia].
  rewrite nth_error_skipn in Hn. exists (start + n)%nat. split; [lia | exact Hn].
Qed.

Lemma filter_none {A : Type} (f : A -> bool) (l : list A) :
  (forall x, In x l -> f x = false) -> List.filter f l = [].
Proof.
  induction l as [|x l IH]; intros H; [reflexivity|].
  cbn [List.filter]. rewrite (H x) by now left. apply IH. intros; apply H; now right.
Qed.

(** The average is 0 when no day of the window has a record of the source. *)
Lemma calculateAverageVolume_first (data : list Day.t) (exchange : string)
  (currentIndex : nat) :
  (forall j d, (currentIndex - 30 <= j < currentIndex)%nat ->
               nth_error data j = Some d ->
               Obj.get exchange (Day.exchanges d) = None) ->
  calculateAverageVolume data exchange currentIndex = 0%float.
Proof.
  intros Hnone. unfold calculateAverageVolume. cbn zeta. rewrite Nat.max_0_l.
  replace (List.filter is_defined _) with (@nil JsVal); [reflexivity|].
  symmetry. apply filter_none.
  intros v Hv. apply in_map_iff in Hv as (d & <- & Hd).
  apply In_slice in Hd as (j & Hj & Hnth).
  unfold volumeOf. now rewrite (Hnone j d Hj Hnth).
Qed.

Lemma spikesOf_date mergedData index (dayData : Day.t) (e : VolumeSpike.t) :
  In e (spikesOf mergedData index dayData) -> VolumeSpike.date e = Day.date dayData.
Proof.
  unfold spikesOf. intros H. apply in_flat_map in H as (k & _ & H).
  unfold spikeOf in H. destruct (_ <? _)%float; [|destruct H].
  destruct H as [<-|[]]. reflexivity.
Qed.

(** C10. On the first day a source appears (no day among the 30 entries
    before it has a record of that source) the trailing average volume is
    computed as 0; a strictly positive volume of the source on that day then
    puts a [VolumeSpike] entry with average 0 in the result, and the day is
    not kept: the day at that position is left out of [valid], and with
    distinct dates no day of [valid] carries its date. *)
Theorem first_day_volume_is_spike (mergedData : list Day.t) (index : nat)
  (dayData : Day.t) (exchange : string) (record : Kline.t) (v : float) :
  nth_error mergedData index = Some dayData ->
  Obj.get exchange (Day.exchanges dayData) = Some record ->
  (forall j d, (index - 30 <= j < index)%nat ->
               nth_error mergedData j = Some d ->
               Obj.get exchange (Day.exchanges d) = None) ->
  Kline.volume record = JNumber v ->
  (0 <? v)%float = true ->
  calculateAverageVolume mergedData exchange index = 0%float
  /\ exists r,
       validateData mergedData = Normal r
       /\ In (VolumeSpike.mk (Day.date dayData) exchange (JNumber v) 0)
            (volumeSpikes (anomalies r))
       /\ noRuleFired mergedData index dayData = false
       /\ valid r = keptDays mergedData 0 mergedData
       /\ (NoDup (map Day.date mergedData) ->
           forall d, In d (valid r) -> Day.date d <> Day.date dayData).
Proof.
  intros Hday Hget Hfirst Hvol Hpos.
  pose proof (calculateAverageVolume_first mergedData exchange index Hfirst) as Havg.
  split; [exact Havg|]. eexists. split; [apply validateData_eq|].
  destruct (daySteps_anomalies mergedData mergedData 0 emptyResults) as (_ & A2 & _ & _).
  cbn [emptyResults anomalies volumeSpikes app] in A2.
  pose proof (daySteps_valid mergedData mergedData 0 emptyResults) as Hv.
  cbn [valid emptyResults app] in Hv.
  assert (Hspike : In (VolumeSpike.mk (Day.date dayData) exchange (JNumber v) 0)
                      (spikesOf mergedData index dayData)).
  { unfold spikesOf. apply in_flat_map. exists exchange.
    split; [eapply key_of_get; eauto|].
    unfold spikeOf, volumeOf. rewrite Hget, Hvol, Havg.
    change (0 * 3)%float with 0%float. cbn [ToNumber]. rewrite Hpos. now left. }
  assert (Hfired : noRuleFired mergedData index dayData = false).
  { unfold noRuleFired. destruct (spikesOf mergedData index dayData); [destruct Hspike|].
    cbn [isNil]. now rewrite andb_false_r. }
  split; [|split; [exact Hfired|split; [exact Hv|]]].
  - rewrite A2. apply In_flatMapIdx. exists index, dayData. auto.
  - intros Hnd d Hd Hdate. rewrite Hv in Hd. unfold keptDays in Hd.
    eapply (entries_of_date _ Day.date Day.date) in Hd; eauto.
    + cbn [Nat.add] in Hd. rewrite Hfired in Hd. destruct Hd.
    + intros i x e He. destruct (noRuleFired mergedData i x); [|destruct He].
      destruct He as [<-|[]]. reflexivity.
Qed.

(* ===================================================================== *)
(** * The rules on sample days *)
(* ===================================================================== *)

Lemma validateData_valid_and_coverage_witness :
  Forall wfDay sampleMerged
  /\ exists r, validateData sampleMerged = Normal r
               /\ valid r = firstn 1 sampleMerged
               /\ exchangeCoverage (stats r) !! "A" = Some 1%nat.
Proof.
  assert (Hwf : Forall wfDay sampleMerged).
  { apply (bool_decide_unpack _). vm_compute. exact I. }
  split; [exact Hwf|].
  destruct (validateData_valid_and_coverage sampleMerged Hwf)
    as (r & Hr & Hv & _ & _ & _ & _ & _ & _ & _ & Hc).
  exists r. split; [exact Hr|]. split; [rewrite Hv; reflexivity|].
  rewrite Hc, Hv. reflexivity.
Defined.

Lemma priceDeviation_iff_above_one_percent_witness :
  exists r, validateData sampleMerged = Normal r
            /\ In (PriceDiff.mk "2024-01-02" ["A"; "B"] 2 0x1.faee41e6a7498p+0)
                 (priceDiff (anomalies r)).
Proof.
  destruct (priceDeviation_iff_above_one_percent sampleMerged
              (Day.mk "2024-01-02"
                 [("A", sampleRecord "2024-01-02" 100 0);
                  ("B", sampleRecord "2024-01-02" 102 0)]))
    as (r & Hr & _ & Hiff & _).
  - right. left. reflexivity.
  - simpl. lia.
  - exists r. split; [exact Hr|]. apply Hiff. reflexivity.
Defined.

Lemma validateData_missing_once_and_total_witness :
  exists r, validateData sampleIncomplete = Normal r
            /\ dataMissing (anomalies r) = [DataMissing.mk "2024-01-03" ["A"]].
Proof.
  destruct (validateData_missing_once_and_total sampleIncomplete
              (Day.mk "2024-01-03" [("A", sampleIncompleteRecord)])
              "A" sampleIncompleteRecord)
    as (_ & r & Hr & Hall & _).
  - left. reflexivity.
  - reflexivity.
  - reflexivity.
  - exists r. split; [exact Hr|]. rewrite Hall. reflexivity.
Defined.

Lemma first_day_volume_is_spike_witness :
  exists r, validateData sampleFirstDay = Normal r
            /\ In (VolumeSpike.mk "2024-01-02" "A" (JNumber 1000) 0)
                 (volumeSpikes (anomalies r))
            /\ valid r = firstn 1 sampleFirstDay.
Proof.
  destruct (first_day_volume_is_spike sampleFirstDay 1
              (Day.mk "2024-01-02"
                 [("A", sampleRecord "2024-01-02" 100 1000);
                  ("B", sampleRecord "2024-01-02" 100 0)])
              "A" (sampleRecord "2024-01-02" 100 1000) 1000)
    as (_ & r & Hr & Hin & _ & Hv & _).
  - reflexivity.
  - reflexivity.
  - intros j d Hj Hd. destruct j as [|j]; [|simpl in Hj; lia].
    injection Hd as <-. reflexivity.
  - reflexivity.
  - reflexivity.
  - exists r. split; [exact Hr|]. split; [exact Hin|]. rewrite Hv. reflexivity.
Defined.

(* ===================================================================== *)
(** * Time values of calendar days *)
(* ===================================================================== *)

Lemma DayFromYear_succ (y : Z) :
  DayFromYear (y + 1) = DayFromYear y + 365 + (if isLeapYear y then 1 else 0).
Proof.
  unfold DayFromYear, isLeapYear.
  replace (y + 1 - 1970) with (y - 1969) by lia.
  replace (y + 1 - 1969) with (y - 1968) by lia.
  replace (y + 1 - 1901) with (y - 1900) by lia.
  replace (y + 1 - 1601) with (y - 1600) by lia.
  destruct (Z.eqb_spec (y mod 4) 0), (Z.eqb_spec (y mod 100) 0),
    (Z.eqb_spec (y mod 400) 0); cbn [andb orb negb];
    Z.div_mod_to_equations; lia.
Qed.

Lemma DayFromYear_mono (y y' : Z) : y <= y' -> DayFromYear y <= DayFromYear y'.
Proof. intros H. unfold DayFromYear. Z.div_mod_to_equations. lia. Qed.

Lemma dayOfYear_range (y m d : Z) :
  validYMD y m d = true ->
  0 <= dayOfYear y m d <= 364 + (if isLeapYear y then 1 else 0).
Proof.
  unfold validYMD, dayOfYear, daysInMonth, daysBeforeMonth. intros H.
  rewrite !andb_true_iff, !Z.leb_le in H. destruct H as [[[H1 H2] H3] H4].
  assert (m = 1 \/ m = 2 \/ m = 3 \/ m = 4 \/ m = 5 \/ m = 6 \/ m = 7 \/ m = 8
          \/ m = 9 \/ m = 10 \/ m = 11 \/ m = 12) as Hm by lia.
  destruct (isLeapYear y);
    repeat (destruct Hm as [->|Hm]; [cbn in H4 |- *; lia|]); subst m; cbn in H4 |- *; lia.
Qed.

Lemma dayOfYear_inj (y m d m' d' : Z) :
  validYMD y m d = true -> validYMD y m' d' = true ->
  dayOfYear y m d = dayOfYear y m' d' -> m = m' /\ d = d'.
Proof.
  unfold validYMD, dayOfYear, daysInMonth, daysBeforeMonth. intros H H' E.
  rewrite !andb_true_iff, !Z.leb_le in H, H'.
  destruct H as [[[H1 H2] H3] H4]. destruct H' as [[[H1' H2'] H3'] H4'].
  assert (m = 1 \/ m = 2 \/ m = 3 \/ m = 4 \/ m = 5 \/ m = 6 \/ m = 7 \/ m = 8
          \/ m = 9 \/ m = 10 \/ m = 11 \/ m = 12) as Hm by lia.
  assert (m' = 1 \/ m' = 2 \/ m' = 3 \/ m' = 4 \/ m' = 5 \/ m' = 6 \/ m' = 7 \/ m' = 8
          \/ m' = 9 \/ m' = 10 \/ m' = 11 \/ m' = 12) as Hm' by lia.
  destruct (isLeapYear y);
    repeat (destruct Hm as [->|Hm]);
    repeat (destruct Hm' as [->|Hm']); try subst m; try subst m';
    cbn in H4, H4', E |- *; lia.
Qed.

Lemma timeOfDay_inj (y m d y' m' d' : Z) :
  validYMD y m d = true -> validYMD y' m' d' = true ->
  timeOfDay y m d = timeOfDay y' m' d' -> y = y' /\ m = m' /\ d = d'.
Proof.
  intros H H' E. unfold timeOfDay, msPerDay in E.
  pose proof (dayOfYear_range y m d H) as R.
  pose proof (dayOfYear_range y' m' d' H') as R'.
  unfold dayOfYear in R, R'.
  assert (y = y') as <-.
  { destruct (Z.lt_trichotomy y y') as [Hlt|[Heq|Hgt]]; [|exact Heq|].
    - pose proof (DayFromYear_succ y). pose proof (DayFromYear_mono (y + 1) y'). lia.
    - pose proof (DayFromYear_succ y'). pose proof (DayFromYear_mono (y' + 1) y). lia. }
  split; [reflexivity|]. apply (dayOfYear_inj y); auto. unfold dayOfYear. lia.
Qed.

Lemma digit_range (c : ascii) (n : Z) : digit c = Some n -> 0 <= n <= 9.
Proof.
  unfold digit. destruct (_ && _) eqn:E; [|discriminate].
  intros [= <-]. apply andb_prop in E as [E1 E2]. lia.
Qed.

Lemma digit_inj (c c' : ascii) (n : Z) : digit c = Some n -> digit c' = Some n -> c = c'.
Proof.
  unfold digit. destruct (_ && _); [|discriminate]. destruct (_ && _); [|discriminate].
  intros [= H] [= H'].
  rewrite <- (ascii_nat_embedding c), <- (ascii_nat_embedding c'). f_equal. lia.
Qed.

Lemma parseYMD_inv (s : string) (y m d : Z) :
  parseYMD s = Some (y, m, d) ->
  exists y1 y2 y3 y4 m1 m2 d1 d2 a b c e f g h i,
    list_ascii_of_string s = [y1; y2; y3; y4; "-"%char; m1; m2; "-"%char; d1; d2]
    /\ digit y1 = Some a /\ digit y2 = Some b /\ digit y3 = Some c /\ digit y4 = Some e
    /\ digit m1 = Some f /\ digit m2 = Some g /\ digit d1 = Some h /\ digit d2 = Some i
    /\ y = 1000 * a + 100 * b + 10 * c + e /\ m = 10 * f + g /\ d = 10 * h + i.
Proof.
  unfold parseYMD.
  destruct (list_ascii_of_string s)
    as [|y1 [|y2 [|y3 [|y4 [|s1 [|m1 [|m2 [|s2 [|d1 [|d2 [|x l]]]]]]]]]]];
    try discriminate.
  destruct (Ascii.eqb_spec s1 "-"); [|discriminate].
  destruct (Ascii.eqb_spec s2 "-"); [|discriminate]. subst s1 s2. cbn [andb].
  destruct (digit y1) as [a|] eqn:Da; [|discriminate].
  destruct (digit y2) as [b|] eqn:Db; [|discriminate].
  destruct (digit y3) as [c|] eqn:Dc; [|discriminate].
  destruct (digit y4) as [e|] eqn:De; [|discriminate].
  destruct (digit m1) as [f|] eqn:Df; [|discriminate].
  destruct (digit m2) as [g|] eqn:Dg; [|discriminate].
  destruct (digit d1) as [h|] eqn:Dh; [|discriminate].
  destruct (digit d2) as [i|] eqn:Di; [|discriminate].
  intros [= <- <- <-].
  exists y1, y2, y3, y4, m1, m2, d1, d2, a, b, c, e, f, g, h, i.
  repeat split; assumption || reflexivity.
Qed.

Lemma parseYMD_inj (s s' : string) (y m d : Z) :
  parseYMD s = Some (y, m, d) -> parseYMD s' = Some (y, m, d) -> s = s'.
Proof.
  intros H H'.
  apply parseYMD_inv in H
    as (y1 & y2 & y3 & y4 & m1 & m2 & d1 & d2 & a & b & c & e & f & g & h & i
        & Hs & A & B & C & E & F & G & Hh & I & -> & -> & ->).
  apply parseYMD_inv in H'
    as (y1' & y2' & y3' & y4' & m1' & m2' & d1' & d2' & a' & b' & c' & e' & f' & g' & h' & i'
        & Hs' & A' & B' & C' & E' & F' & G' & Hh' & I' & Hy & Hm & Hd).
  pose proof (digit_range _ _ A). pose proof (digit_range _ _ B).
  pose proof (digit_range _ _ C). pose proof (digit_range _ _ E).
  pose proof (digit_range _ _ F). pose proof (digit_range _ _ G).
  pose proof (digit_range _ _ Hh). pose proof (digit_range _ _ I).
  pose proof (digit_range _ _ A'). pose proof (digit_range _ _ B').
  pose proof (digit_range _ _ C'). pose proof (digit_range _ _ E').
  pose proof (digit_range _ _ F'). pose proof (digit_range _ _ G').
  pose proof (digit_range _ _ Hh'). pose proof (digit_range _ _ I').
  assert (a = a') by lia. assert (b = b') by lia. assert (c = c') by lia.
  assert (e = e') by lia. assert (f = f') by lia. assert (g = g') by lia.
  assert (h = h') by lia. assert (i = i') by lia. subst.
  rewrite <- (string_of_list_ascii_of_string s), <- (string_of_list_ascii_of_string s').
  rewrite Hs, Hs'.
  rewrite (digit_inj _ _ _ A A'), (digit_inj _ _ _ B B'), (digit_inj _ _ _ C C'),
    (digit_inj _ _ _ E E'), (digit_inj _ _ _ F F'), (digit_inj _ _ _ G G'),
    (digit_inj _ _ _ Hh Hh'), (digit_inj _ _ _ I I').
  reflexivity.
Qed.

Lemma Date_getTime_inj (s s' : string) (t : Z) :
  Date_getTime s = Some t -> Date_getTime s' = Some t -> s = s'.
Proof.
  unfold Date_getTime. intros H H'.
  destruct (parseYMD s) as [[[y m] d]|] eqn:P; [|discriminate].
  destruct (parseYMD s') as [[[y' m'] d']|] eqn:P'; [|discriminate].
  destruct (validYMD y m d) eqn:V; [|discriminate].
  destruct (validYMD y' m' d') eqn:V'; [|discriminate].
  injection H as H. injection H' as H'.
  destruct (timeOfDay_inj y m d y' m' d' V V') as (-> & -> & ->); [congruence|].
  eapply parseYMD_inj; eauto.
Qed.

(* ===================================================================== *)
(** * Sorting by date *)
(* ===================================================================== *)

Lemma compareByDate_timeOf (a b : Day.t) :
  isCalendarDay (Day.date a) = true -> isCalendarDay (Day.date b) = true ->
  compareByDate a b = timeOf a - timeOf b.
Proof.
  unfold isCalendarDay, compareByDate, timeOf.
  destruct (Date_getTime (Day.date a)); [|discriminate].
  destruct (Date_getTime (Day.date b)); [|discriminate]. reflexivity.
Qed.

Lemma timeOf_inj (a b : Day.t) :
  isCalendarDay (Day.date a) = true -> isCalendarDay (Day.date b) = true ->
  timeOf a = timeOf b -> Day.date a = Day.date b.
Proof.
  unfold isCalendarDay, timeOf.
  destruct (Date_getTime (Day.date a)) eqn:Ea; [|discriminate].
  destruct (Date_getTime (Day.date b)) eqn:Eb; [|discriminate].
  intros _ _ ->. eapply Date_getTime_inj; eauto.
Qed.

Section Sort.
Context {A : Type}.
Variable cmp : A -> A -> Z.

Lemma sort_insert_perm (x : A) (l : list A) : Permutation (sort_insert cmp x l) (x :: l).
Proof.
  induction l as [|y l IH]; cbn [sort_insert]; [reflexivity|].
  destruct (cmp x y <=? 0); [reflexivity|].
  rewrite IH. apply perm_swap.
Qed.

Lemma sort_perm (l : list A) : Permutation (sort cmp l) l.
Proof.
  induction l as [|x l IH]; cbn [sort]; [reflexivity|].
  rewrite sort_insert_perm. now constructor.
Qed.

Lemma sort_insert_ext (cmp' : A -> A -> Z) (x : A) (l : list A) :
  (forall y, In y l -> cmp x y = cmp' x y) ->
  sort_insert cmp x l = sort_insert cmp' x l.
Proof.
  induction l as [|y l IH]; intros H; cbn [sort_insert]; [reflexivity|].
  rewrite (H y) by now left. rewrite IH by (intros; apply H; now right). reflexivity.
Qed.

Lemma sort_ext (cmp' : A -> A -> Z) (l : list A) :
  (forall x y, In x l -> In y l -> cmp x y = cmp' x y) ->
  sort cmp l = sort cmp' l.
Proof.
  induction l as [|x l IH]; intros H; cbn [sort]; [reflexivity|].
  rewrite <- IH by (intros; apply H; now right).
  apply sort_insert_ext. intros y Hy. apply H; [now left|].
  right. apply (Permutation_in _ (sort_perm l)). exact Hy.
Qed.

End Sort.

Section SortByKey.
Context {A : Type}.
Variable key : A -> Z.

Lemma sort_insert_sorted (x : A) (l : list A) :
  StronglySorted (keyLe key) l -> StronglySorted (keyLe key) (sort_insert (byKey key) x l).
Proof.
  induction 1 as [|y l Hs IH Hall]; cbn [sort_insert].
  - repeat constructor.
  - unfold byKey at 1. destruct (Z.leb_spec (key x - key y) 0) as [Hle|Hgt].
    + constructor; [now constructor|]. constructor; [unfold keyLe; lia|].
      rewrite Forall_forall in *. intros z Hz. apply list_elem_of_In in Hz.
      specialize (Hall z (proj2 (list_elem_of_In _ _) Hz)). unfold keyLe in *. lia.
    + constructor; [exact IH|].
      rewrite Forall_forall in *. intros z Hz. apply list_elem_of_In in Hz.
      apply (Permutation_in _ (sort_insert_perm (byKey key) x l)) in Hz.
      destruct Hz as [<-|Hz]; [unfold keyLe; lia|].
      apply Hall. now apply list_elem_of_In.
Qed.

Lemma sort_sorted (l : list A) : StronglySorted (keyLe key) (sort (byKey key) l).
Proof.
  induction l as [|x l IH]; cbn [sort]; [constructor|].
  now apply sort_insert_sorted.
Qed.

(** Sorting a sorted list leaves it as it is. *)
Lemma sort_of_sorted (l : list A) : StronglySorted (keyLe key) l -> sort (byKey key) l = l.
Proof.
  induction 1 as [|x l Hs IH Hall]; cbn [sort]; [reflexivity|].
  rewrite IH. destruct l as [|y l]; [reflexivity|]. cbn [sort_insert].
  apply Forall_inv in Hall. unfold keyLe in Hall. unfold byKey.
  destruct (Z.leb_spec (key x - key y) 0); [reflexivity | lia].
Qed.

Lemma sorted_strict (l : list A) :
  StronglySorted (keyLe key) l -> NoDup (map key l) ->
  StronglySorted (fun a b => key a < key b) l.
Proof.
  induction 1 as [|x l Hs IH Hall]; intros Hnd; [constructor|].
  cbn [map] in Hnd. apply NoDup_cons in Hnd as [Hx Hnd].
  constructor; [now apply IH|].
  rewrite Forall_forall in *. intros y Hy. specialize (Hall y Hy). unfold keyLe in Hall.
  assert (key x <> key y); [|lia].
  intros E. apply Hx. rewrite E. apply list_elem_of_In, in_map. now apply list_elem_of_In.
Qed.

End SortByKey.

(* ===================================================================== *)
(** * The merger *)
(* ===================================================================== *)

Lemma keyed_set (k : string) (d : Day.t) (m : list (string * Day.t)) :
  keyed m -> Day.date d = k -> keyed (Obj.set k d m).
Proof.
  unfold keyed. intros Hm Hd. induction Hm as [|[k' d'] m Hkd Hm IH]; cbn [Obj.set].
  - constructor; [exact Hd | constructor].
  - destruct (String.eqb_spec k k') as [->|Hne].
    + constructor; [exact Hd | exact Hm].
    + constructor; [exact Hkd | exact IH].
Qed.

Lemma keyed_get (k : string) (d : Day.t) (m : list (string * Day.t)) :
  keyed m -> Obj.get k m = Some d -> Day.date d = k.
Proof.
  unfold keyed. intros Hm. induction Hm as [|[k' d'] m Hkd Hm IH]; cbn [Obj.get].
  - discriminate.
  - destruct (String.eqb_spec k k') as [->|Hne]; [|exact IH].
    intros [= <-]. exact Hkd.
Qed.

Lemma keyed_dates (m : list (string * Day.t)) :
  keyed m -> map Day.date (Obj.values m) = Obj.keys m.
Proof.
  unfold keyed, Obj.values, Obj.keys. induction 1 as [|[k d] m Hkd Hm IH]; cbn [map].
  - reflexivity.
  - cbn [fst snd] in *. now rewrite Hkd, IH.
Qed.

Lemma get_In_values {V : Type} (k : string) (v : V) (o : list (string * V)) :
  Obj.get k o = Some v -> In v (Obj.values o).
Proof.
  unfold Obj.values. induction o as [|[k' v'] o IH]; cbn [Obj.get map]; [discriminate|].
  destruct (String.eqb k k'); [intros [= <-]; now left | intros H; right; auto].
Qed.

(** After the first step of [addRecord] the map has a day for the date. *)
Lemma addRecord_eq (name : string) (m : list (string * Day.t)) (r : Kline.t) :
  let date := Kline.date r in
  let day := match Obj.get date m with Some d => d | None => Day.mk date [] end in
  addRecord name m r =
  Obj.set date (Day.mk (Day.date day) (Obj.set name r (Day.exchanges day)))
    (if Obj.has date m then m else Obj.set date (Day.mk date []) m).
Proof.
  unfold addRecord, Obj.has. cbn zeta.
  destruct (Obj.get (Kline.date r) m) as [d|] eqn:E; cbn [negb].
  - now rewrite E.
  - now rewrite get_set_same.
Qed.

Lemma addRecord_keys (name : string) (m : list (string * Day.t)) (r : Kline.t) :
  Obj.keys (addRecord name m r) =
  if Obj.has (Kline.date r) m then Obj.keys m else Obj.keys m ++ [Kline.date r].
Proof.
  rewrite addRecord_eq. cbn zeta. rewrite keys_set.
  destruct (Obj.has (Kline.date r) m) eqn:E.
  - now rewrite E.
  - unfold Obj.has at 1. rewrite get_set_same. rewrite keys_set, E. reflexivity.
Qed.

Lemma addRecord_keyed (name : string) (m : list (string * Day.t)) (r : Kline.t) :
  keyed m -> keyed (addRecord name m r).
Proof.
  intros Hm. rewrite addRecord_eq. cbn zeta. apply keyed_set.
  - destruct (Obj.has (Kline.date r) m); [exact Hm | now apply keyed_set].
  - cbn [Day.date]. destruct (Obj.get (Kline.date r) m) as [d|] eqn:E; [|reflexivity].
    eapply keyed_get; eauto.
Qed.

Lemma addRecord_NoDup (name : string) (m : list (string * Day.t)) (r : Kline.t) :
  NoDup (Obj.keys m) -> NoDup (Obj.keys (addRecord name m r)).
Proof.
  intros Hnd. rewrite addRecord_eq. cbn zeta. apply NoDup_keys_set.
  destruct (Obj.has (Kline.date r) m); [exact Hnd | now apply NoDup_keys_set].
Qed.

Lemma addRecord_cell (name : string) (m : list (string * Day.t)) (r : Kline.t)
  (date source : string) :
  cell (addRecord name m r) date source =
  if String.eqb (Kline.date r) date && String.eqb source name then Some r
  else cell m date source.
Proof.
  rewrite addRecord_eq. cbn zeta. unfold cell, Obj.has.
  destruct (String.eqb_spec (Kline.date r) date) as [<-|Hne]; cbn [andb].
  - rewrite get_set_same. cbn [Day.exchanges].
    destruct (String.eqb_spec source name) as [->|Hs].
    + apply get_set_same.
    + rewrite get_set_other by exact Hs.
      destruct (Obj.get (Kline.date r) m); reflexivity.
  - rewrite get_set_other by congruence.
    destruct (Obj.get (Kline.date r) m); [reflexivity|].
    now rewrite get_set_other by congruence.
Qed.

Lemma addRecords_inv (name : string) (l : list Kline.t) (m : list (string * Day.t)) :
  keyed m -> NoDup (Obj.keys m) ->
  keyed (fold_left (addRecord name) l m)
  /\ NoDup (Obj.keys (fold_left (addRecord name) l m)).
Proof.
  revert m. induction l as [|r l IH]; intros m Hk Hnd; cbn [fold_left]; [auto|].
  apply IH; [now apply addRecord_keyed | now apply addRecord_NoDup].
Qed.

Lemma addRecords_keys (name : string) (l : list Kline.t) (m : list (string * Day.t))
  (k : string) :
  In k (Obj.keys (fold_left (addRecord name) l m)) <->
  In k (Obj.keys m) \/ In k (map Kline.date l).
Proof.
  revert m. induction l as [|r l IH]; intros m; cbn [fold_left map].
  - simpl. tauto.
  - rewrite IH, addRecord_keys. destruct (Obj.has (Kline.date r) m) eqn:E.
    + apply has_true_iff in E. simpl. split; [tauto|].
      intros [H|[<-|H]]; auto.
    + rewrite in_app_iff. simpl. tauto.
Qed.

Lemma addRecords_cell (name : string) (l : list Kline.t) (m : list (string * Day.t))
  (date source : string) :
  cell (fold_left (addRecord name) l m) date source =
  if String.eqb source name then
    match lastOn date l with
    | Some r => Some r
    | None => cell m date source
    end
  else cell m date source.
Proof.
  revert m. induction l as [|r l IH]; intros m; cbn [fold_left lastOn].
  - now destruct (String.eqb source name).
  - rewrite IH, addRecord_cell.
    destruct (String.eqb source name); [|now rewrite andb_false_r].
    destruct (lastOn date l); [reflexivity|]. rewrite andb_true_r.
    destruct (String.eqb (Kline.date r) date); reflexivity.
Qed.

Lemma lastOn_none (date : string) (l : list Kline.t) :
  (forall r, In r l -> Kline.date r <> date) -> lastOn date l = None.
Proof.
  induction l as [|r l IH]; intros H; cbn [lastOn]; [reflexivity|].
  rewrite IH by (intros; apply H; now right).
  destruct (String.eqb_spec (Kline.date r) date) as [E|_]; [|reflexivity].
  exfalso. apply (H r); [now left | exact E].
Qed.

Lemma lastOn_last (l1 l2 : list Kline.t) (r : Kline.t) :
  (forall r', In r' l2 -> Kline.date r' <> Kline.date r) ->
  lastOn (Kline.date r) (l1 ++ r :: l2) = Some r.
Proof.
  intros H. induction l1 as [|x l1 IH]; cbn [app lastOn].
  - rewrite (lastOn_none _ _ H), String.eqb_refl. reflexivity.
  - now rewrite IH.
Qed.

Lemma addResults_inv (rs : list (option FetchResult)) (m : list (string * Day.t)) :
  keyed m -> NoDup (Obj.keys m) ->
  keyed (fold_left addResult rs m) /\ NoDup (Obj.keys (fold_left addResult rs m)).
Proof.
  revert m. induction rs as [|[res|] rs IH]; intros m Hk Hnd; cbn [fold_left addResult].
  - auto.
  - destruct (addRecords_inv (name res) (data res) m Hk Hnd). now apply IH.
  - now apply IH.
Qed.

Lemma addResults_keys (rs : list (option FetchResult)) (m : list (string * Day.t))
  (k : string) :
  In k (Obj.keys (fold_left addResult rs m)) <->
  In k (Obj.keys m) \/ In k (inputDates rs).
Proof.
  revert m. induction rs as [|[res|] rs IH]; intros m;
    cbn [fold_left addResult inputDates flat_map].
  - simpl. tauto.
  - rewrite IH, addRecords_keys, in_app_iff. fold (inputDates rs). tauto.
  - rewrite IH. fold (inputDates rs). simpl. tauto.
Qed.

Lemma addResults_cell_other (rs : list (option FetchResult)) (m : list (string * Day.t))
  (date source : string) :
  (forall res, In (Some res) rs -> name res <> source) ->
  cell (fold_left addResult rs m) date source = cell m date source.
Proof.
  revert m. induction rs as [|[res|] rs IH]; intros m H; cbn [fold_left addResult].
  - reflexivity.
  - rewrite IH by (intros; apply H; now right). rewrite addRecords_cell.
    destruct (String.eqb_spec source (name res)) as [E|_]; [|reflexivity].
    exfalso. apply (H res); [now left | now symmetry].
  - apply IH. intros; apply H; now right.
Qed.

Lemma NoDup_timeOf (l : list Day.t) :
  calendarDays l -> NoDup (map Day.date l) -> NoDup (map timeOf l).
Proof.
  unfold calendarDays. induction 1 as [|d l Hd Hl IH]; cbn [map]; intros Hnd.
  - constructor.
  - apply NoDup_cons in Hnd as [Hx Hnd]. apply NoDup_cons. split; [|now apply IH].
    intros Hin. apply Hx. apply list_elem_of_In in Hin. apply list_elem_of_In.
    apply in_map_iff in Hin as (d' & E & Hd').
    apply in_map_iff. exists d'. split; [|exact Hd'].
    apply timeOf_inj; [|exact Hd|exact E].
    rewrite Forall_forall in Hl. apply Hl. now apply list_elem_of_In.
Qed.

(** Sorting days that all carry calendar days puts them in strictly
    ascending order of date, when the dates are distinct. *)
Lemma sort_days_ascending (l : list Day.t) :
  calendarDays l -> NoDup (map Day.date l) ->
  StronglySorted dateBefore (sort compareByDate l).
Proof.
  intros Hcal Hnd.
  assert (Hext : sort compareByDate l = sort (byKey timeOf) l).
  { apply sort_ext. intros x y Hx Hy. unfold calendarDays in Hcal.
    rewrite Forall_forall in Hcal.
    apply compareByDate_timeOf; apply Hcal; now apply list_elem_of_In. }
  rewrite Hext. apply (sorted_strict timeOf); [apply sort_sorted|].
  apply NoDup_timeOf.
  - unfold calendarDays in *. rewrite Forall_forall in *. intros d Hd.
    apply Hcal. apply list_elem_of_In. apply list_elem_of_In in Hd.
    apply (Permutation_in d (sort_perm (byKey timeOf) l)). exact Hd.
  - eapply NoDup_Permutation_proper; [|exact Hnd].
    apply Permutation_map. apply sort_perm.
Qed.

(** C5. When the records are dated with calendar days, the merger's output
    is in strictly ascending order of date and no date occurs twice; its
    dates are exactly the dates of the input records; and for a source
    whose sequence holds several records of one date, the day of that date
    stores the last of them (the source being the last result of its name). *)
Theorem mergeExchangeData_ascending_unique_last_wins
  (results : list (option FetchResult)) :
  Forall (fun date => isCalendarDay date = true) (inputDates results) ->
  let merged := mergeExchangeData results in
  StronglySorted dateBefore merged
  /\ NoDup (map Day.date merged)
  /\ (forall date, In date (map Day.date merged) <-> In date (inputDates results))
  /\ (forall rs1 res rs2 l1 rec l2,
        results = rs1 ++ Some res :: rs2 ->
        data res = l1 ++ rec :: l2 ->
        (forall r', In r' l2 -> Kline.date r' <> Kline.date rec) ->
        (forall res', In (Some res') rs2 -> name res' <> name res) ->
        exists day,
          In day merged /\ Day.date day = Kline.date rec
          /\ Obj.get (name res) (Day.exchanges day) = Some rec).
Proof.
  intros Hcal merged. unfold mergeExchangeData in merged.
  set (M := fold_left addResult results []) in *.
  destruct (addResults_inv results []) as [Hkeyed Hnd]; [constructor | constructor |].
  fold M in Hkeyed, Hnd.
  pose proof (keyed_dates M Hkeyed) as Hdates.
  assert (Hkeys : forall k, In k (Obj.keys M) <-> In k (inputDates results)).
  { intros k. unfold M. rewrite addResults_keys. simpl. tauto. }
  assert (Hperm : Permutation (map Day.date merged) (Obj.keys M)).
  { rewrite <- Hdates. apply Permutation_map. apply sort_perm. }
  assert (HcalM : calendarDays (Obj.values M)).
  { unfold calendarDays. apply Forall_forall. intros d Hd.
    apply (proj1 (Forall_forall _ _) Hcal).
    apply list_elem_of_In, Hkeys. rewrite <- Hdates.
    apply in_map. now apply list_elem_of_In. }
  split; [|split; [|split]].
  - apply sort_days_ascending; [exact HcalM | now rewrite Hdates].
  - eapply NoDup_Permutation_proper; [exact Hperm | exact Hnd].
  - intros date. rewrite <- Hkeys. split; apply Permutation_in;
      [exact Hperm | exact (Permutation_sym Hperm)].
  - intros rs1 res rs2 l1 rec l2 Hres Hdata Hlast Hnames.
    assert (Hcell : cell M (Kline.date rec) (name res) = Some rec).
    { unfold M. rewrite Hres, fold_left_app. cbn [fold_left addResult].
      rewrite addResults_cell_other by exact Hnames.
      rewrite addRecords_cell, String.eqb_refl, Hdata, lastOn_last by exact Hlast.
      reflexivity. }
    unfold cell in Hcell.
    destruct (Obj.get (Kline.date rec) M) as [day|] eqn:Hday; [|discriminate].
    exists day. split; [|split; [eapply keyed_get; eauto | exact Hcell]].
    apply (Permutation_in day (Permutation_sym (sort_perm compareByDate (Obj.values M)))).
    eapply get_In_values; eauto.
Qed.

Lemma mergeExchangeData_ascending_unique_last_wins_witness :
  map Day.date (mergeExchangeData sampleResults)
    = ["2024-01-01"; "2024-01-02"; "2024-01-03"]
  /\ StronglySorted dateBefore (mergeExchangeData sampleResults)
  /\ exists day, In day (mergeExchangeData sampleResults)
                 /\ Day.date day = "2024-01-03"
                 /\ Obj.get "A" (Day.exchanges day) = Some (sampleRecord "2024-01-03" 5 5).
Proof.
  assert (Hcal : Forall (fun date => isCalendarDay date = true) (inputDates sampleResults)).
  { repeat constructor. }
  destruct (mergeExchangeData_ascending_unique_last_wins sampleResults Hcal)
    as (Hsorted & _ & _ & Hlast).
  split; [reflexivity|]. split; [exact Hsorted|].
  apply (Hlast [] {| name := "A";
                     data := [sampleRecord "2024-01-03" 1 1; sampleRecord "2024-01-01" 2 2;
                              sampleRecord "2024-01-03" 5 5] |}
           [Some {| name := "B";
                    data := [sampleRecord "2024-01-02" 1 1; sampleRecord "2024-01-01" 2 2] |}]
           [sampleRecord "2024-01-03" 1 1; sampleRecord "2024-01-01" 2 2]
           (sampleRecord "2024-01-03" 5 5) []).
  - reflexivity.
  - reflexivity.
  - intros r' [].
  - intros res' [H|[]]. injection H as <-. discriminate.
Defined.

(* ===================================================================== *)
(** * The incremental merger *)
(* ===================================================================== *)

Lemma indexByDate_get (l : list Day.t) (m : list (string * Day.t)) (k : string) :
  Obj.get k (indexByDate l m) =
  match lastDay k l with
  | Some d => Some d
  | None => Obj.get k m
  end.
Proof.
  unfold indexByDate. revert m. induction l as [|d l IH]; intros m; cbn [fold_left lastDay].
  - reflexivity.
  - rewrite IH. destruct (lastDay k l); [reflexivity|].
    destruct (String.eqb_spec (Day.date d) k) as [<-|Hne].
    + apply get_set_same.
    + apply get_set_other. congruence.
Qed.

Lemma indexByDate_inv (l : list Day.t) (m : list (string * Day.t)) :
  keyed m -> NoDup (Obj.keys m) ->
  keyed (indexByDate l m) /\ NoDup (Obj.keys (indexByDate l m)).
Proof.
  unfold indexByDate. revert m. induction l as [|d l IH]; intros m Hk Hnd; cbn [fold_left].
  - auto.
  - apply IH; [now apply keyed_set | now apply NoDup_keys_set].
Qed.

Lemma indexByDate_keys_same (l : list Day.t) (m : list (string * Day.t)) :
  (forall d, In d l -> In (Day.date d) (Obj.keys m)) ->
  Obj.keys (indexByDate l m) = Obj.keys m.
Proof.
  unfold indexByDate. revert m. induction l as [|d l IH]; intros m H; cbn [fold_left].
  - reflexivity.
  - assert (Hk : Obj.keys (Obj.set (Day.date d) d m) = Obj.keys m).
    { rewrite keys_set. now rewrite (proj2 (has_true_iff _ _) (H d (or_introl eq_refl))). }
    rewrite IH; [exact Hk|]. intros d' Hd'. rewrite Hk. apply H. now right.
Qed.

Lemma set_fresh {V : Type} (k : string) (v : V) (o : list (string * V)) :
  ~ In k (Obj.keys o) -> Obj.set k v o = o ++ [(k, v)].
Proof.
  induction o as [|[k' v'] o IH]; cbn [Obj.set Obj.keys map fst app]; intros H.
  - reflexivity.
  - destruct (String.eqb_spec k k') as [->|Hne].
    + exfalso. apply H. now left.
    + rewrite IH; [reflexivity|]. intros Hin. apply H. now right.
Qed.

Lemma indexByDate_fresh (l : list Day.t) (m : list (string * Day.t)) :
  NoDup (Obj.keys m ++ map Day.date l) -> indexByDate l m = m ++ pairs l.
Proof.
  unfold indexByDate. revert m. induction l as [|d l IH]; intros m Hnd;
    cbn [fold_left pairs map].
  - now rewrite app_nil_r.
  - cbn [map] in Hnd. apply NoDup_ListNoDup in Hnd.
    assert (Hd : ~ In (Day.date d) (Obj.keys m)).
    { intros Hin. apply List.NoDup_remove_2 in Hnd. apply Hnd.
      apply in_or_app. now left. }
    rewrite (set_fresh _ _ _ Hd), IH.
    + now rewrite <- app_assoc.
    + unfold Obj.keys in *. rewrite map_app. cbn [map fst].
      rewrite <- app_assoc. apply NoDup_ListNoDup. exact Hnd.
Qed.

Lemma obj_ext {V : Type} (o1 o2 : list (string * V)) :
  Obj.keys o1 = Obj.keys o2 -> NoDup (Obj.keys o1) ->
  (forall k, Obj.get k o1 = Obj.get k o2) -> o1 = o2.
Proof.
  revert o2. induction o1 as [|[k v] o1 IH]; intros [|[k' v'] o2] Hk Hnd Hget;
    try discriminate; [reflexivity|].
  cbn [Obj.keys map fst] in Hk, Hnd. injection Hk as Hkk Hk. subst k'.
  apply NoDup_cons in Hnd as [Hx Hnd]. rewrite list_elem_of_In in Hx.
  pose proof (Hget k) as Hv. cbn [Obj.get] in Hv. rewrite String.eqb_refl in Hv.
  injection Hv as <-. f_equal. apply IH; [exact Hk | exact Hnd|].
  intros k0. specialize (Hget k0). cbn [Obj.get] in Hget.
  destruct (String.eqb_spec k0 k) as [E|Hne]; [|exact Hget]. rewrite E.
  rewrite (proj2 (get_none_not_key k o1) Hx).
  symmetry. apply get_none_not_key. fold (Obj.keys o1) in Hk.
  fold (Obj.keys o2) in Hk. now rewrite <- Hk.
Qed.

(** In a map that stores each day under its date, looking a date up gives
    the day of the map's values that carries it. *)
Lemma get_keyed_iff (m : list (string * Day.t)) (k : string) (d : Day.t) :
  keyed m -> NoDup (Obj.keys m) ->
  (Obj.get k m = Some d <-> In d (Obj.values m) /\ Day.date d = k).
Proof.
  intros Hk Hnd. split.
  - intros H. split; [eapply get_In_values; eauto | eapply keyed_get; eauto].
  - intros [Hin Hd]. unfold keyed in Hk.
    induction Hk as [|[k' d'] m Hkd Hk IH]; [destruct Hin|].
    cbn [Obj.keys map fst] in Hnd. apply NoDup_cons in Hnd as [Hx Hnd].
    rewrite list_elem_of_In in Hx. cbn [fst snd] in Hkd.
    cbn [Obj.values map snd] in Hin. cbn [Obj.get]. destruct Hin as [->|Hin].
    + subst. now rewrite String.eqb_refl.
    + destruct (String.eqb_spec k k') as [->|Hne]; [|now apply IH].
      exfalso. apply Hx. change (In k' (Obj.keys m)).
      rewrite <- (keyed_dates m Hk), <- Hd. now apply in_map.
Qed.

Lemma pairs_keys (l : list Day.t) : Obj.keys (pairs l) = map Day.date l.
Proof. unfold Obj.keys, pairs. rewrite map_map. reflexivity. Qed.

Lemma pairs_values (l : list Day.t) : Obj.values (pairs l) = l.
Proof. unfold Obj.values, pairs. rewrite map_map. apply map_id. Qed.

Lemma pairs_keyed (l : list Day.t) : keyed (pairs l).
Proof.
  unfold keyed, pairs. induction l as [|d l IH]; cbn [map]; constructor; auto.
Qed.

Lemma lastDay_some (k : string) (l : list Day.t) (d : Day.t) :
  lastDay k l = Some d -> In d l /\ Day.date d = k.
Proof.
  induction l as [|x l IH]; cbn [lastDay]; [discriminate|].
  destruct (lastDay k l) as [d'|].
  - intros [= <-]. destruct (IH eq_refl). split; [now right | assumption].
  - destruct (String.eqb_spec (Day.date x) k); [|discriminate].
    intros [= <-]. split; [now left | assumption].
Qed.

Lemma lastDay_none (k : string) (l : list Day.t) :
  (forall d, In d l -> Day.date d <> k) -> lastDay k l = None.
Proof.
  induction l as [|x l IH]; intros H; cbn [lastDay]; [reflexivity|].
  rewrite IH by (intros; apply H; now right).
  destruct (String.eqb_spec (Day.date x) k) as [E|_]; [|reflexivity].
  exfalso. apply (H x); [now left | exact E].
Qed.

Lemma lastDay_last (l1 l2 : list Day.t) (d : Day.t) :
  (forall x, In x l2 -> Day.date x <> Day.date d) ->
  lastDay (Day.date d) (l1 ++ d :: l2) = Some d.
Proof.
  intros H. induction l1 as [|x l1 IH]; cbn [app lastDay].
  - rewrite (lastDay_none _ _ H), String.eqb_refl. reflexivity.
  - now rewrite IH.
Qed.

(** Rebuilding the date index from a merged result and the same new data
    gives the index of the result. *)
Lemma reindex_same (m : list (string * Day.t)) (incoming result : list Day.t) :
  keyed m -> NoDup (Obj.keys m) ->
  (forall k, Obj.get k m =
             match lastDay k incoming with Some d => Some d | None => Obj.get k m end) ->
  (forall d, In d incoming -> In (Day.date d) (Obj.keys m)) ->
  Permutation result (Obj.values m) ->
  indexByDate incoming (indexByDate result []) = pairs result.
Proof.
  intros Hk Hnd Hget Hin Hperm.
  assert (HndR : NoDup (map Day.date result)).
  { eapply NoDup_Permutation_proper; [apply Permutation_map; exact Hperm|].
    now rewrite keyed_dates. }
  assert (Hsame : forall k, Obj.get k (pairs result) = Obj.get k m).
  { intros k. destruct (Obj.get k m) as [d|] eqn:E.
    - apply get_keyed_iff; [apply pairs_keyed | now rewrite pairs_keys|].
      apply get_keyed_iff in E as [E1 E2]; [|assumption|assumption].
      rewrite pairs_values. split; [|exact E2].
      apply (Permutation_in d (Permutation_sym Hperm)). exact E1.
    - destruct (Obj.get k (pairs result)) as [d|] eqn:E'; [|reflexivity].
      apply get_keyed_iff in E' as [E1 E2]; [|apply pairs_keyed | now rewrite pairs_keys].
      rewrite pairs_values in E1. apply (Permutation_in d Hperm) in E1.
      assert (Obj.get k m = Some d) by (apply get_keyed_iff; auto). congruence. }
  rewrite (indexByDate_fresh result []) by exact HndR. cbn [app].
  apply obj_ext.
  - apply indexByDate_keys_same. intros d Hd. rewrite pairs_keys.
    apply (Permutation_in _ (Permutation_sym (Permutation_map Day.date Hperm))).
    rewrite keyed_dates by exact Hk. now apply Hin.
  - apply (proj2 (indexByDate_inv incoming (pairs result) (pairs_keyed result)
                    ltac:(now rewrite pairs_keys))).
  - intros k. rewrite indexByDate_get, Hsame, (Hget k).
    destruct (lastDay k incoming); reflexivity.
Qed.

Lemma sort_sorted_days (l : list Day.t) :
  calendarDays l -> StronglySorted dateBefore l -> sort compareByDate l = l.
Proof.
  intros Hcal Hs.
  rewrite (sort_ext compareByDate (byKey timeOf)).
  - apply sort_of_sorted. clear Hcal. induction Hs as [|x l Hs IH Hall]; constructor; [exact IH|].
    eapply Forall_impl; [exact Hall|]. unfold dateBefore, keyLe. intros; lia.
  - unfold calendarDays in Hcal. rewrite Forall_forall in Hcal.
    intros x y Hx Hy. apply compareByDate_timeOf; apply Hcal; now apply list_elem_of_In.
Qed.

(** C7. With a persisted sequence [existing], and the days dated with
    calendar days: (1) an incoming day (the last of its date in [incoming])
    is in the result and is the only day of the result with its date, so it
    replaces whole whatever [existing] had for that date; (2) the result is
    in strictly ascending order of date, without a repeated date; (3) merging
    the same [incoming] into the result gives the result again. (4) Without
    a persisted sequence the result is [incoming] as it is. *)
Theorem mergeWithExistingData_replaces_sorted_idempotent
  (existing incoming : list Day.t) :
  calendarDays existing -> calendarDays incoming ->
  let result := mergeWithExistingData (Some existing) incoming in
  (forall l1 item l2,
      incoming = l1 ++ item :: l2 ->
      (forall x, In x l2 -> Day.date x <> Day.date item) ->
      In item result
      /\ forall d, In d result -> Day.date d = Day.date item -> d = item)
  /\ StronglySorted dateBefore result
  /\ NoDup (map Day.date result)
  /\ mergeWithExistingData (Some result) incoming = result
  /\ mergeWithExistingData None incoming = incoming.
Proof.
  intros Hcale Hcali result. unfold mergeWithExistingData in result.
  set (M := indexByDate incoming (indexByDate existing [])) in *.
  destruct (indexByDate_inv existing []) as [Hk0 Hnd0]; [constructor | constructor |].
  destruct (indexByDate_inv incoming _ Hk0 Hnd0) as [Hk Hnd]. fold M in Hk, Hnd.
  pose proof (sort_perm compareByDate (Obj.values M)) as Hperm. fold result in Hperm.
  assert (HcalM : calendarDays (Obj.values M)).
  { unfold calendarDays in *. rewrite Forall_forall in *. intros d Hd.
    apply list_elem_of_In in Hd.
    assert (Hg : Obj.get (Day.date d) M = Some d) by (apply get_keyed_iff; auto).
    unfold M in Hg. rewrite indexByDate_get in Hg.
    destruct (lastDay (Day.date d) incoming) as [d'|] eqn:E.
    - injection Hg as ->. apply lastDay_some in E as [E _].
      apply Hcali. now apply list_elem_of_In.
    - rewrite indexByDate_get in Hg.
      destruct (lastDay (Day.date d) existing) as [d'|] eqn:E'; [|discriminate].
      injection Hg as ->. apply lastDay_some in E' as [E' _].
      apply Hcale. now apply list_elem_of_In. }
  assert (Hsorted : StronglySorted dateBefore result).
  { apply sort_days_ascending; [exact HcalM | now rewrite keyed_dates]. }
  assert (HcalR : calendarDays result).
  { unfold calendarDays in *. rewrite Forall_forall in *. intros d Hd.
    apply HcalM. apply list_elem_of_In. apply list_elem_of_In in Hd.
    apply (Permutation_in d Hperm). exact Hd. }
  split; [|split; [exact Hsorted|split; [|split; [|reflexivity]]]].
  - intros l1 item l2 Hinc Hlast.
    assert (Hg : Obj.get (Day.date item) M = Some item).
    { unfold M. rewrite indexByDate_get, Hinc, lastDay_last by exact Hlast. reflexivity. }
    split.
    + apply (Permutation_in item (Permutation_sym Hperm)). eapply get_In_values; eauto.
    + intros d Hd Hdate. apply (Permutation_in d Hperm) in Hd.
      assert (Obj.get (Day.date item) M = Some d) by (apply get_keyed_iff; auto).
      congruence.
  - eapply NoDup_Permutation_proper; [apply Permutation_map; exact Hperm|].
    now rewrite keyed_dates.
  - cbn [mergeWithExistingData].
    rewrite (reindex_same M incoming result Hk Hnd); [| |  |exact Hperm].
    + rewrite pairs_values. now apply sort_sorted_days.
    + intros k. unfold M. rewrite (indexByDate_get incoming).
      destruct (lastDay k incoming) eqn:E; reflexivity.
    + intros d Hd. unfold M. unfold indexByDate.
      assert (Hex : exists d', lastDay (Day.date d) incoming = Some d').
      { clear -Hd. induction incoming as [|x l IH]; [destruct Hd|]. cbn [lastDay].
        destruct Hd as [->|Hd].
        - destruct (lastDay (Day.date d) l); [eauto|]. rewrite String.eqb_refl. eauto.
        - destruct (IH Hd) as [d' ->]. eauto. }
      destruct Hex as [d' Hd'].
      eapply key_of_get. fold (indexByDate existing []).
      fold (indexByDate incoming (indexByDate existing [])).
      rewrite indexByDate_get, Hd'. reflexivity.
Qed.

(** After a first run without a persisted sequence, a second run with the
    same new data changes nothing when that data is in ascending order of
    date, as the valid days of the validator are. *)
Lemma mergeWithExistingData_after_first_run (incoming : list Day.t) :
  calendarDays incoming -> StronglySorted dateBefore incoming ->
  mergeWithExistingData (Some (mergeWithExistingData None incoming)) incoming = incoming.
Proof.
  intros Hcal Hs. cbn [mergeWithExistingData].
  assert (Hnd : NoDup (map Day.date incoming)).
  { clear Hcal. induction Hs as [|x l Hs IH Hall]; cbn [map]; [constructor|].
    apply NoDup_cons. split; [|exact IH].
    intros Hin. apply list_elem_of_In, in_map_iff in Hin as (y & E & Hy).
    rewrite Forall_forall in Hall. apply list_elem_of_In, Hall in Hy.
    unfold dateBefore, timeOf in Hy. rewrite E in Hy. lia. }
  rewrite (reindex_same (pairs incoming) incoming incoming).
  - rewrite pairs_values. now apply sort_sorted_days.
  - apply pairs_keyed.
  - now rewrite pairs_keys.
  - intros k. destruct (lastDay k incoming) as [d|] eqn:E; [|reflexivity].
    apply lastDay_some in E as [E1 E2].
    apply get_keyed_iff; [apply pairs_keyed | now rewrite pairs_keys|].
    now rewrite pairs_values.
  - intros d Hd. rewrite pairs_keys. now apply in_map.
  - now rewrite pairs_values.
Qed.

Lemma mergeWithExistingData_replaces_sorted_idempotent_witness :
  mergeWithExistingData (Some sampleExisting) sampleIncoming
    = [ Day.mk "2024-01-01" [("A", sampleRecord "2024-01-01" 100 0)];
        Day.mk "2024-01-02" [("A", sampleRecord "2024-01-02" 105 0)];
        Day.mk "2024-01-03" [("A", sampleRecord "2024-01-03" 107 0)] ]
  /\ mergeWithExistingData
       (Some (mergeWithExistingData (Some sampleExisting) sampleIncoming)) sampleIncoming
     = mergeWithExistingData (Some sampleExisting) sampleIncoming
  /\ StronglySorted dateBefore (mergeWithExistingData (Some sampleExisting) sampleIncoming).
Proof.
  assert (He : calendarDays sampleExisting) by repeat constructor.
  assert (Hi : calendarDays sampleIncoming) by repeat constructor.
  destruct (mergeWithExistingData_replaces_sorted_idempotent
              sampleExisting sampleIncoming He Hi) as (_ & Hs & _ & Hidem & _).
  split; [reflexivity|]. split; [exact Hidem | exact Hs].
Defined.

(* ===================================================================== *)
(** * The pipeline *)
(* ===================================================================== *)

Section PipelineFacts.
Variable Math_log : float -> float.
Variable Math_pow : float -> float -> float.
Variable moment_format : string -> string -> string.
Variable toFixed : float -> nat -> string.

Lemma trendStep_total (mergedData : list Day.t) (index : nat) (exchange : string)
  (data : Kline.t) (t : Trends.t) :
  (index <= length mergedData)%nat ->
  exists t', trendStep mergedData index exchange data t = Normal t'.
Proof.
  intros Hidx. unfold trendStep.
  set (t0 := match Obj.get exchange (Trends.upDays t) with
             | Some (S _) => t | _ => _ end).
  destruct index as [|i]; cbn [Nat.ltb Nat.leb]; [eauto|].
  cbn [Nat.sub]. rewrite Nat.sub_0_r.
  destruct (nth_error mergedData i) as [prevDayData|] eqn:E.
  - cbn [prop bind].
    destruct (Obj.get exchange (Day.exchanges prevDayData)); [|eauto].
    destruct (js_gt _ _); [eauto|]. destruct (js_gt _ _); eauto.
  - apply nth_error_None in E. lia.
Qed.

Lemma analyzeDay_total (mergedData : list Day.t) (dayData : Day.t) (index : nat)
  (analysis : Analysis) :
  (index <= length mergedData)%nat ->
  exists a, analyzeDay moment_format mergedData dayData index analysis = Normal a.
Proof.
  intros Hidx. unfold analyzeDay.
  assert (H : forall ks, (forall k, In k ks -> In k (Obj.keys (Day.exchanges dayData))) ->
            forall a0, exists a,
              forEachM (analyzeRecord moment_format mergedData index dayData) ks a0
              = Normal a).
  { induction ks as [|k ks IH]; intros Hks a0; cbn [forEachM]; [eauto|].
    unfold analyzeRecord at 1.
    destruct (get_of_key k (Day.exchanges dayData)) as [r Hr]; [apply Hks; now left|].
    rewrite Hr. cbn [prop bind].
    destruct (trendStep_total mergedData index k r (trends a0) Hidx) as [t' Ht].
    rewrite Ht. cbn [bind]. apply IH. intros; apply Hks; now right. }
  apply H. auto.
Qed.

Lemma analyzeData_total (mergedData : list Day.t) :
  exists a, analyzeData Math_log Math_pow moment_format toFixed mergedData = Normal a.
Proof.
  unfold analyzeData.
  assert (H : forall days index a0,
            (index + length days <= length mergedData)%nat ->
            exists a, forEachIdx (analyzeDay moment_format mergedData) days index a0
                      = Normal a).
  { induction days as [|d days IH]; intros index a0 Hlen; cbn [forEachIdx]; [eauto|].
    cbn [length] in Hlen.
    destruct (analyzeDay_total mergedData d index a0) as [a1 Ha1]; [lia|].
    rewrite Ha1. cbn [bind]. apply IH. lia. }
  destruct (H mergedData 0%nat emptyAnalysis) as [a Ha]; [simpl; lia|].
  rewrite Ha. cbn [bind]. eauto.
Qed.

Variable env : Env.t.

(** When every client's [fetchKlines] throws, every result is [null] and
    no file is written. *)
Lemma fetchAll_all_fail (exchanges : list Exchange.t) (fs : gmap string File) :
  (forall ex, In ex exchanges -> exists e, Exchange.fetchKlines ex = Throw e) ->
  fetchAll env exchanges fs = (map (fun _ => None) exchanges, fs).
Proof.
  induction exchanges as [|ex exchanges IH]; intros H; cbn [fetchAll map]; [reflexivity|].
  destruct (H ex (or_introl eq_refl)) as [e He].
  unfold fetchExchangeData. rewrite He.
  rewrite IH by (intros; apply H; now right). reflexivity.
Qed.

Lemma filter_all_null (exchanges : list Exchange.t) :
  List.filter isNotNull (map (fun _ : Exchange.t => @None FetchResult) exchanges) = [].
Proof. induction exchanges; simpl; auto. Qed.

Lemma pipeline_exit (exchanges : list Exchange.t) (fs : gmap string File) :
  fst (pipeline Math_log Math_pow moment_format toFixed env exchanges fs) =
  if isNil (validResultsOf env exchanges fs) || resultsWritable env then 0 else 1.
Proof.
  unfold pipeline, validResultsOf, resultsWritable.
  destruct (fetchAll env exchanges fs) as [results fs1]. cbn [fst].
  destruct (List.filter isNotNull results) as [|r rs] eqn:E; [reflexivity|].
  cbn [length Nat.ltb Nat.leb isNil orb].
  rewrite validateData_eq.
  destruct (analyzeData_total (mergeExchangeData (r :: rs))) as [a Ha]. rewrite Ha.
  unfold saveData.
  destruct (Env.writable env validatedPath); [|reflexivity].
  destruct (Env.writable env "btc_price_anomalies.json"); [|reflexivity].
  destruct (Env.writable env "btc_price_analysis.json"); reflexivity.
Qed.

(** The analysis a run leaves in its file, if it completes. *)
Lemma pipeline_analysis (exchanges : list Exchange.t) (fs : gmap string File) :
  validResultsOf env exchanges fs <> [] ->
  resultsWritable env = true ->
  exists a,
    analyzeData Math_log Math_pow moment_format toFixed
      (mergeExchangeData (validResultsOf env exchanges fs)) = Normal a
    /\ snd (pipeline Math_log Math_pow moment_format toFixed env exchanges fs)
         !! "btc_price_analysis.json" = Some (AnalysisFile a).
Proof.
  unfold pipeline, validResultsOf, resultsWritable.
  destruct (fetchAll env exchanges fs) as [results fs1]. cbn [fst].
  destruct (List.filter isNotNull results) as [|r rs] eqn:E; [congruence|].
  intros _ Hw. apply andb_prop in Hw as [Hw H3]. apply andb_prop in Hw as [H1 H2].
  cbn [length Nat.ltb Nat.leb].
  rewrite validateData_eq.
  destruct (analyzeData_total (mergeExchangeData (r :: rs))) as [a Ha]. rewrite Ha.
  unfold saveData. rewrite H1, H2, H3. cbn [snd].
  exists a. split; [reflexivity|]. apply lookup_insert_eq.
Qed.

End PipelineFacts.

(** C3, as the program has it. When the fetch of both clients throws, [main]
    writes nothing, the files are as before, and the exit code is 0. The exit
    code is 1 exactly when some fetch gave a result and one of the three
    result files cannot be written, which is when an error reaches the
    [catch] of [main]; otherwise it is 0. *)
Theorem main_exit_code (Math_log : float -> float) (Math_pow : float -> float -> float)
  (moment_format : string -> string -> string) (toFixed : float -> nat -> string)
  (env : Env.t) (binance huobi : Exchange.t) (fs : gmap string File) :
  let run := main Math_log Math_pow moment_format toFixed env binance huobi fs in
  ((exists e, Exchange.fetchKlines binance = Throw e) ->
   (exists e, Exchange.fetchKlines huobi = Throw e) ->
   run = (0, fs))
  /\ (fst run = 1 <->
      validResultsOf env [binance; huobi] fs <> [] /\ resultsWritable env = false)
  /\ (fst run = 0 \/ fst run = 1).
Proof.
  cbn zeta. unfold main. split; [|split].
  - intros Hb Hh. unfold pipeline.
    rewrite (fetchAll_all_fail env [binance; huobi] fs).
    + reflexivity.
    + intros ex [<-|[<-|[]]]; assumption.
  - rewrite pipeline_exit.
    destruct (validResultsOf env [binance; huobi] fs); cbn [isNil orb].
    + split; [discriminate | intros [H _]; congruence].
    + destruct (resultsWritable env); split; try discriminate; auto.
      intros [_ H]; discriminate.
  - rewrite pipeline_exit. destruct (_ || _); auto.
Qed.

Lemma main_exit_code_witness :
  main libLog libPow libFormat libFixed fullEnv
    (downExchange "Binance") (downExchange "Huobi") sampleFiles = (0, sampleFiles)
  /\ fst (main libLog libPow libFormat libFixed readOnlyAnalysisEnv
            oneDayExchange (downExchange "Huobi") sampleFiles) = 1.
Proof.
  split.
  - apply (main_exit_code libLog libPow libFormat libFixed fullEnv
             (downExchange "Binance") (downExchange "Huobi") sampleFiles);
      eexists; reflexivity.
  - apply (main_exit_code libLog libPow libFormat libFixed readOnlyAnalysisEnv
             oneDayExchange (downExchange "Huobi") sampleFiles).
    split; [discriminate | reflexivity].
Defined.

(** With both fetches failing the exit code is 0, not a failure code; and
    a run in which a fetch succeeded ends with exit code 1 when the analysis
    file cannot be written. *)
Lemma exit_code_counterexample :
  fst (main libLog libPow libFormat libFixed fullEnv
         (downExchange "Binance") (downExchange "Huobi") sampleFiles) = 0
  /\ fst (main libLog libPow libFormat libFixed readOnlyAnalysisEnv
            oneDayExchange (downExchange "Huobi") sampleFiles) = 1.
Proof. split; vm_compute; reflexivity. Qed.

(** C4, as the program has it. When [main] completes (some fetch gave a
    result and the result files can be written), the analysis file holds
    [analyzeData] of the merged sequence, the output of the merger. *)
Theorem main_persists_analysis_of_merged (Math_log : float -> float)
  (Math_pow : float -> float -> float) (moment_format : string -> string -> string)
  (toFixed : float -> nat -> string) (env : Env.t) (binance huobi : Exchange.t)
  (fs : gmap string File) :
  validResultsOf env [binance; huobi] fs <> [] ->
  resultsWritable env = true ->
  exists a,
    analyzeData Math_log Math_pow moment_format toFixed
      (mergeExchangeData (validResultsOf env [binance; huobi] fs)) = Normal a
    /\ snd (main Math_log Math_pow moment_format toFixed env binance huobi fs)
         !! "btc_price_analysis.json" = Some (AnalysisFile a).
Proof. intros Hv Hw. unfold main. now apply pipeline_analysis. Qed.

Lemma main_persists_analysis_of_merged_witness :
  persistedHighestClose
    (snd (main libLog libPow libFormat libFixed fullEnv
            oneDayExchange (downExchange "Huobi") sampleFiles))
  = Some (JNumber 100).
Proof.
  destruct (main_persists_analysis_of_merged libLog libPow libFormat libFixed fullEnv
              oneDayExchange (downExchange "Huobi") sampleFiles)
    as (a & Ha & Hfile).
  - discriminate.
  - reflexivity.
  - unfold persistedHighestClose. rewrite Hfile.
    change (highestClose (Normal a) = Some (JNumber 100)). rewrite <- Ha.
    vm_compute. reflexivity.
Defined.

(** The only fetched day has a volume spike and is not valid: the analysis
    over the valid days has the initial highest close 0, while the analysis
    file has the close 100 of the day that was left out. *)
Lemma analysis_of_valid_counterexample :
  persistedHighestClose
    (snd (main libLog libPow libFormat libFixed fullEnv
            oneDayExchange (downExchange "Huobi") sampleFiles))
  = Some (JNumber 100)
  /\ highestClose
       (analysisOfValid
          (mergeExchangeData
             (validResultsOf fullEnv [oneDayExchange; downExchange "Huobi"] sampleFiles)))
     = Some (JNumber 0).
Proof. split; vm_compute; reflexivity. Qed.

(* ===================================================================== *)
(** * The request loops and the reachability probe *)
(* ===================================================================== *)

Lemma prefix_append (h s : string) : String.prefix h (String.append h s) = true.
Proof.
  induction h as [|a h IH]; simpl.
  - now destruct s.
  - destruct (ascii_dec a a); [exact IH | congruence].
Qed.

Lemma prefix_refl (h : string) : String.prefix h h = true.
Proof.
  induction h as [|a h IH]; simpl; [reflexivity|].
  destruct (ascii_dec a a); [exact IH | congruence].
Qed.

Section RequestLoops.
Variable Row : Type.
Variable net : Network Row.
Variable config : Config.t.

Lemma PriceFetcher_makeRequestFrom_log (remaining attempt : nat) (endpoint : string)
  (startTime : option Z) (c : Client.t) :
  (attempt + remaining = Config.MAX_RETRIES config)%nat ->
  let '(r, c') :=
    PriceFetcher.makeRequestFrom Row net config remaining attempt endpoint startTime c in
  exists events,
    Client.log c' = Client.log c ++ events
    /\ requestsProbed events = true
    /\ rotatesOnFailedProbe events = true
    /\ (attemptsSpent events <= remaining)%nat
    /\ (noResponse r = true -> attemptsSpent events = remaining)
    /\ (countEvents isRequest events <= remaining - countEvents isFailedProbe events)%nat.
Proof.
  revert attempt c. induction remaining as [|remaining IH]; intros attempt c Hsum;
    cbn [PriceFetcher.makeRequestFrom].
  - exists []. rewrite app_nil_r. repeat split; auto.
  - unfold PriceFetcher.checkDNS.
    destruct (dns net (Client.tick c) (PriceFetcher.baseURL config c)) eqn:Hdns;
      cbn [negb].
    + unfold PriceFetcher.axios_get. set (c1 := advance (emit _ c)).
      assert (Hbase : PriceFetcher.baseURL config c1 = PriceFetcher.baseURL config c)
        by reflexivity.
      destruct (http net (Client.tick c1) _ startTime) as [rows|e] eqn:Hhttp.
      * eexists [_; _]. cbn [Client.log advance emit c1]. rewrite <- app_assoc.
        split; [reflexivity|]. cbn. rewrite Hbase, prefix_append.
        repeat split; try reflexivity; try lia.
      * destruct (Nat.eqb_spec attempt (Config.MAX_RETRIES config - 1)) as [Hlast|Hmore].
        -- eexists [_; _]. cbn [Client.log advance emit c1]. rewrite <- app_assoc.
           split; [reflexivity|]. cbn. rewrite Hbase, prefix_append.
           repeat split; try reflexivity; try lia.
        -- match goal with
           | |- context [PriceFetcher.makeRequestFrom _ _ _ _ ?a _ _ ?c0] =>
               specialize (IH a c0 ltac:(lia))
           end.
           destruct (PriceFetcher.makeRequestFrom _ _ _ _ _ _ _ _) as [r c'].
           destruct IH as (events & Hlog & Hp & Hr & Hle & Hno & Hreq).
           eexists (_ :: _ :: _ :: _ :: events). split.
           { rewrite Hlog. cbn [Client.log sleep advance emit PriceFetcher.switchEndpoint c1].
             rewrite <- !app_assoc. reflexivity. }
           unfold attemptsSpent, countEvents in *. cbn. rewrite Hbase, prefix_append.
           repeat split; auto; try lia; try (intros H; specialize (Hno H); lia).
    + match goal with
      | |- context [PriceFetcher.makeRequestFrom _ _ _ _ ?a _ _ ?c0] =>
          specialize (IH a c0 ltac:(lia))
      end.
      destruct (PriceFetcher.makeRequestFrom _ _ _ _ _ _ _ _) as [r c'].
      destruct IH as (events & Hlog & Hp & Hr & Hle & Hno & Hreq).
      eexists (_ :: _ :: events). split.
      { rewrite Hlog. cbn [Client.log advance emit PriceFetcher.switchEndpoint].
        rewrite <- !app_assoc. reflexivity. }
      unfold attemptsSpent, countEvents in *. cbn.
      repeat split; auto; try lia; try (intros H; specialize (Hno H); lia).
Qed.

End RequestLoops.

Section BaseRequestLoop.
Variable Row : Type.
Variable net : Network Row.

Lemma BaseExchange_makeRequestFrom_log (remaining i : nat) (url : string)
  (startTime : option Z) (lastError : option JsError) (c : Client.t) :
  let '(r, c') :=
    BaseExchange.makeRequestFrom Row net remaining i url startTime lastError c in
  exists events,
    Client.log c' = Client.log c ++ events
    /\ requestsProbed events = true
    /\ countEvents isSwitch events = 0%nat
    /\ (attemptsSpent events <= remaining)%nat
    /\ (isThrow r = true -> attemptsSpent events = remaining).
Proof.
  revert i lastError c. induction remaining as [|remaining IH]; intros i lastError c;
    cbn [BaseExchange.makeRequestFrom].
  - exists []. rewrite app_nil_r. repeat split; auto.
  - unfold BaseExchange.checkDomain.
    destruct (dns net (Client.tick c) url) eqn:Hdns; cbn [negb].
    + unfold BaseExchange.axios. set (c1 := advance (emit _ c)).
      destruct (http net (Client.tick c1) url startTime) as [rows|e] eqn:Hhttp.
      * eexists [_; _]. cbn [Client.log advance emit c1]. rewrite <- app_assoc.
        split; [reflexivity|]. cbn. rewrite prefix_refl.
        repeat split; try reflexivity; try lia; try discriminate.
      * unfold BaseExchange.Math_random.
        match goal with
        | |- context [BaseExchange.makeRequestFrom _ _ _ ?a _ _ ?le ?c0] =>
            specialize (IH a le c0)
        end.
        destruct (BaseExchange.makeRequestFrom _ _ _ _ _ _ _ _) as [r c'].
        destruct IH as (events & Hlog & Hp & Hs & Hle & Hno).
        eexists (_ :: _ :: _ :: events). split.
        { rewrite Hlog. cbn [Client.log sleep advance emit c1].
          rewrite <- !app_assoc. reflexivity. }
        unfold attemptsSpent, countEvents in *. cbn. rewrite prefix_refl.
        repeat split; auto; try lia; try (intros H; specialize (Hno H); lia).
    + unfold BaseExchange.Math_random.
      match goal with
      | |- context [BaseExchange.makeRequestFrom _ _ _ ?a _ _ ?le ?c0] =>
          specialize (IH a le c0)
      end.
      destruct (BaseExchange.makeRequestFrom _ _ _ _ _ _ _ _) as [r c'].
      destruct IH as (events & Hlog & Hp & Hs & Hle & Hno).
      eexists (_ :: _ :: events). split.
      { rewrite Hlog. cbn [Client.log sleep advance emit].
        rewrite <- !app_assoc. reflexivity. }
      unfold attemptsSpent, countEvents in *. cbn.
      repeat split; auto; try lia; try (intros H; specialize (Hno H); lia).
Qed.

End BaseRequestLoop.

(** C8, as the program has it. In both request loops every request comes
    right after a probe of its host that resolved. A failed probe uses up
    one of the bounded attempts, as a failed request does: failed probes and
    failed requests together never exceed the bound, and they add up to it
    whenever the call ends without a response, so that the requests made are
    at most the bound less the failed probes. In [PriceFetcher.makeRequest] a
    failed probe is followed at once by a switch of endpoint; in
    [BaseExchange.makeRequest] the endpoint is never switched. *)
Theorem requests_probed_and_probes_spend_attempts (Row : Type) (net : Network Row)
  (config : Config.t) (endpoint url : string) (startTime : option Z)
  (maxRetries : nat) (c : Client.t) :
  (let '(r, c') := PriceFetcher.makeRequest Row net config endpoint startTime c in
   exists events,
     Client.log c' = Client.log c ++ events
     /\ requestsProbed events = true
     /\ rotatesOnFailedProbe events = true
     /\ (attemptsSpent events <= Config.MAX_RETRIES config)%nat
     /\ (noResponse r = true -> attemptsSpent events = Config.MAX_RETRIES config)
     /\ (countEvents isRequest events <=
         Config.MAX_RETRIES config - countEvents isFailedProbe events)%nat)
  /\ (let '(r, c') := BaseExchange.makeRequest Row net url startTime maxRetries c in
      exists events,
        Client.log c' = Client.log c ++ events
        /\ requestsProbed events = true
        /\ countEvents isSwitch events = 0%nat
        /\ (attemptsSpent events <= maxRetries)%nat
        /\ (isThrow r = true -> attemptsSpent events = maxRetries)).
Proof.
  split.
  - unfold PriceFetcher.makeRequest.
    apply (PriceFetcher_makeRequestFrom_log Row net config). lia.
  - unfold BaseExchange.makeRequest. apply BaseExchange_makeRequestFrom_log.
Qed.

(** With a host that never resolves and 5 attempts, [PriceFetcher.makeRequest]
    makes 5 probes and no request and returns [undefined]: the attempts went
    on the probes. [BaseExchange.makeRequest] with 3 attempts makes 3 probes,
    no request and no switch, and throws. *)
Lemma probes_spend_attempts_counterexample :
  (let '(r, c') :=
     PriceFetcher.makeRequest Z unresolvableNet defaultConfig "/api/v3/klines"
       (Some 0) start in
   r = Normal None
   /\ countEvents isFailedProbe (Client.log c') = 5%nat
   /\ countEvents isRequest (Client.log c') = 0%nat)
  /\ (let '(r, c') :=
        BaseExchange.makeRequest Z unresolvableNet "https://www.okx.com" (Some 0) 3 start in
      r = Throw (Error "DNS lookup failed")
      /\ countEvents isFailedProbe (Client.log c') = 3%nat
      /\ countEvents isRequest (Client.log c') = 0%nat
      /\ countEvents isSwitch (Client.log c') = 0%nat).
Proof. vm_compute. repeat split. Qed.

Lemma requests_probed_and_probes_spend_attempts_witness :
  let '(r, c') :=
    PriceFetcher.makeRequest Z unresolvableNet defaultConfig "/api/v3/klines"
      (Some 0) start in
  attemptsSpent (Client.log c') = 5%nat.
Proof.
  pose proof (requests_probed_and_probes_spend_attempts Z unresolvableNet defaultConfig
                "/api/v3/klines" "" (Some 0) 3 start) as [H _].
  destruct (PriceFetcher.makeRequest Z unresolvableNet defaultConfig "/api/v3/klines"
              (Some 0) start) as [r c'] eqn:E.
  destruct H as (events & Hlog & _ & _ & _ & Hspent & _).
  assert (Hr : r = Normal None) by (vm_compute in E; congruence).
  rewrite Hlog. cbn [Client.log start app]. apply Hspent. now rewrite Hr.
Defined.

(* ===================================================================== *)
(** * The fetch loops and the failure ceiling *)
(* ===================================================================== *)

Section FetchLoops.
Variable Row : Type.
Variable closeTimeOf : Row -> option Z.
Variable openTimeOf : Row -> option Z.
Variable formatData : list Row -> list Kline.t.
Variable net : Network Row.
Variable config : Config.t.

Lemma PriceFetcher_ceiling (fuel : nat) (endTime : Z) (st : Loop.t Row) (c : Client.t) :
  (Loop.failureCount st < MAX_FAILURES)%nat ->
  let '(out, st', _) :=
    PriceFetcher.fetchAllDataFrom Row closeTimeOf net config fuel endTime st c in
  (forall e, out <> Raised e)
  /\ ((MAX_FAILURES <= Loop.failureCount st')%nat -> out = Returned (Loop.allData st')).
Proof.
  revert st c. induction fuel as [|fuel IH]; intros st c Hlt;
    cbn [PriceFetcher.fetchAllDataFrom].
  - destruct (negb _); (split; [discriminate | intros; lia]).
  - destruct (negb _); [split; [discriminate | intros; lia]|].
    destruct (PriceFetcher.fetchKlines Row net config _ c) as [[[[|row data]|]|e] c1].
    + split; [discriminate | intros; lia].
    + apply IH. cbn. unfold MAX_FAILURES. lia.
    + split; [discriminate | intros; lia].
    + cbn [Loop.failureCount Loop.allData Loop.currentStartTime].
      destruct (Nat.leb_spec MAX_FAILURES (S (Loop.failureCount st))) as [Hge|Hlt'].
      * split; [discriminate | reflexivity].
      * apply IH. cbn. exact Hlt'.
Qed.

Lemma OKXExchange_ceiling (fuel : nat) (startTime endTime : Z) (st : Loop.t Row)
  (c : Client.t) :
  (Loop.failureCount st < MAX_FAILURES)%nat ->
  let '(out, st', _) :=
    OKXExchange.fetchKlinesFrom Row openTimeOf formatData net fuel startTime endTime st c in
  (MAX_FAILURES <= Loop.failureCount st')%nat ->
  out = Raised (Error "Too many consecutive failures").
Proof.
  revert st c. induction fuel as [|fuel IH]; intros st c Hlt;
    cbn [OKXExchange.fetchKlinesFrom].
  - destruct (negb _); intros; lia.
  - destruct (negb _); [intros; lia|].
    destruct (BaseExchange.makeRequest Row net _ _ 3 _) as [[[|row data]|e] c1].
    + intros; lia.
    + apply IH. cbn. unfold MAX_FAILURES. lia.
    + cbn [Loop.failureCount Loop.allData Loop.currentStartTime].
      destruct (Nat.leb_spec MAX_FAILURES (S (Loop.failureCount st))) as [Hge|Hlt'].
      * reflexivity.
      * destruct (BaseExchange.Math_random Row net _) as [rnd c2].
        apply IH. cbn. exact Hlt'.
Qed.

Lemma PriceFetcher_makeRequest_fails (remaining attempt : nat) (endpoint : string)
  (startTime : option Z) (c : Client.t) :
  lookupsResolve net -> requestsFail net ->
  (attempt + remaining = Config.MAX_RETRIES config)%nat -> (1 <= remaining)%nat ->
  isThrow (fst (PriceFetcher.makeRequestFrom Row net config remaining attempt endpoint
                  startTime c)) = true.
Proof.
  intros Hdns Hhttp. revert attempt c.
  induction remaining as [|remaining IH]; intros attempt c Hsum Hpos; [lia|].
  cbn [PriceFetcher.makeRequestFrom]. unfold PriceFetcher.checkDNS.
  rewrite Hdns. cbn [negb]. unfold PriceFetcher.axios_get.
  match goal with |- context [http net ?n ?u ?t] =>
    pose proof (Hhttp n u t) as Hthrow; destruct (http net n u t); [discriminate|] end.
  destruct (Nat.eqb_spec attempt (Config.MAX_RETRIES config - 1)); [reflexivity|].
  apply IH; lia.
Qed.

Lemma BaseExchange_makeRequest_fails (remaining i : nat) (url : string)
  (startTime : option Z) (lastError : option JsError) (c : Client.t) :
  requestsFail net ->
  isThrow (fst (BaseExchange.makeRequestFrom Row net remaining i url startTime
                  lastError c)) = true.
Proof.
  intros Hhttp. revert i lastError c.
  induction remaining as [|remaining IH]; intros i lastError c;
    cbn [BaseExchange.makeRequestFrom]; [reflexivity|].
  unfold BaseExchange.checkDomain. destruct (dns net _ url); cbn [negb].
  - unfold BaseExchange.axios.
    match goal with |- context [http net ?n ?u ?t] =>
      pose proof (Hhttp n u t) as Hthrow; destruct (http net n u t); [discriminate|] end.
    unfold BaseExchange.Math_random. apply IH.
  - unfold BaseExchange.Math_random. apply IH.
Qed.

Lemma PriceFetcher_down (fuel : nat) (endTime : Z) (st : Loop.t Row) (c : Client.t) :
  lookupsResolve net -> requestsFail net -> (1 <= Config.MAX_RETRIES config)%nat ->
  (Loop.failureCount st < MAX_FAILURES)%nat ->
  lessThan (Loop.currentStartTime st) endTime = true ->
  (MAX_FAILURES - Loop.failureCount st <= fuel)%nat ->
  let '(out, st', _) :=
    PriceFetcher.fetchAllDataFrom Row closeTimeOf net config fuel endTime st c in
  out = Returned (Loop.allData st)
  /\ Loop.failureCount st' = MAX_FAILURES
  /\ Loop.allData st' = Loop.allData st.
Proof.
  intros Hdns Hhttp Hretries. revert st c.
  induction fuel as [|fuel IH]; intros st c Hlt Hcond Hfuel; [lia|].
  cbn [PriceFetcher.fetchAllDataFrom]. rewrite Hcond. cbn [negb].
  pose proof (PriceFetcher_makeRequest_fails (Config.MAX_RETRIES config) 0
                "/api/v3/klines" (Loop.currentStartTime st) c Hdns Hhttp
                ltac:(lia) Hretries) as Hthrow.
  unfold PriceFetcher.fetchKlines, PriceFetcher.makeRequest.
  destruct (PriceFetcher.makeRequestFrom _ _ _ _ _ _ _ _) as [[r|e] c1];
    [discriminate Hthrow|].
  cbn [Loop.failureCount Loop.allData Loop.currentStartTime].
  destruct (Nat.leb_spec MAX_FAILURES (S (Loop.failureCount st))) as [Hge|Hlt'].
  - cbn. repeat split; auto. unfold MAX_FAILURES in *. lia.
  - match goal with
    | |- context [PriceFetcher.fetchAllDataFrom _ _ _ _ _ _ ?s ?c0] =>
        specialize (IH s c0 Hlt' Hcond ltac:(unfold MAX_FAILURES in *; cbn in *; lia))
    end.
    destruct (PriceFetcher.fetchAllDataFrom _ _ _ _ _ _ _ _) as [[out st'] c'].
    exact IH.
Qed.

Lemma OKXExchange_down (fuel : nat) (startTime endTime : Z) (st : Loop.t Row)
  (c : Client.t) :
  requestsFail net ->
  (Loop.failureCount st < MAX_FAILURES)%nat ->
  lessThan (Loop.currentStartTime st) endTime = true ->
  (MAX_FAILURES - Loop.failureCount st <= fuel)%nat ->
  let '(out, st', _) :=
    OKXExchange.fetchKlinesFrom Row openTimeOf formatData net fuel startTime endTime st c in
  out = Raised (Error "Too many consecutive failures")
  /\ Loop.failureCount st' = MAX_FAILURES
  /\ Loop.allData st' = Loop.allData st.
Proof.
  intros Hhttp. revert st c.
  induction fuel as [|fuel IH]; intros st c Hlt Hcond Hfuel; [lia|].
  cbn [OKXExchange.fetchKlinesFrom]. rewrite Hcond. cbn [negb].
  unfold BaseExchange.makeRequest.
  match goal with
  | |- context [BaseExchange.makeRequestFrom _ _ ?n ?i ?u ?t ?le ?c0] =>
      pose proof (BaseExchange_makeRequest_fails n i u t le c0 Hhttp) as Hthrow;
      destruct (BaseExchange.makeRequestFrom Row net n i u t le c0) as [[r|e] c1];
      [discriminate Hthrow|]
  end.
  cbn [Loop.failureCount Loop.allData Loop.currentStartTime].
  destruct (Nat.leb_spec MAX_FAILURES (S (Loop.failureCount st))) as [Hge|Hlt'].
  - cbn. repeat split; auto. unfold MAX_FAILURES in *. lia.
  - destruct (BaseExchange.Math_random Row net _) as [rnd c2].
    match goal with
    | |- context [OKXExchange.fetchKlinesFrom _ _ _ _ _ _ _ ?s ?c0] =>
        specialize (IH s c0 Hlt' Hcond ltac:(unfold MAX_FAILURES in *; cbn in *; lia))
    end.
    destruct (OKXExchange.fetchKlinesFrom _ _ _ _ _ _ _ _ _) as [[out st'] c'].
    exact IH.
Qed.

End FetchLoops.

(** C1, as the program has it. [PriceFetcher.fetchAllData] never throws, and
    a run that ends with the failure counter at the ceiling of 10 returns
    the rows accumulated so far. A run of [OKXExchange.fetchKlines] that ends
    with the counter at the ceiling throws [Too many consecutive failures]
    and returns nothing. Both happen: from any point of the loop with the
    window still open and fewer than 10 failures counted, on a network whose
    requests all fail (and, for [PriceFetcher], whose lookups resolve, with at
    least one try per request) the loop ends within the iterations that are
    left to the ceiling, the rows accumulated being the same as at that
    point. *)
Theorem failure_ceiling_returns_or_throws (Row : Type)
  (closeTimeOf openTimeOf : Row -> option Z) (formatData : list Row -> list Kline.t)
  (net : Network Row) (config : Config.t) (fuel : nat) (startTime endTime : Z)
  (st : Loop.t Row) (c : Client.t) :
  (Loop.failureCount st < MAX_FAILURES)%nat ->
  (let '(out, st', _) :=
     PriceFetcher.fetchAllDataFrom Row closeTimeOf net config fuel endTime st c in
   (forall e, out <> Raised e)
   /\ ((MAX_FAILURES <= Loop.failureCount st')%nat -> out = Returned (Loop.allData st')))
  /\ (let '(out, st', _) :=
        OKXExchange.fetchKlinesFrom Row openTimeOf formatData net fuel startTime endTime
          st c in
      (MAX_FAILURES <= Loop.failureCount st')%nat ->
      out = Raised (Error "Too many consecutive failures"))
  /\ (requestsFail net ->
      lessThan (Loop.currentStartTime st) endTime = true ->
      (MAX_FAILURES - Loop.failureCount st <= fuel)%nat ->
      (lookupsResolve net -> (1 <= Config.MAX_RETRIES config)%nat ->
       let '(out, st', _) :=
         PriceFetcher.fetchAllDataFrom Row closeTimeOf net config fuel endTime st c in
       out = Returned (Loop.allData st)
       /\ Loop.failureCount st' = MAX_FAILURES
       /\ Loop.allData st' = Loop.allData st)
      /\ (let '(out, st', _) :=
            OKXExchange.fetchKlinesFrom Row openTimeOf formatData net fuel startTime
              endTime st c in
          out = Raised (Error "Too many consecutive failures")
          /\ Loop.failureCount st' = MAX_FAILURES
          /\ Loop.allData st' = Loop.allData st)).
Proof.
  intros Hlt. split; [|split].
  - now apply PriceFetcher_ceiling.
  - now apply OKXExchange_ceiling.
  - intros Hhttp Hcond Hfuel. split.
    + intros Hdns Hretries. now apply PriceFetcher_down.
    + now apply OKXExchange_down.
Qed.

Lemma failure_ceiling_returns_or_throws_witness :
  fst (fst (PriceFetcher.fetchAllDataFrom Z Some downNet defaultConfig 10 5000
              (Loop.mk [1000] (Some 1001) 0) start))
    = Returned [1000]
  /\ fst (fst (OKXExchange.fetchKlinesFrom Z Some sampleFormat downNet 10 0 5000
                 (Loop.mk [1000] (Some 1001) 0) start))
     = Raised (Error "Too many consecutive failures").
Proof.
  destruct (failure_ceiling_returns_or_throws Z Some Some sampleFormat downNet
              defaultConfig 10 0 5000 (Loop.mk [1000] (Some 1001) 0) start)
    as (_ & _ & H).
  - unfold MAX_FAILURES. simpl. lia.
  - destruct H as [Hp Ho].
    + intros n url t. reflexivity.
    + reflexivity.
    + unfold MAX_FAILURES. simpl. lia.
    + specialize (Hp ltac:(intros n url; reflexivity) ltac:(simpl; lia)).
      destruct (PriceFetcher.fetchAllDataFrom _ _ _ _ _ _ _ _) as [[out st'] c'].
      destruct (OKXExchange.fetchKlinesFrom _ _ _ _ _ _ _ _ _) as [[out2 st2] c2].
      cbn [fst]. split; [apply Hp | apply Ho].
Defined.

(** One page of one row, then ten failed fetches: [OKXExchange.fetchKlines]
    throws although a row was accumulated, where [PriceFetcher.fetchAllData]
    returns that row. *)
Lemma okx_throws_at_ceiling_counterexample :
  (let '(out, st, _) :=
     OKXExchange.fetchKlines Z Some sampleFormat flakyNet 11 0 5000 start in
   out = Raised (Error "Too many consecutive failures")
   /\ Loop.failureCount st = 10%nat
   /\ Loop.allData st = [1000])
  /\ (let '(out, st, _) :=
        PriceFetcher.fetchAllData Z Some flakyNet defaultConfig 11 0 5000 start in
      out = Returned [1000] /\ Loop.failureCount st = 10%nat).
Proof. vm_compute. repeat split. Qed.

(* ===================================================================== *)
(** * Further properties of the validator *)
(* ===================================================================== *)

Lemma flatMapIdx_app {A B : Type} (f : nat -> A -> list B) (index : nat)
  (l1 l2 : list A) :
  flatMapIdx f index (l1 ++ l2) =
  flatMapIdx f index l1 ++ flatMapIdx f (index + length l1) l2.
Proof.
  revert index. induction l1 as [|x l1 IH]; intros index; cbn [app flatMapIdx length].
  - now rewrite Nat.add_0_r.
  - rewrite IH, <- app_assoc. do 3 f_equal. lia.
Qed.

Lemma flatMapIdx_ext {A B : Type} (f g : nat -> A -> list B) (index : nat)
  (l : list A) :
  (forall i x, nth_error l i = Some x -> f (index + i)%nat x = g (index + i)%nat x) ->
  flatMapIdx f index l = flatMapIdx g index l.
Proof.
  revert index. induction l as [|x l IH]; intros index H; cbn [flatMapIdx]; [reflexivity|].
  f_equal.
  - specialize (H O x eq_refl). now rewrite Nat.add_0_r in H.
  - apply IH. intros i y Hy. specialize (H (S i) y Hy).
    now rewrite Nat.add_succ_r in H.
Qed.

Lemma flatMapIdx_const {A B : Type} (g : A -> list B) (n m : nat) (l : list A) :
  flatMapIdx (fun _ => g) n l = flatMapIdx (fun _ => g) m l.
Proof.
  revert n m. induction l as [|x l IH]; intros n m; cbn [flatMapIdx]; [reflexivity|].
  f_equal. apply IH.
Qed.

Lemma keptDays_sublist (mergedData : list Day.t) (index : nat) (days : list Day.t) :
  keptDays mergedData index days `sublist_of` days.
Proof.
  unfold keptDays. revert index.
  induction days as [|d days IH]; intros index; cbn [flatMapIdx]; [constructor|].
  destruct (noRuleFired mergedData index d); cbn [app]; constructor; apply IH.
Qed.

(** X1. The valid days of a result are days of the input, in the order of
    the input: validation only leaves days out. *)
Theorem validateData_valid_subsequence (mergedData : list Day.t) :
  exists r, validateData mergedData = Normal r /\ valid r `sublist_of` mergedData.
Proof.
  eexists. split; [apply validateData_eq|].
  rewrite daySteps_valid. cbn [emptyResults valid app]. apply keptDays_sublist.
Qed.

Lemma kept_day_passed (mergedData : list Day.t) (d : Day.t) :
  In d (keptDays mergedData 0 mergedData) ->
  exists i, nth_error mergedData i = Some d /\ noRuleFired mergedData i d = true.
Proof.
  unfold keptDays. rewrite In_flatMapIdx. intros (i & x & Hn & Hy). cbn [Nat.add] in Hy.
  destruct (noRuleFired mergedData i x) eqn:E; [|destruct Hy].
  destruct Hy as [<-|[]]. eauto.
Qed.

(** X2. A valid day has no data defect and no price disagreement: every
    record of the day has an open, high, low, close and volume that are
    numbers, and with two sources or more the cross-source percentage is not
    above 1. *)
Theorem valid_days_complete_and_agreeing (mergedData : list Day.t) :
  exists r,
    validateData mergedData = Normal r
    /\ forall d, In d (valid r) ->
         (forall k record, Obj.get k (Day.exchanges d) = Some record ->
                           incompleteRecord record = false)
         /\ ((2 <= length (Obj.keys (Day.exchanges d)))%nat ->
             (1 <? deviationPercent d)%float = false).
Proof.
  eexists. split; [apply validateData_eq|].
  rewrite daySteps_valid. cbn [emptyResults valid app]. intros d Hd.
  apply kept_day_passed in Hd as (i & _ & Hk). unfold noRuleFired in Hk.
  apply andb_prop in Hk as [Hk _]. apply andb_prop in Hk as [Hk _].
  apply andb_prop in Hk as [Hm Hp]. split.
  - intros k record Hget. unfold missingOf in Hm.
    destruct (forallb _ _) eqn:E; [|discriminate].
    rewrite forallb_forall in E. specialize (E k (key_of_get _ _ _ Hget)).
    unfold completeRecord in E. rewrite Hget in E. unfold incompleteRecord.
    destruct (isNaN (Kline.open record)), (isNaN (Kline.high record)),
      (isNaN (Kline.low record)), (isNaN (Kline.close record)),
      (isNaN (Kline.volume record)); try discriminate; reflexivity.
  - intros Hlen. rewrite priceDiffOf_cases in Hp. apply Nat.leb_le in Hlen.
    rewrite Hlen in Hp. cbn [andb] in Hp.
    destruct (1 <? deviationPercent d)%float; [discriminate | reflexivity].
Qed.

Lemma slice_app {A : Type} (start stop : nat) (l more : list A) :
  (stop <= length l)%nat -> slice start stop (l ++ more) = slice start stop l.
Proof.
  intros Hstop. unfold slice.
  destruct (Nat.le_gt_cases start (length l)) as [Hs|Hs].
  - rewrite skipn_app, firstn_app, length_skipn.
    replace (stop - start - (length l - start))%nat with O by lia.
    cbn [firstn]. now rewrite app_nil_r.
  - replace (stop - start)%nat with O by lia. reflexivity.
Qed.

Lemma calculateAverageVolume_app (data more : list Day.t) (exchange : string)
  (currentIndex : nat) :
  (currentIndex <= length data)%nat ->
  calculateAverageVolume (data ++ more) exchange currentIndex =
  calculateAverageVolume data exchange currentIndex.
Proof.
  intros H. unfold calculateAverageVolume. cbn zeta. now rewrite slice_app.
Qed.

Lemma noRuleFired_app (mergedData more : list Day.t) (index : nat) (d : Day.t) :
  (index <= length mergedData)%nat ->
  noRuleFired (mergedData ++ more) index d = noRuleFired mergedData index d
  /\ spikesOf (mergedData ++ more) index d = spikesOf mergedData index d
  /\ gapsOf (mergedData ++ more) index d = gapsOf mergedData index d.
Proof.
  intros Hidx.
  assert (Hs : spikesOf (mergedData ++ more) index d = spikesOf mergedData index d).
  { unfold spikesOf. apply flat_map_ext. intros k. unfold spikeOf.
    now rewrite calculateAverageVolume_app. }
  assert (Hg : gapsOf (mergedData ++ more) index d = gapsOf mergedData index d).
  { unfold gapsOf. destruct index as [|i]; [reflexivity|].
    rewrite nth_error_app1 by lia. reflexivity. }
  unfold noRuleFired. now rewrite Hs, Hg.
Qed.

(** X3. Validation is a forward pass: the days that follow have no part in
    what is decided for a day. Validating a sequence with more days appended
    gives the valid days and the four anomaly lists of the shorter sequence,
    followed by those of the appended days. *)
Theorem validateData_prefix_stable (mergedData more : list Day.t) :
  exists r r',
    validateData mergedData = Normal r
    /\ validateData (mergedData ++ more) = Normal r'
    /\ valid r' = valid r ++ keptDays (mergedData ++ more) (length mergedData) more
    /\ priceDiff (anomalies r') =
       priceDiff (anomalies r) ++ flatMapIdx (fun _ d => priceDiffOf d) 0 more
    /\ volumeSpikes (anomalies r') =
       volumeSpikes (anomalies r)
       ++ flatMapIdx (spikesOf (mergedData ++ more)) (length mergedData) more
    /\ dataMissing (anomalies r') =
       dataMissing (anomalies r) ++ flatMapIdx (fun _ d => missingOf d) 0 more
    /\ priceGaps (anomalies r') =
       priceGaps (anomalies r)
       ++ flatMapIdx (gapsOf (mergedData ++ more)) (length mergedData) more.
Proof.
  do 2 eexists. split; [apply validateData_eq|]. split; [apply validateData_eq|].
  rewrite !daySteps_valid. cbn [emptyResults valid app].
  destruct (daySteps_anomalies mergedData mergedData 0 emptyResults) as (A1 & A2 & A3 & A4).
  destruct (daySteps_anomalies (mergedData ++ more) (mergedData ++ more) 0 emptyResults)
    as (B1 & B2 & B3 & B4).
  cbn zeta in *. rewrite A1, A2, A3, A4, B1, B2, B3, B4.
  cbn [emptyResults anomalies priceDiff volumeSpikes dataMissing priceGaps app].
  unfold keptDays. rewrite !flatMapIdx_app. cbn [Nat.add].
  assert (Hsame : forall i x, nth_error mergedData i = Some x ->
                              (i <= length mergedData)%nat).
  { intros i x Hx. apply Nat.lt_le_incl. apply nth_error_Some. congruence. }
  repeat split.
  - f_equal. apply flatMapIdx_ext. intros i x Hx. cbn [Nat.add].
    now rewrite (proj1 (noRuleFired_app mergedData more i x (Hsame i x Hx))).
  - f_equal. apply flatMapIdx_const.
  - f_equal. apply flatMapIdx_ext. intros i x Hx. cbn [Nat.add].
    apply (noRuleFired_app mergedData more i x (Hsame i x Hx)).
  - f_equal. apply flatMapIdx_const.
  - f_equal. apply flatMapIdx_ext. intros i x Hx. cbn [Nat.add].
    apply (noRuleFired_app mergedData more i x (Hsame i x Hx)).
Qed.

(** X4. Every [VolumeSpike] entry is backed by the data: it carries the
    date of a day of the input, the volume of the named source's record on
    that day and the trailing average computed at that day's position, and
    the volume is above 3 times that average. *)
Theorem volumeSpike_entries_sound (mergedData : list Day.t) :
  exists r,
    validateData mergedData = Normal r
    /\ forall e, In e (volumeSpikes (anomalies r)) ->
         exists i d record,
           nth_error mergedData i = Some d
           /\ Obj.get (VolumeSpike.exchange e) (Day.exchanges d) = Some record
           /\ VolumeSpike.date e = Day.date d
           /\ VolumeSpike.volume e = Kline.volume record
           /\ VolumeSpike.avgVolume e =
              calculateAverageVolume mergedData (VolumeSpike.exchange e) i
           /\ (VolumeSpike.avgVolume e * 3 <? ToNumber (VolumeSpike.volume e))%float
              = true.
Proof.
  eexists. split; [apply validateData_eq|].
  destruct (daySteps_anomalies mergedData mergedData 0 emptyResults) as (_ & A2 & _ & _).
  cbn [emptyResults anomalies volumeSpikes app] in A2. rewrite A2.
  intros e He. apply In_flatMapIdx in He as (i & d & Hd & He). cbn [Nat.add] in He.
  unfold spikesOf in He. apply in_flat_map in He as (k & Hk & He).
  unfold spikeOf in He. destruct (_ <? _)%float eqn:Hgt; [|destruct He].
  destruct He as [<-|[]]. cbn [VolumeSpike.exchange VolumeSpike.date VolumeSpike.volume
    VolumeSpike.avgVolume].
  destruct (get_of_key k (Day.exchanges d) Hk) as [record Hrec].
  exists i, d, record. unfold volumeOf in *. rewrite Hrec in *. auto 10.
Qed.

(** X5. Every [PriceGap] entry is backed by the data: it is for a day that
    has an entry before it in the sequence, both having a record of the
    named source; it carries the close of the earlier record, the open of the
    later one and their percentage, which is above 5. The first day of the
    sequence gets no [PriceGap] entry. *)
Theorem priceGap_entries_sound (mergedData : list Day.t) :
  exists r,
    validateData mergedData = Normal r
    /\ forall e, In e (priceGaps (anomalies r)) ->
         exists i prevDay d prevRecord record,
           nth_error mergedData i = Some prevDay
           /\ nth_error mergedData (S i) = Some d
           /\ Obj.get (PriceGap.exchange e) (Day.exchanges prevDay) = Some prevRecord
           /\ Obj.get (PriceGap.exchange e) (Day.exchanges d) = Some record
           /\ PriceGap.date e = Day.date d
           /\ PriceGap.prevClose e = Kline.close prevRecord
           /\ PriceGap.currOpen e = Kline.open record
           /\ PriceGap.gapPercent e =
              gapPercentOf (Kline.open record) (Kline.close prevRecord)
           /\ (5 <? PriceGap.gapPercent e)%float = true.
Proof.
  eexists. split; [apply validateData_eq|].
  destruct (daySteps_anomalies mergedData mergedData 0 emptyResults) as (_ & _ & _ & A4).
  cbn [emptyResults anomalies priceGaps app] in A4. rewrite A4.
  intros e He. apply In_flatMapIdx in He as (j & d & Hd & He). cbn [Nat.add] in He.
  unfold gapsOf in He. destruct j as [|i]; [destruct He|].
  destruct (nth_error mergedData i) as [prevDay|] eqn:Hprev; [|destruct He].
  apply in_flat_map in He as (k & Hk & He). unfold gapOf in He.
  destruct (Obj.get k (Day.exchanges prevDay)) as [prevRecord|] eqn:Hp; [|destruct He].
  destruct (Obj.get k (Day.exchanges d)) as [record|] eqn:Hc; [|destruct He].
  destruct (_ <? _)%float eqn:Hgt; [|destruct He].
  destruct He as [<-|[]]. cbn [PriceGap.exchange PriceGap.date PriceGap.prevClose
    PriceGap.currOpen PriceGap.gapPercent].
  exists i, prevDay, d, prevRecord, record. auto 12.
Qed.

Lemma daysWith_le (exchange : string) (days : list Day.t) :
  (daysWith exchange days <= length days)%nat.
Proof. unfold daysWith. apply List.filter_length_le. Qed.

(** X6. The counts of a result are ordered: the valid days are at most the
    days of the input, and the coverage count of a source is at least 1 and
    at most the number of valid days. *)
Theorem validation_counts_bounded (mergedData : list Day.t) :
  Forall wfDay mergedData ->
  exists r,
    validateData mergedData = Normal r
    /\ (validDays (stats r) <= totalDays (stats r))%nat
    /\ totalDays (stats r) = length mergedData
    /\ forall s n, exchangeCoverage (stats r) !! s = Some n ->
                   (1 <= n <= validDays (stats r))%nat.
Proof.
  intros Hwf. eexists. split; [apply validateData_eq|].
  destruct (daySteps_days mergedData mergedData 0 emptyResults) as [D1 D2].
  cbn [emptyResults stats totalDays validDays Nat.add] in D1, D2.
  split; [|split; [exact D1|]].
  - pose proof (sublist_length _ _ (keptDays_sublist mergedData 0 mergedData)). lia.
  - intros s n Hn.
    pose proof (daySteps_coverage mergedData mergedData 0 emptyResults s Hwf) as Hc.
    cbn [emptyResults stats exchangeCoverage] in Hc.
    rewrite lookup_empty in Hc. cbn [default Nat.add] in Hc. rewrite Hn in Hc.
    cbn [default] in Hc.
    pose proof (daySteps_coverage_positive mergedData mergedData 0 emptyResults) as Hp.
    cbn [emptyResults stats exchangeCoverage] in Hp.
    specialize (Hp (fun k m H => ltac:(rewrite lookup_empty in H; discriminate)) s n Hn).
    pose proof (daysWith_le s (keptDays mergedData 0 mergedData)).
    unfold id in Hc. lia.
Qed.

Lemma validation_counts_bounded_witness :
  exists r, validateData sampleMerged = Normal r
            /\ (validDays (stats r) <= totalDays (stats r))%nat
            /\ totalDays (stats r) = 2%nat.
Proof.
  destruct (validation_counts_bounded sampleMerged) as (r & Hr & Hle & Ht & _).
  - apply (bool_decide_unpack _). vm_compute. exact I.
  - exists r. auto.
Defined.

Lemma nth_error_slice {A : Type} (start stop : nat) (l : list A) (n : nat) :
  nth_error (slice start stop l) n =
  if (n <? stop - start)%nat then nth_error l (start + n) else None.
Proof.
  unfold slice. rewrite nth_error_firstn.
  destruct (n <? stop - start)%nat; [apply nth_error_skipn | reflexivity].
Qed.

(** X7. The trailing average looks at the 30 entries before the current
    one and at nothing else: two sequences that agree on the positions from
    [currentIndex - 30] (or 0) up to, and without, [currentIndex] give the
    same average. The current day and the later days play no part. *)
Theorem calculateAverageVolume_window (data data' : list Day.t) (exchange : string)
  (currentIndex : nat) :
  (forall j, (currentIndex - 30 <= j < currentIndex)%nat ->
             nth_error data j = nth_error data' j) ->
  calculateAverageVolume data exchange currentIndex =
  calculateAverageVolume data' exchange currentIndex.
Proof.
  intros Hwin. unfold calculateAverageVolume. cbn zeta. rewrite Nat.max_0_l.
  replace (slice (currentIndex - 30) currentIndex data')
    with (slice (currentIndex - 30) currentIndex data); [reflexivity|].
  apply nth_error_ext. intros n. rewrite !nth_error_slice.
  destruct (Nat.ltb_spec n (currentIndex - (currentIndex - 30))); [|reflexivity].
  apply Hwin. lia.
Qed.

Lemma calculateAverageVolume_window_witness :
  calculateAverageVolume sampleFirstDay "B" 1 =
  calculateAverageVolume (firstn 1 sampleFirstDay) "B" 1.
Proof.
  apply calculateAverageVolume_window. intros j Hj.
  destruct j as [|j]; [reflexivity | simpl in Hj; lia].
Defined.

(* ===================================================================== *)
(** * Further properties of the mergers *)
(* ===================================================================== *)

Lemma addResults_skip_null (results : list (option FetchResult))
  (m : list (string * Day.t)) :
  fold_left addResult (List.filter isNotNull results) m = fold_left addResult results m.
Proof.
  revert m. induction results as [|[res|] results IH]; intros m;
    cbn [List.filter isNotNull fold_left addResult]; auto.
Qed.

(** X8. A [null] result has no part in the merge: merging the results is
    merging those that are not [null]. *)
Theorem mergeExchangeData_ignores_null (results : list (option FetchResult)) :
  mergeExchangeData results = mergeExchangeData (List.filter isNotNull results).
Proof. unfold mergeExchangeData. now rewrite addResults_skip_null. Qed.

Lemma set_set {V : Type} (k : string) (v v0 : V) (o : list (string * V)) :
  Obj.set k v (Obj.set k v0 o) = Obj.set k v o.
Proof.
  induction o as [|[k' v'] o IH]; cbn [Obj.set].
  - now rewrite String.eqb_refl.
  - destruct (String.eqb k k') eqn:E; cbn [Obj.set]; rewrite E; [reflexivity|].
    now rewrite IH.
Qed.

(** [addRecord] is one [set] of the day with the record stored in it. *)
Lemma addRecord_as_set (name : string) (m : list (string * Day.t)) (r : Kline.t) :
  let date := Kline.date r in
  let day := match Obj.get date m with Some d => d | None => Day.mk date [] end in
  addRecord name m r =
  Obj.set date (Day.mk (Day.date day) (Obj.set name r (Day.exchanges day))) m.
Proof.
  cbn zeta. rewrite addRecord_eq. cbn zeta.
  destruct (Obj.has (Kline.date r) m); [reflexivity | apply set_set].
Qed.

Lemma set_Forall_values {V : Type} (P : V -> Prop) (k : string) (v : V)
  (o : list (string * V)) :
  Forall P (Obj.values o) -> P v -> Forall P (Obj.values (Obj.set k v o)).
Proof.
  unfold Obj.values. intros Ho Hv.
  induction o as [|[k' v'] o IH]; cbn [Obj.set map snd].
  - constructor; [exact Hv | constructor].
  - cbn [map snd] in Ho. apply Forall_cons in Ho as [Hv' Ho].
    destruct (String.eqb k k'); cbn [map snd]; constructor; auto.
Qed.

Lemma lastOn_some (date : string) (l : list Kline.t) (r : Kline.t) :
  lastOn date l = Some r -> In r l /\ Kline.date r = date.
Proof.
  induction l as [|x l IH]; cbn [lastOn]; [discriminate|].
  destruct (lastOn date l) as [r'|].
  - intros [= <-]. destruct (IH eq_refl). split; [now right | assumption].
  - destruct (String.eqb_spec (Kline.date x) date); [|discriminate].
    intros [= <-]. split; [now left | assumption].
Qed.

Lemma addRecord_fullDays (name : string) (m : list (string * Day.t)) (r : Kline.t) :
  Forall fullDay (Obj.values m) -> Forall fullDay (Obj.values (addRecord name m r)).
Proof.
  intros Hm. rewrite addRecord_as_set. cbn zeta. apply set_Forall_values; [exact Hm|].
  unfold fullDay, wfDay. cbn [Day.exchanges]. split.
  - apply NoDup_keys_set.
    destruct (Obj.get (Kline.date r) m) as [d|] eqn:E; [|constructor].
    apply get_In_values in E. rewrite Forall_forall in Hm.
    apply list_elem_of_In, Hm in E. apply E.
  - intros Hnil. pose proof (get_set_same name r
      (Day.exchanges match Obj.get (Kline.date r) m with
                     | Some d => d | None => Day.mk (Kline.date r) [] end)) as Hg.
    rewrite Hnil in Hg. discriminate.
Qed.

Lemma addResults_fullDays (rs : list (option FetchResult)) (m : list (string * Day.t)) :
  Forall fullDay (Obj.values m) -> Forall fullDay (Obj.values (fold_left addResult rs m)).
Proof.
  revert m. induction rs as [|[res|] rs IH]; intros m Hm; cbn [fold_left addResult]; auto.
  apply IH. generalize dependent m. induction (data res) as [|r l IHl]; intros m Hm;
    cbn [fold_left]; auto. apply IHl. now apply addRecord_fullDays.
Qed.

Lemma addResults_cell_from (rs : list (option FetchResult)) (m : list (string * Day.t))
  (date source : string) (r : Kline.t) :
  cell (fold_left addResult rs m) date source = Some r ->
  cell m date source = Some r
  \/ exists res, In (Some res) rs /\ name res = source /\ In r (data res)
                 /\ Kline.date r = date.
Proof.
  revert m. induction rs as [|[res|] rs IH]; intros m; cbn [fold_left addResult].
  - auto.
  - intros H. apply IH in H as [H|(res' & Hin & Hn & Hr & Hd)].
    + rewrite addRecords_cell in H.
      destruct (String.eqb_spec source (name res)) as [->|Hne]; [|auto].
      destruct (lastOn date (data res)) as [r'|] eqn:E; [|auto].
      injection H as ->. apply lastOn_some in E as [E1 E2].
      right. exists res. split; [now left|]. auto.
    + right. exists res'. split; [now right|]. auto.
  - intros H. apply IH in H as [H|(res' & Hin & Hn & Hr & Hd)]; [auto|].
    right. exists res'. split; [now right|]. auto.
Qed.

(** X9. Every day of the merger's output is a well-formed day with at least
    one record, and every record it stores under a source name is a record
    of a result of that name, dated as the day is. *)
Theorem mergeExchangeData_days_well_formed (results : list (option FetchResult)) :
  let merged := mergeExchangeData results in
  Forall wfDay merged
  /\ forall day, In day merged ->
       Day.exchanges day <> []
       /\ forall source r,
            Obj.get source (Day.exchanges day) = Some r ->
            Kline.date r = Day.date day
            /\ exists res, In (Some res) results /\ name res = source
                           /\ In r (data res).
Proof.
  cbn zeta. unfold mergeExchangeData.
  set (M := fold_left addResult results []).
  pose proof (sort_perm compareByDate (Obj.values M)) as Hperm.
  assert (Hfull : Forall fullDay (Obj.values M)) by (apply addResults_fullDays; constructor).
  destruct (addResults_inv results []) as [Hkeyed Hnd]; [constructor | constructor |].
  fold M in Hkeyed, Hnd.
  split.
  - apply Forall_forall. intros d Hd. apply list_elem_of_In in Hd.
    apply (Permutation_in d Hperm) in Hd. rewrite Forall_forall in Hfull.
    apply list_elem_of_In, Hfull in Hd. apply Hd.
  - intros day Hday. apply (Permutation_in day Hperm) in Hday. split.
    + rewrite Forall_forall in Hfull. apply list_elem_of_In, Hfull in Hday. apply Hday.
    + intros source r Hget.
      assert (Hg : Obj.get (Day.date day) M = Some day) by (apply get_keyed_iff; auto).
      assert (Hcell : cell M (Day.date day) source = Some r).
      { unfold cell. now rewrite Hg. }
      unfold M in Hcell. apply addResults_cell_from in Hcell
        as [Hc|(res & Hin & Hn & Hr & Hd)]; [discriminate Hc|].
      split; [exact Hd|]. eauto.
Qed.

Lemma sublist_StronglySorted {A : Type} (R : A -> A -> Prop) (l1 l2 : list A) :
  l1 `sublist_of` l2 -> StronglySorted R l2 -> StronglySorted R l1.
Proof.
  induction 1 as [|x l1 l2 Hs IH|x l1 l2 Hs IH]; intros Hsorted.
  - constructor.
  - apply StronglySorted_inv in Hsorted as [Hl Hx]. constructor; [now apply IH|].
    apply Forall_forall. intros y Hy. rewrite Forall_forall in Hx. apply Hx.
    eapply elem_of_sublist; eauto.
  - apply StronglySorted_inv in Hsorted as [Hl Hx]. now apply IH.
Qed.

Lemma sublist_map {A B : Type} (f : A -> B) (l1 l2 : list A) :
  l1 `sublist_of` l2 -> map f l1 `sublist_of` map f l2.
Proof. induction 1; cbn [map]; now constructor. Qed.

Lemma mergeExchangeData_ascending (results : list (option FetchResult)) :
  Forall (fun date => isCalendarDay date = true) (inputDates results) ->
  StronglySorted dateBefore (mergeExchangeData results)
  /\ NoDup (map Day.date (mergeExchangeData results)).
Proof.
  intros Hcal. unfold mergeExchangeData.
  set (M := fold_left addResult results []).
  destruct (addResults_inv results []) as [Hkeyed Hnd]; [constructor | constructor |].
  fold M in Hkeyed, Hnd.
  pose proof (keyed_dates M Hkeyed) as Hdates.
  split.
  - apply sort_days_ascending; [|now rewrite Hdates].
    unfold calendarDays. apply Forall_forall. intros d Hd.
    apply (proj1 (Forall_forall _ _) Hcal).
    apply list_elem_of_In.
    assert (Hin : In (Day.date d) (Obj.keys M)).
    { rewrite <- Hdates. apply in_map. now apply list_elem_of_In. }
    apply (addResults_keys results [] (Day.date d)) in Hin as [[]|Hin]. exact Hin.
  - eapply NoDup_Permutation_proper; [|exact Hnd].
    rewrite <- Hdates. apply Permutation_map. apply sort_perm.
Qed.

(** X10. Merging and then validating: when the fetched records are dated
    with calendar days, the validator succeeds on the merger's output and
    the valid days it keeps are strictly ascending by date, without two
    days of one date, each dated with a date of a fetched record. *)
Theorem merged_then_validated_ascending (results : list (option FetchResult)) :
  Forall (fun date => isCalendarDay date = true) (inputDates results) ->
  exists r,
    validateData (mergeExchangeData results) = Normal r
    /\ StronglySorted dateBefore (valid r)
    /\ NoDup (map Day.date (valid r))
    /\ forall day, In day (valid r) -> In (Day.date day) (inputDates results).
Proof.
  intros Hcal.
  destruct (mergeExchangeData_ascending results Hcal) as [Hsorted Hnd].
  set (merged := mergeExchangeData results) in *.
  rewrite validateData_eq.
  eexists. split; [reflexivity|].
  rewrite daySteps_valid. cbn [emptyResults valid app].
  pose proof (keptDays_sublist merged 0 merged) as Hsub.
  split; [|split].
  - eapply sublist_StronglySorted; eauto.
  - eapply sublist_NoDup; [exact Hnd|]. now apply sublist_map.
  - intros day Hday.
    assert (Hin : In day merged).
    { apply list_elem_of_In. eapply elem_of_sublist; [|exact Hsub].
      now apply list_elem_of_In. }
    unfold merged, mergeExchangeData in Hin.
    apply (Permutation_in day (sort_perm compareByDate _)) in Hin.
    destruct (addResults_inv results []) as [Hkeyed _]; [constructor | constructor |].
    pose proof (keyed_dates _ Hkeyed) as Hdates.
    apply (in_map Day.date) in Hin. rewrite Hdates in Hin.
    apply addResults_keys in Hin as [[]|Hin]. exact Hin.
Qed.

Lemma merged_then_validated_ascending_witness :
  exists r,
    validateData (mergeExchangeData sampleResults) = Normal r
    /\ StronglySorted dateBefore (valid r)
    /\ NoDup (map Day.date (valid r))
    /\ forall day, In day (valid r) -> In (Day.date day) (inputDates sampleResults).
Proof.
  apply (merged_then_validated_ascending sampleResults).
  repeat constructor.
Defined.

Lemma indexByDate_keys (l : list Day.t) (m : list (string * Day.t)) (k : string) :
  In k (Obj.keys (indexByDate l m)) <-> In k (Obj.keys m) \/ In k (map Day.date l).
Proof.
  unfold indexByDate. revert m. induction l as [|d l IH]; intros m; cbn [fold_left map].
  - simpl. tauto.
  - rewrite IH, keys_set. destruct (Obj.has (Day.date d) m) eqn:E.
    + apply has_true_iff in E. simpl. split; [tauto|].
      intros [H|[<-|H]]; auto.
    + rewrite in_app_iff. simpl. tauto.
Qed.

(** X11. The incremental merger loses no date and invents none: the dates of
    its result are those of the stored days and of the new days, each once;
    a stored day that is the last of its date in the stored file, and whose
    date no new day carries, is in the result as it was stored. *)
Theorem mergeWithExistingData_keeps_stored_days (existing newData : list Day.t) :
  let result := mergeWithExistingData (Some existing) newData in
  NoDup (map Day.date result)
  /\ (forall date, In date (map Day.date result) <->
                   In date (map Day.date existing) \/ In date (map Day.date newData))
  /\ (forall l1 item l2,
        existing = l1 ++ item :: l2 ->
        (forall x, In x l2 -> Day.date x <> Day.date item) ->
        (forall x, In x newData -> Day.date x <> Day.date item) ->
        In item result).
Proof.
  cbn zeta. unfold mergeWithExistingData.
  set (M0 := indexByDate existing []).
  set (M := indexByDate newData M0).
  destruct (indexByDate_inv existing []) as [Hk0 Hnd0]; [constructor | constructor |].
  fold M0 in Hk0, Hnd0.
  destruct (indexByDate_inv newData M0 Hk0 Hnd0) as [Hk Hnd]. fold M in Hk, Hnd.
  pose proof (keyed_dates M Hk) as Hdates.
  pose proof (sort_perm compareByDate (Obj.values M)) as Hperm.
  assert (Hp : Permutation (map Day.date (sort compareByDate (Obj.values M))) (Obj.keys M)).
  { rewrite <- Hdates. apply Permutation_map. apply Hperm. }
  split; [|split].
  - eapply NoDup_Permutation_proper; [exact Hp | exact Hnd].
  - intros date.
    assert (Hkeys : In date (Obj.keys M) <->
                    In date (map Day.date existing) \/ In date (map Day.date newData)).
    { unfold M, M0. rewrite !indexByDate_keys. simpl. tauto. }
    rewrite <- Hkeys. split; apply Permutation_in; [exact Hp | exact (Permutation_sym Hp)].
  - intros l1 item l2 He Hl2 Hnew.
    apply (Permutation_in item (Permutation_sym Hperm)).
    apply (get_In_values (Day.date item)).
    unfold M. rewrite indexByDate_get, lastDay_none by exact Hnew.
    unfold M0. rewrite indexByDate_get, He, lastDay_last by exact Hl2. reflexivity.
Qed.

(* ===================================================================== *)
(** * Further properties of the analyzer *)
(* ===================================================================== *)

Lemma SFltb_trans (a b c : spec_float) :
  SFltb a b = true -> SFltb b c = true -> SFltb a c = true.
Proof.
  unfold SFltb.
  destruct a as [[]| [] | |[] ma ea], b as [[]| [] | |[] mb eb], c as [[]| [] | |[] mc ec];
    cbn [SFcompare]; try discriminate; try reflexivity.
  all: destruct (Z.compare_spec ea eb), (Z.compare_spec eb ec);
      subst; try discriminate; rewrite ?Z.compare_refl;
      try match goal with
          | H1 : ?x < ?y, H2 : ?y < ?z |- context [(?x ?= ?z)] =>
              rewrite (proj2 (Z.compare_lt_iff x z)) by lia
          | H1 : ?y < ?x, H2 : ?z < ?y |- context [(?x ?= ?z)] =>
              rewrite (proj2 (Z.compare_gt_iff x z)) by lia
          end; try reflexivity; try discriminate;
      try match goal with |- context [(?x ?= ?y)] =>
          first [ rewrite (proj2 (Z.compare_lt_iff x y)) by lia
                | rewrite (proj2 (Z.compare_gt_iff x y)) by lia ] end;
      try reflexivity; try discriminate.
  all: fold (Pos.compare ma mb); fold (Pos.compare mb mc); fold (Pos.compare ma mc);
    destruct (Pos.compare_spec ma mb), (Pos.compare_spec mb mc); subst;
    try discriminate; cbn; intros _ _;
    first [ rewrite (proj2 (Pos.compare_lt_iff ma mc)) by lia
          | rewrite (proj2 (Pos.compare_gt_iff ma mc)) by lia ]; reflexivity.
Qed.

Lemma ltb_trans (x y z : float) :
  (x <? y)%float = true -> (y <? z)%float = true -> (x <? z)%float = true.
Proof. rewrite !FloatAxioms.ltb_spec. apply SFltb_trans. Qed.

(** A bound that is not above [x] stays so when it is replaced by a larger
    close, and one that is not below [x] when replaced by a smaller one. *)
Lemma ltb_raise (h c x : float) :
  (h <? x)%float = false -> (h <? c)%float = true -> (c <? x)%float = false.
Proof.
  intros Hx Hc. destruct (c <? x)%float eqn:E; [|reflexivity].
  rewrite (ltb_trans h c x Hc E) in Hx. discriminate.
Qed.

Lemma ltb_lower (l c x : float) :
  (x <? l)%float = false -> (c <? l)%float = true -> (x <? c)%float = false.
Proof.
  intros Hx Hc. destruct (x <? c)%float eqn:E; [|reflexivity].
  rewrite (ltb_trans x c l E Hc) in Hx. discriminate.
Qed.

Lemma get_increment (k k' : string) (counter : list (string * nat)) :
  Obj.get k' (increment k counter) =
  if String.eqb k' k then option_map S (Obj.get k counter) else Obj.get k' counter.
Proof.
  unfold increment. destruct (String.eqb_spec k' k) as [->|Hne].
  - destruct (Obj.get k counter) eqn:E; cbn [option_map]; [apply get_set_same | exact E].
  - destruct (Obj.get k counter); [now apply get_set_other | reflexivity].
Qed.

Lemma priceStep_averages (date k : string) (r : Kline.t) (p : PriceStats.t) (ex : string) :
  Obj.get ex (PriceStats.averages (priceStep date k r p)) =
  if String.eqb k ex then
    let a := match Obj.get ex (PriceStats.averages p) with
             | Some a => a | None => PriceAverage.mk 0 0 [] end in
    Some (PriceAverage.mk (PriceAverage.sum a + ToNumber (Kline.close r))
            (S (PriceAverage.count a)) (PriceAverage.prices a ++ [Kline.close r]))
  else Obj.get ex (PriceStats.averages p).
Proof.
  unfold priceStep. cbn [PriceStats.averages].
  destruct (String.eqb_spec k ex) as [->|Hne].
  - destruct (Obj.get ex (PriceStats.averages p)) eqn:E.
    + rewrite E. apply get_set_same.
    + rewrite get_set_same. apply get_set_same.
  - destruct (Obj.get k (PriceStats.averages p)) eqn:E.
    + rewrite E. now rewrite get_set_other by congruence.
    + rewrite get_set_same. now rewrite !get_set_other by congruence.
Qed.

Lemma priceStep_NoDup (date k : string) (r : Kline.t) (p : PriceStats.t) :
  NoDup (Obj.keys (PriceStats.averages p)) ->
  NoDup (Obj.keys (PriceStats.averages (priceStep date k r p))).
Proof.
  intros Hnd. unfold priceStep. cbn [PriceStats.averages].
  destruct (Obj.get k (PriceStats.averages p)) eqn:E.
  - rewrite E. now apply NoDup_keys_set.
  - rewrite get_set_same. now apply NoDup_keys_set, NoDup_keys_set.
Qed.

Lemma fold_set_get {V W : Type} (g : V -> W) (o : list (string * V))
  (w0 : list (string * W)) (ex : string) :
  NoDup (Obj.keys o) ->
  Obj.get ex (fold_left (fun w e => Obj.set (fst e) (g (snd e)) w) o w0) =
  match Obj.get ex o with
  | Some v => Some (g v)
  | None => Obj.get ex w0
  end.
Proof.
  revert w0. induction o as [|[k v] o IH]; intros w0 Hnd; cbn [fold_left Obj.get fst snd].
  - reflexivity.
  - cbn [Obj.keys map fst] in Hnd. apply NoDup_cons in Hnd as [Hk Hnd].
    rewrite IH by exact Hnd.
    destruct (String.eqb_spec ex k) as [->|Hne].
    + assert (E : Obj.get k o = None).
      { apply get_none_not_key. intros Hin. apply Hk. now apply list_elem_of_In. }
      rewrite E. apply get_set_same.
    + destruct (Obj.get ex o); [reflexivity | now apply get_set_other].
Qed.

Lemma fold_averages (visits : list Visit.t) (p : PriceStats.t) (ex : string) :
  Obj.get ex (PriceStats.averages
                (fold_left (fun p v => priceStep (Visit.date v) (Visit.exchange v)
                                         (Visit.data v) p) visits p)) =
  match Obj.get ex (PriceStats.averages p) with
  | Some a =>
      Some (PriceAverage.mk
              (fold_left (fun sum close => (sum + ToNumber close)%float)
                 (closesOf ex visits) (PriceAverage.sum a))
              (PriceAverage.count a + length (closesOf ex visits))
              (PriceAverage.prices a ++ closesOf ex visits))
  | None => averageOf (closesOf ex visits)
  end.
Proof.
  revert p. induction visits as [|v visits IH]; intros p; cbn [fold_left closesOf flat_map].
  - destruct (Obj.get ex (PriceStats.averages p)) as [[s c ps]|]; [|reflexivity].
    cbn [length app PriceAverage.sum PriceAverage.count PriceAverage.prices fold_left].
    now rewrite Nat.add_0_r, app_nil_r.
  - fold (closesOf ex visits). rewrite IH, priceStep_averages.
    destruct (String.eqb (Visit.exchange v) ex); cbn [app]; [|reflexivity].
    cbn zeta. cbn [PriceAverage.sum PriceAverage.count PriceAverage.prices].
    destruct (Obj.get ex (PriceStats.averages p)) as [[s c ps]|];
      cbn [PriceAverage.sum PriceAverage.count PriceAverage.prices
           averageOf sumOf fold_left length app].
    + now rewrite Nat.add_succ_r, <- app_assoc.
    + reflexivity.
Qed.

Lemma fold_averages_NoDup (visits : list Visit.t) (p : PriceStats.t) :
  NoDup (Obj.keys (PriceStats.averages p)) ->
  NoDup (Obj.keys (PriceStats.averages
                     (fold_left (fun p v => priceStep (Visit.date v) (Visit.exchange v)
                                              (Visit.data v) p) visits p))).
Proof.
  revert p. induction visits as [|v visits IH]; intros p Hnd; cbn [fold_left]; auto.
  apply IH. now apply priceStep_NoDup.
Qed.

Lemma fold_volatility_kept (visits : list Visit.t) (p : PriceStats.t) :
  PriceStats.volatility
    (fold_left (fun p v => priceStep (Visit.date v) (Visit.exchange v) (Visit.data v) p)
       visits p)
  = PriceStats.volatility p.
Proof.
  revert p. induction visits as [|v visits IH]; intros p; cbn [fold_left]; [reflexivity|].
  now rewrite IH.
Qed.

(** [countersKept] holds all along the pass. *)
Lemma trendStep_inv (mergedData : list Day.t) (index : nat) (exchange : string)
  (data : Kline.t) (t t' : Trends.t) :
  (forall ex, countersKept t ex) ->
  trendStep mergedData index exchange data t = Normal t' ->
  forall ex, countersKept t' ex.
Proof.
  set (P := countersKept). intros Ht. unfold trendStep.
  set (t0 := match Obj.get exchange (Trends.upDays t) with
             | Some (S _) => t | _ => _ end).
  assert (H0 : (forall ex, P t0 ex)
               /\ (Obj.get exchange (Trends.upDays t0) = Some O ->
                   Obj.get exchange (Trends.downDays t0) = Some O
                   /\ Obj.get exchange (Trends.flatDays t0) = Some O)).
  { assert (Hreset : let t1 := Trends.mk (Obj.set exchange O (Trends.upDays t))
                       (Obj.set exchange O (Trends.downDays t))
                       (Obj.set exchange O (Trends.flatDays t))
                       (Obj.set exchange O (Trends.maxUpStreak t))
                       (Obj.set exchange O (Trends.maxDownStreak t)) in
                     (forall ex, P t1 ex)
                     /\ (Obj.get exchange (Trends.upDays t1) = Some O ->
                         Obj.get exchange (Trends.downDays t1) = Some O
                         /\ Obj.get exchange (Trends.flatDays t1) = Some O)).
    { cbn zeta. split.
      - intros ex. unfold P, countersKept. cbn [Trends.upDays Trends.downDays Trends.flatDays
                                    Trends.maxUpStreak Trends.maxDownStreak].
        destruct (String.eqb_spec ex exchange) as [->|Hne].
        + rewrite !get_set_same. unfold noneOrZero. split; [|auto].
          intros _. exists O, O. auto.
        + rewrite !get_set_other by exact Hne. apply Ht.
      - cbn [Trends.upDays Trends.downDays Trends.flatDays].
        rewrite !get_set_same. auto. }
    subst t0. destruct (Obj.get exchange (Trends.upDays t)) as [[|n]|] eqn:E;
      [exact Hreset | | exact Hreset].
    split; [exact Ht|]. rewrite E. discriminate. }
  clearbody t0. destruct H0 as [H0 He].
  assert (Hup : forall ex, P (Trends.mk (increment exchange (Trends.upDays t0))
                                (Trends.downDays t0) (Trends.flatDays t0)
                                (Trends.maxUpStreak t0) (Trends.maxDownStreak t0)) ex).
  { intros ex. destruct (H0 ex) as (H1 & H2 & H3). unfold P, countersKept.
    cbn [Trends.upDays Trends.downDays Trends.flatDays
         Trends.maxUpStreak Trends.maxDownStreak].
    split; [|auto]. rewrite get_increment.
    destruct (String.eqb_spec ex exchange) as [->|Hne]; [|exact H1].
    destruct (Obj.get exchange (Trends.upDays t0)); discriminate. }
  assert (Hdown : forall ex, P (Trends.mk (Trends.upDays t0)
                                  (increment exchange (Trends.downDays t0))
                                  (Trends.flatDays t0)
                                  (Trends.maxUpStreak t0) (Trends.maxDownStreak t0)) ex).
  { intros ex. destruct (H0 ex) as (H1 & H2 & H3). unfold P, countersKept.
    cbn [Trends.upDays Trends.downDays Trends.flatDays
         Trends.maxUpStreak Trends.maxDownStreak].
    split; [|auto]. rewrite get_increment.
    destruct (String.eqb_spec ex exchange) as [->|Hne]; [|exact H1].
    intros Hz. destruct (He Hz) as [Hd Hf]. rewrite Hd. cbn [option_map].
    exists 1%nat, O. auto. }
  assert (Hflat : forall ex, P (Trends.mk (Trends.upDays t0) (Trends.downDays t0)
                                  (increment exchange (Trends.flatDays t0))
                                  (Trends.maxUpStreak t0) (Trends.maxDownStreak t0)) ex).
  { intros ex. destruct (H0 ex) as (H1 & H2 & H3). unfold P, countersKept.
    cbn [Trends.upDays Trends.downDays Trends.flatDays
         Trends.maxUpStreak Trends.maxDownStreak].
    split; [|auto]. rewrite get_increment.
    destruct (String.eqb_spec ex exchange) as [->|Hne]; [|exact H1].
    intros Hz. destruct (He Hz) as [Hd Hf]. rewrite Hf. cbn [option_map].
    exists O, 1%nat. auto. }
  destruct (0 <? index)%nat; [|intros [= <-]; exact H0].
  destruct (nth_error mergedData (index - 1)) as [prev|]; cbn [prop bind]; [|discriminate].
  destruct (Obj.get exchange (Day.exchanges prev)); [|intros [= <-]; exact H0].
  destruct (js_gt _ _); [intros [= <-]; exact Hup|].
  destruct (js_gt _ _); intros [= <-]; [exact Hdown | exact Hflat].
Qed.

Lemma priceStep_bounds (date k : string) (r : Kline.t) (p : PriceStats.t) (x : float) :
  ((ToNumber (Extreme.value (PriceStats.highest p)) <? x)%float = false ->
   (ToNumber (Extreme.value (PriceStats.highest (priceStep date k r p))) <? x)%float = false)
  /\ ((x <? ToNumber (Extreme.value (PriceStats.lowest p)))%float = false ->
      (x <? ToNumber (Extreme.value (PriceStats.lowest (priceStep date k r p))))%float = false).
Proof.
  unfold priceStep, js_gt. cbn [PriceStats.highest PriceStats.lowest]. split; intros Hx.
  - destruct (ToNumber (Extreme.value (PriceStats.highest p))
              <? ToNumber (Kline.close r))%float eqn:E; cbn [Extreme.value]; [|exact Hx].
    eapply ltb_raise; eauto.
  - destruct (ToNumber (Kline.close r)
              <? ToNumber (Extreme.value (PriceStats.lowest p)))%float eqn:E;
      cbn [Extreme.value]; [|exact Hx].
    eapply ltb_lower; eauto.
Qed.

Lemma priceStep_bounds_self (date k : string) (r : Kline.t) (p : PriceStats.t) :
  (ToNumber (Extreme.value (PriceStats.highest (priceStep date k r p)))
   <? ToNumber (Kline.close r))%float = false
  /\ (ToNumber (Kline.close r)
      <? ToNumber (Extreme.value (PriceStats.lowest (priceStep date k r p))))%float = false.
Proof.
  unfold priceStep, js_gt. cbn [PriceStats.highest PriceStats.lowest]. split.
  - destruct (ToNumber (Extreme.value (PriceStats.highest p))
              <? ToNumber (Kline.close r))%float eqn:E; cbn [Extreme.value];
      [apply ltb_irrefl | exact E].
  - destruct (ToNumber (Kline.close r)
              <? ToNumber (Extreme.value (PriceStats.lowest p)))%float eqn:E;
      cbn [Extreme.value]; [apply ltb_irrefl | exact E].
Qed.

Lemma fold_bounds (visits : list Visit.t) (p : PriceStats.t) (x : float) :
  let p' := fold_left (fun p v => priceStep (Visit.date v) (Visit.exchange v)
                                    (Visit.data v) p) visits p in
  ((ToNumber (Extreme.value (PriceStats.highest p)) <? x)%float = false ->
   (ToNumber (Extreme.value (PriceStats.highest p')) <? x)%float = false)
  /\ ((x <? ToNumber (Extreme.value (PriceStats.lowest p)))%float = false ->
      (x <? ToNumber (Extreme.value (PriceStats.lowest p')))%float = false).
Proof.
  cbn zeta. revert p. induction visits as [|v visits IH]; intros p; cbn [fold_left]; [auto|].
  destruct (IH (priceStep (Visit.date v) (Visit.exchange v) (Visit.data v) p)) as [I1 I2].
  destruct (priceStep_bounds (Visit.date v) (Visit.exchange v) (Visit.data v) p x) as [S1 S2].
  auto.
Qed.

Lemma fold_bounds_visited (visits : list Visit.t) (p : PriceStats.t) (v : Visit.t) :
  let p' := fold_left (fun p v => priceStep (Visit.date v) (Visit.exchange v)
                                    (Visit.data v) p) visits p in
  In v visits ->
  (ToNumber (Extreme.value (PriceStats.highest p'))
   <? ToNumber (Kline.close (Visit.data v)))%float = false
  /\ (ToNumber (Kline.close (Visit.data v))
      <? ToNumber (Extreme.value (PriceStats.lowest p')))%float = false.
Proof.
  cbn zeta. revert p. induction visits as [|w visits IH]; intros p; cbn [fold_left];
    [intros []|]. intros [->|Hin]; [|now apply IH].
  destruct (priceStep_bounds_self (Visit.date v) (Visit.exchange v) (Visit.data v) p)
    as [S1 S2].
  destruct (fold_bounds visits (priceStep (Visit.date v) (Visit.exchange v) (Visit.data v) p)
              (ToNumber (Kline.close (Visit.data v)))) as [B1 B2].
  auto.
Qed.

Lemma fold_highest_attained (visits : list Visit.t) (p : PriceStats.t) :
  let p' := fold_left (fun p v => priceStep (Visit.date v) (Visit.exchange v)
                                    (Visit.data v) p) visits p in
  PriceStats.highest p' = PriceStats.highest p
  \/ exists v, In v visits
       /\ PriceStats.highest p' =
          Extreme.mk (Kline.close (Visit.data v)) (Visit.date v) (Visit.exchange v).
Proof.
  cbn zeta. revert p. induction visits as [|v visits IH]; intros p; cbn [fold_left]; [auto|].
  destruct (IH (priceStep (Visit.date v) (Visit.exchange v) (Visit.data v) p))
    as [H|(w & Hw & H)].
  - rewrite H. unfold priceStep. cbn [PriceStats.highest].
    destruct (js_gt _ _); [|auto]. right. exists v. split; [now left | reflexivity].
  - right. exists w. split; [now right | exact H].
Qed.

Section AnalyzerProperties.
Variable Math_log : float -> float.
Variable Math_pow : float -> float -> float.
Variable moment_format : string -> string -> string.
Variable toFixed : float -> nat -> string.

Lemma analyzeRecord_inv (mergedData : list Day.t) (index : nat) (dayData : Day.t)
  (exchange : string) (a a' : Analysis) :
  analyzeRecord moment_format mergedData index dayData exchange a = Normal a' ->
  exists r, Obj.get exchange (Day.exchanges dayData) = Some r
    /\ price a' = priceStep (Day.date dayData) exchange r (price a)
    /\ VolumeStats.total (volume a') = VolumeStats.total (volume a)
    /\ trendStep mergedData index exchange r (trends a) = Normal (trends a').
Proof.
  unfold analyzeRecord.
  destruct (Obj.get exchange (Day.exchanges dayData)) as [r|]; cbn [prop bind];
    [|discriminate].
  destruct (trendStep mergedData index exchange r (trends a)) as [t|] eqn:Et; cbn [bind];
    [|discriminate].
  intros [= <-]. exists r. cbn [price volume trends]. auto.
Qed.

Lemma analyzeDay_inv (mergedData : list Day.t) (index : nat) (dayData : Day.t)
  (ks : list string) (a a' : Analysis) :
  forEachM (analyzeRecord moment_format mergedData index dayData) ks a = Normal a' ->
  price a' =
    fold_left (fun p v => priceStep (Visit.date v) (Visit.exchange v) (Visit.data v) p)
      (flat_map (fun k => match Obj.get k (Day.exchanges dayData) with
                          | Some r => [Visit.mk (Day.date dayData) k r]
                          | None => []
                          end) ks)
      (price a)
  /\ VolumeStats.total (volume a') = VolumeStats.total (volume a)
  /\ ((forall ex, countersKept (trends a) ex) -> forall ex, countersKept (trends a') ex).
Proof.
  revert a. induction ks as [|k ks IH]; intros a; cbn [forEachM flat_map].
  - intros [= <-]. auto.
  - destruct (analyzeRecord moment_format mergedData index dayData k a) as [a1|] eqn:E;
      cbn [bind]; [|discriminate].
    intros H. apply IH in H as (Hp & Hv & Ht).
    apply analyzeRecord_inv in E as (r & Hr & Hp1 & Hv1 & Ht1).
    rewrite Hr, fold_left_app. cbn [fold_left Visit.date Visit.exchange Visit.data].
    rewrite <- Hp1. split; [exact Hp|]. split; [congruence|].
    intros Ha. apply Ht. eapply trendStep_inv; eauto.
Qed.

Lemma pass_inv (mergedData days : list Day.t) (index : nat) (a a' : Analysis) :
  forEachIdx (analyzeDay moment_format mergedData) days index a = Normal a' ->
  price a' =
    fold_left (fun p v => priceStep (Visit.date v) (Visit.exchange v) (Visit.data v) p)
      (visited days) (price a)
  /\ VolumeStats.total (volume a') = VolumeStats.total (volume a)
  /\ ((forall ex, countersKept (trends a) ex) -> forall ex, countersKept (trends a') ex).
Proof.
  revert index a. induction days as [|d days IH]; intros index a;
    cbn [forEachIdx visited flat_map].
  - intros [= <-]. auto.
  - destruct (analyzeDay moment_format mergedData d index a) as [a1|] eqn:E;
      cbn [bind]; [|discriminate].
    intros H. apply IH in H as (Hp & Hv & Ht).
    unfold analyzeDay in E. apply analyzeDay_inv in E as (Hp1 & Hv1 & Ht1).
    fold (visited days). rewrite fold_left_app. unfold visitsOf at 1. rewrite <- Hp1.
    split; [exact Hp|]. split; [congruence | auto].
Qed.

(** The analysis is the final statistics of the analysis after the pass,
    which satisfies what the pass keeps. *)
Lemma analyzeData_inv (mergedData : list Day.t) :
  exists a0,
    analyzeData Math_log Math_pow moment_format toFixed mergedData
    = Normal (finalize Math_log Math_pow toFixed a0)
    /\ price a0 =
       fold_left (fun p v => priceStep (Visit.date v) (Visit.exchange v) (Visit.data v) p)
         (visited mergedData) (price emptyAnalysis)
    /\ VolumeStats.total (volume a0) = []
    /\ forall ex, countersKept (trends a0) ex.
Proof.
  destruct (analyzeData_total Math_log Math_pow moment_format toFixed mergedData)
    as [a Ha].
  unfold analyzeData in *.
  destruct (forEachIdx (analyzeDay moment_format mergedData) mergedData 0 emptyAnalysis)
    as [a0|] eqn:E; cbn [bind] in *; [|discriminate].
  exists a0. split; [reflexivity|].
  apply pass_inv in E as (Hp & Hv & Ht). split; [exact Hp|]. split; [exact Hv|].
  apply Ht. intros ex. unfold countersKept, noneOrZero. cbn. split; [discriminate | auto].
Qed.

(** X12. The analysis never fills the streaks nor the totals: whatever the
    days, [volume.total] is empty and every entry of [trends.maxUpStreak]
    and [trends.maxDownStreak] is 0. *)
Theorem analyzeData_streaks_and_totals_unfilled (mergedData : list Day.t) :
  exists a,
    analyzeData Math_log Math_pow moment_format toFixed mergedData = Normal a
    /\ VolumeStats.total (volume a) = []
    /\ forall ex,
         noneOrZero (Obj.get ex (Trends.maxUpStreak (trends a)))
         /\ noneOrZero (Obj.get ex (Trends.maxDownStreak (trends a))).
Proof.
  destruct (analyzeData_inv mergedData) as (a0 & Ha & _ & Hv & Ht).
  eexists. split; [exact Ha|]. unfold finalize. cbn [volume trends VolumeStats.total].
  split; [exact Hv|]. intros ex. apply Ht.
Qed.

(** X13. The entry of a source in [price.averages] holds the closes of the
    records visited under that source, in the order of the days, with their
    running sum and their number; its volatility is computed from these
    closes; a source that was not visited has neither. *)
Theorem analyzeData_averages_are_closes (mergedData : list Day.t) :
  exists a,
    analyzeData Math_log Math_pow moment_format toFixed mergedData = Normal a
    /\ forall ex,
         let closes := closesOf ex (visited mergedData) in
         Obj.get ex (PriceStats.averages (price a)) = averageOf closes
         /\ Obj.get ex (PriceStats.volatility (price a)) =
            match closes with
            | [] => None
            | _ => Some (volatilityOf Math_log Math_pow closes)
            end.
Proof.
  destruct (analyzeData_inv mergedData) as (a0 & Ha & Hp & _ & _).
  eexists. split; [exact Ha|]. intros ex. cbn zeta.
  unfold finalize. cbn [price PriceStats.averages PriceStats.volatility].
  assert (Havg : Obj.get ex (PriceStats.averages (price a0))
                 = averageOf (closesOf ex (visited mergedData))).
  { rewrite Hp, fold_averages. reflexivity. }
  split; [exact Havg|].
  rewrite (fold_set_get (fun avg => volatilityOf Math_log Math_pow (PriceAverage.prices avg))).
  - rewrite Havg, Hp, fold_volatility_kept.
    destruct (closesOf ex (visited mergedData)); reflexivity.
  - rewrite Hp. apply fold_averages_NoDup. constructor.
Qed.

(** X14. A source visited once gets a volatility that is NaN: with one
    close there is no return, and the mean of no return is 0/0. *)
Theorem single_record_volatility_is_nan (mergedData : list Day.t) (ex : string)
  (close : JsVal) :
  closesOf ex (visited mergedData) = [close] ->
  exists a v,
    analyzeData Math_log Math_pow moment_format toFixed mergedData = Normal a
    /\ Obj.get ex (PriceStats.volatility (price a)) = Some v
    /\ is_nan v = true.
Proof.
  intros Hc.
  destruct (analyzeData_inv mergedData) as (a0 & Ha & Hp & _ & _).
  eexists. eexists. split; [exact Ha|].
  unfold finalize. cbn [price PriceStats.volatility].
  rewrite (fold_set_get (fun avg => volatilityOf Math_log Math_pow (PriceAverage.prices avg)))
    by (rewrite Hp; apply fold_averages_NoDup; constructor).
  rewrite Hp, fold_averages, Hc.
  cbn [emptyAnalysis price PriceStats.averages Obj.get averageOf PriceAverage.prices].
  split; [reflexivity|]. vm_compute. reflexivity.
Qed.

(** X15. No visited close is above [price.highest] nor below
    [price.lowest], and [price.highest] is the initial one, of value 0, or
    the close of a visited record with its date and source. *)
Theorem analyzeData_extremes_bound (mergedData : list Day.t) :
  exists a,
    analyzeData Math_log Math_pow moment_format toFixed mergedData = Normal a
    /\ (forall v, In v (visited mergedData) ->
          js_gt (ToNumber (Kline.close (Visit.data v)))
            (ToNumber (Extreme.value (PriceStats.highest (price a)))) = false
          /\ js_gt (ToNumber (Extreme.value (PriceStats.lowest (price a))))
               (ToNumber (Kline.close (Visit.data v))) = false)
    /\ (PriceStats.highest (price a) = Extreme.mk (JNumber 0) "" ""
        \/ exists v, In v (visited mergedData)
             /\ PriceStats.highest (price a) =
                Extreme.mk (Kline.close (Visit.data v)) (Visit.date v) (Visit.exchange v)).
Proof.
  destruct (analyzeData_inv mergedData) as (a0 & Ha & Hp & _ & _).
  eexists. split; [exact Ha|].
  unfold finalize. cbn [price PriceStats.highest PriceStats.lowest]. rewrite Hp. split.
  - intros v Hv. unfold js_gt. now apply fold_bounds_visited.
  - apply (fold_highest_attained (visited mergedData) (price emptyAnalysis)).
Qed.

(** X16. The counters of a source are reset as long as its up counter is 0:
    in the analysis, a source with no up day has at most one day in its down
    and flat counters together, however many days it fell or stayed. *)
Theorem analyzeData_resets_counters_without_rise (mergedData : list Day.t)
  (a : Analysis) (ex : string) :
  analyzeData Math_log Math_pow moment_format toFixed mergedData = Normal a ->
  Obj.get ex (Trends.upDays (trends a)) = Some O ->
  exists dn fl,
    Obj.get ex (Trends.downDays (trends a)) = Some dn
    /\ Obj.get ex (Trends.flatDays (trends a)) = Some fl
    /\ (dn + fl <= 1)%nat.
Proof.
  destruct (analyzeData_inv mergedData) as (a0 & Ha & _ & _ & Ht).
  rewrite Ha. intros [= <-]. unfold finalize. cbn [trends]. apply Ht.
Qed.

End AnalyzerProperties.

Lemma single_record_volatility_is_nan_witness :
  closesOf "B" (visited sampleExisting) = [JNumber 100]
  /\ exists a v,
       analyzeData libLog libPow libFormat libFixed sampleExisting = Normal a
       /\ Obj.get "B" (PriceStats.volatility (price a)) = Some v
       /\ is_nan v = true.
Proof.
  split; [reflexivity|].
  apply (single_record_volatility_is_nan libLog libPow libFormat libFixed
           sampleExisting "B" (JNumber 100)).
  reflexivity.
Defined.

Lemma analyzeData_resets_counters_without_rise_witness :
  analyzeData libLog libPow libFormat libFixed sampleFalling = Normal sampleFallingAnalysis
  /\ Obj.get "A" (Trends.upDays (trends sampleFallingAnalysis)) = Some O
  /\ exists dn fl,
       Obj.get "A" (Trends.downDays (trends sampleFallingAnalysis)) = Some dn
       /\ Obj.get "A" (Trends.flatDays (trends sampleFallingAnalysis)) = Some fl
       /\ (dn + fl <= 1)%nat.
Proof.
  assert (E : analyzeData libLog libPow libFormat libFixed sampleFalling
              = Normal sampleFallingAnalysis) by (vm_compute; reflexivity).
  assert (U : Obj.get "A" (Trends.upDays (trends sampleFallingAnalysis)) = Some O)
    by (vm_compute; reflexivity).
  split; [exact E|]. split; [exact U|].
  exact (analyzeData_resets_counters_without_rise libLog libPow libFormat libFixed
           sampleFalling sampleFallingAnalysis "A" E U).
Defined.

(* ===================================================================== *)
(** * Further properties of the pipeline *)
(* ===================================================================== *)

Section PipelineProperties.
Variable Math_log : float -> float.
Variable Math_pow : float -> float -> float.
Variable moment_format : string -> string -> string.
Variable toFixed : float -> nat -> string.
Variable env : Env.t.

Lemma fetchAll_frame (exchanges : list Exchange.t) (fs : gmap string File)
  (filename : string) :
  (forall ex, In ex exchanges -> filename <> rawFilename env (Exchange.name ex)) ->
  snd (fetchAll env exchanges fs) !! filename = fs !! filename.
Proof.
  revert fs. induction exchanges as [|ex exchanges IH]; intros fs H; cbn [fetchAll];
    [reflexivity|].
  assert (Hex : filename <> rawFilename env (Exchange.name ex)) by (apply H; now left).
  assert (Hrest : forall fs', snd (fetchAll env exchanges fs') !! filename = fs' !! filename).
  { intros fs'. apply IH. intros; apply H; now right. }
  unfold fetchExchangeData, saveData.
  destruct (Exchange.fetchKlines ex) as [data|e].
  - destruct (Env.writable env (rawFilename env (Exchange.name ex))).
    + specialize (Hrest (<[rawFilename env (Exchange.name ex) := RawFile data]> fs)).
      destruct (fetchAll env exchanges _) as [results fs']. cbn [snd] in *.
      rewrite Hrest. apply lookup_insert_ne. congruence.
    + specialize (Hrest fs). destruct (fetchAll env exchanges fs) as [results fs'].
      exact Hrest.
  - specialize (Hrest fs). destruct (fetchAll env exchanges fs) as [results fs'].
    exact Hrest.
Qed.

(** X17. A run writes to the raw files of its clients and to the three
    result files only: every other file is after the run as it was before,
    whatever the outcome of the run. *)
Theorem pipeline_touches_only_its_files (exchanges : list Exchange.t)
  (fs : gmap string File) (filename : string) :
  (forall ex, In ex exchanges -> filename <> rawFilename env (Exchange.name ex)) ->
  filename <> validatedPath ->
  filename <> "btc_price_anomalies.json" ->
  filename <> "btc_price_analysis.json" ->
  snd (pipeline Math_log Math_pow moment_format toFixed env exchanges fs) !! filename
  = fs !! filename.
Proof.
  intros Hraw Hv Han Hal. pose proof (fetchAll_frame exchanges fs filename Hraw) as Hf.
  unfold pipeline. destruct (fetchAll env exchanges fs) as [results fs1]. cbn [snd] in Hf.
  destruct (0 <? length (List.filter isNotNull results))%nat; [|exact Hf].
  destruct (validateData _) as [validation|]; [|exact Hf].
  destruct (analyzeData _ _ _ _ _) as [analysis|]; [|exact Hf].
  unfold saveData.
  destruct (Env.writable env validatedPath); [|exact Hf].
  destruct (Env.writable env "btc_price_anomalies.json"); cbn [snd];
    [|rewrite lookup_insert_ne by congruence; exact Hf].
  destruct (Env.writable env "btc_price_analysis.json"); cbn [snd];
    rewrite ?lookup_insert_ne by congruence; exact Hf.
Qed.

(** X18. What a completed run leaves in the result files. In full mode the
    validated file holds the valid days of this run alone, whatever it held
    before; in increment mode it holds them merged into what the file held
    after the fetches. In both modes the anomalies file holds the anomalies
    of this run alone. *)
Theorem pipeline_result_files (exchanges : list Exchange.t) (fs : gmap string File) :
  validResultsOf env exchanges fs <> [] ->
  resultsWritable env = true ->
  exists r,
    validateData (mergeExchangeData (validResultsOf env exchanges fs)) = Normal r
    /\ let fs' := snd (pipeline Math_log Math_pow moment_format toFixed env exchanges fs) in
       fs' !! validatedPath =
         Some (ValidatedFile
                 (if String.eqb (Env.mode env) "increment"
                  then mergeWithExistingData
                         (readValidated (snd (fetchAll env exchanges fs))) (valid r)
                  else valid r))
       /\ fs' !! "btc_price_anomalies.json" = Some (AnomaliesFile (anomalies r)).
Proof.
  unfold pipeline, validResultsOf, resultsWritable.
  destruct (fetchAll env exchanges fs) as [results fs1]. cbn [fst snd].
  destruct (List.filter isNotNull results) as [|r0 rs] eqn:E; [congruence|].
  intros _ Hw. apply andb_prop in Hw as [Hw H3]. apply andb_prop in Hw as [H1 H2].
  cbn [length Nat.ltb Nat.leb].
  rewrite validateData_eq.
  destruct (analyzeData_total Math_log Math_pow moment_format toFixed
              (mergeExchangeData (r0 :: rs))) as [a Ha]. rewrite Ha.
  unfold saveData. rewrite H1, H2, H3. cbn [snd].
  eexists. split; [reflexivity|]. cbn zeta. split.
  - rewrite !lookup_insert_ne by (unfold validatedPath; discriminate).
    apply lookup_insert_eq.
  - rewrite lookup_insert_ne by discriminate. apply lookup_insert_eq.
Qed.

(** X19. A run that fails on the anomalies file has already replaced the
    validated file: the exit code is 1, the validated file holds the new
    days, and the anomalies and analysis files are as they were after the
    fetches. *)
Theorem pipeline_failed_run_half_written (exchanges : list Exchange.t)
  (fs : gmap string File) :
  validResultsOf env exchanges fs <> [] ->
  Env.writable env validatedPath = true ->
  Env.writable env "btc_price_anomalies.json" = false ->
  exists r,
    validateData (mergeExchangeData (validResultsOf env exchanges fs)) = Normal r
    /\ let run := pipeline Math_log Math_pow moment_format toFixed env exchanges fs in
       let fs1 := snd (fetchAll env exchanges fs) in
       fst run = 1
       /\ snd run !! validatedPath =
            Some (ValidatedFile
                    (if String.eqb (Env.mode env) "increment"
                     then mergeWithExistingData (readValidated fs1) (valid r)
                     else valid r))
       /\ snd run !! "btc_price_anomalies.json" = fs1 !! "btc_price_anomalies.json"
       /\ snd run !! "btc_price_analysis.json" = fs1 !! "btc_price_analysis.json".
Proof.
  unfold pipeline, validResultsOf.
  destruct (fetchAll env exchanges fs) as [results fs1]. cbn [fst snd].
  destruct (List.filter isNotNull results) as [|r0 rs] eqn:E; [congruence|].
  intros _ H1 H2. cbn [length Nat.ltb Nat.leb].
  rewrite validateData_eq.
  destruct (analyzeData_total Math_log Math_pow moment_format toFixed
              (mergeExchangeData (r0 :: rs))) as [a Ha]. rewrite Ha.
  unfold saveData. rewrite H1, H2. cbn [fst snd].
  eexists. split; [reflexivity|]. cbn zeta. split; [reflexivity|]. split; [|split].
  - apply lookup_insert_eq.
  - apply lookup_insert_ne. unfold validatedPath. discriminate.
  - apply lookup_insert_ne. unfold validatedPath. discriminate.
Qed.

End PipelineProperties.

Lemma pipeline_touches_only_its_files_witness :
  snd (pipeline libLog libPow libFormat libFixed fullEnv [oneDayExchange] sampleFiles)
    !! "notes.txt"
  = sampleFiles !! "notes.txt".
Proof.
  apply (pipeline_touches_only_its_files libLog libPow libFormat libFixed fullEnv
           [oneDayExchange] sampleFiles "notes.txt").
  - intros ex [<-|[]]. vm_compute. discriminate.
  - unfold validatedPath. discriminate.
  - discriminate.
  - discriminate.
Defined.

Lemma pipeline_result_files_witness :
  exists r,
    validateData (mergeExchangeData (validResultsOf incrementEnv [oneDayExchange] sampleFiles))
    = Normal r
    /\ let fs' := snd (pipeline libLog libPow libFormat libFixed incrementEnv
                         [oneDayExchange] sampleFiles) in
       fs' !! validatedPath =
         Some (ValidatedFile
                 (if String.eqb (Env.mode incrementEnv) "increment"
                  then mergeWithExistingData
                         (readValidated (snd (fetchAll incrementEnv [oneDayExchange]
                                                sampleFiles))) (valid r)
                  else valid r))
       /\ fs' !! "btc_price_anomalies.json" = Some (AnomaliesFile (anomalies r)).
Proof.
  apply (pipeline_result_files libLog libPow libFormat libFixed incrementEnv
           [oneDayExchange] sampleFiles).
  - discriminate.
  - reflexivity.
Defined.

Lemma pipeline_failed_run_half_written_witness :
  exists r,
    validateData
      (mergeExchangeData (validResultsOf readOnlyAnomaliesEnv [oneDayExchange] sampleFiles))
    = Normal r
    /\ let run := pipeline libLog libPow libFormat libFixed readOnlyAnomaliesEnv
                    [oneDayExchange] sampleFiles in
       let fs1 := snd (fetchAll readOnlyAnomaliesEnv [oneDayExchange] sampleFiles) in
       fst run = 1
       /\ snd run !! validatedPath =
            Some (ValidatedFile
                    (if String.eqb (Env.mode readOnlyAnomaliesEnv) "increment"
                     then mergeWithExistingData (readValidated fs1) (valid r)
                     else valid r))
       /\ snd run !! "btc_price_anomalies.json" = fs1 !! "btc_price_anomalies.json"
       /\ snd run !! "btc_price_analysis.json" = fs1 !! "btc_price_analysis.json".
Proof.
  apply (pipeline_failed_run_half_written libLog libPow libFormat libFixed
           readOnlyAnomaliesEnv [oneDayExchange] sampleFiles).
  - discriminate.
  - reflexivity.
  - reflexivity.
Defined.

(* ===================================================================== *)
(** * Further properties of the fetch clients *)
(* ===================================================================== *)

Lemma PriceFetcher_switches (config : Config.t) (k : nat) (c : Client.t) :
  let n := length (Config.API_ENDPOINTS config) in
  (Client.currentEndpointIndex c < n)%nat ->
  Client.currentEndpointIndex (Nat.iter k (PriceFetcher.switchEndpoint config) c)
  = ((Client.currentEndpointIndex c + k) mod n)%nat.
Proof.
  cbn zeta. intros Hlt. induction k as [|k IH].
  - change (Nat.iter 0 (PriceFetcher.switchEndpoint config) c) with c.
    rewrite Nat.add_0_r. symmetry. now apply Nat.mod_small.
  - rewrite Nat.iter_succ. unfold PriceFetcher.switchEndpoint at 1. cbn [emit Client.currentEndpointIndex].
    rewrite IH, Nat.Div0.add_mod_idemp_l. f_equal. lia.
Qed.

(** X20. [PriceFetcher.switchEndpoint] goes round the configured endpoints:
    after [k] switches the index is the start index plus [k] modulo their
    number, the base URL is one of them, and as many switches as there are
    endpoints lead back to the endpoint the client started from. *)
Theorem PriceFetcher_switchEndpoint_cycles (config : Config.t) (k : nat) (c : Client.t) :
  let n := length (Config.API_ENDPOINTS config) in
  let switched := Nat.iter k (PriceFetcher.switchEndpoint config) in
  (Client.currentEndpointIndex c < n)%nat ->
  Client.currentEndpointIndex (switched c) = ((Client.currentEndpointIndex c + k) mod n)%nat
  /\ In (PriceFetcher.baseURL config (switched c)) (Config.API_ENDPOINTS config)
  /\ PriceFetcher.baseURL config (Nat.iter n (PriceFetcher.switchEndpoint config) c)
     = PriceFetcher.baseURL config c.
Proof.
  cbn zeta. intros Hlt.
  pose proof (PriceFetcher_switches config k c Hlt) as Hk. cbn zeta in Hk.
  split; [exact Hk|]. split.
  - unfold PriceFetcher.baseURL. rewrite Hk. apply nth_In.
    apply Nat.mod_upper_bound. lia.
  - unfold PriceFetcher.baseURL.
    rewrite (PriceFetcher_switches config _ c Hlt).
    replace (Client.currentEndpointIndex c + length (Config.API_ENDPOINTS config))%nat
      with (Client.currentEndpointIndex c + 1 * length (Config.API_ENDPOINTS config))%nat
      by lia.
    rewrite Nat.Div0.mod_add, Nat.mod_small by exact Hlt. reflexivity.
Qed.

Lemma PriceFetcher_switchEndpoint_cycles_witness :
  Client.currentEndpointIndex (Nat.iter 8 (PriceFetcher.switchEndpoint defaultConfig) start)
  = 2%nat
  /\ PriceFetcher.baseURL defaultConfig
       (Nat.iter 6 (PriceFetcher.switchEndpoint defaultConfig) start)
     = "https://api.binance.com".
Proof.
  split.
  - apply (PriceFetcher_switchEndpoint_cycles defaultConfig 8 start). cbn. lia.
  - apply (PriceFetcher_switchEndpoint_cycles defaultConfig 0 start). cbn. lia.
Defined.

(** X21. [OKXExchange.switchEndpoint] goes round five indices for four
    URLs: five switches lead back to the index the client started from, the
    base URL is always one of the four, and the switch away from index 0
    leaves the base URL as it was, the main domain. *)
Theorem OKXExchange_switchEndpoint_repeats_main (c : Client.t) :
  (Client.currentEndpointIndex c < 5)%nat ->
  Client.currentEndpointIndex (Nat.iter 5 OKXExchange.switchEndpoint c)
  = Client.currentEndpointIndex c
  /\ In (OKXExchange.baseUrl (OKXExchange.switchEndpoint c)) OKXExchange.backupUrls
  /\ (Client.currentEndpointIndex c = 0%nat ->
      OKXExchange.baseUrl (OKXExchange.switchEndpoint c) = OKXExchange.baseUrl c).
Proof.
  intros Hlt. destruct c as [i p t l]. cbn [Client.currentEndpointIndex] in *.
  do 5 (destruct i as [|i]; [cbn; intuition (auto; lia)|]). lia.
Qed.

Lemma OKXExchange_switchEndpoint_repeats_main_witness :
  OKXExchange.baseUrl (OKXExchange.switchEndpoint start) = OKXExchange.baseUrl start.
Proof.
  apply (OKXExchange_switchEndpoint_repeats_main start); [cbn; lia | reflexivity].
Defined.

(** X22. The backoff of [BaseExchange.makeRequest] and of
    [OKXExchange.fetchKlines] is never above 10000 ms, whatever the attempt
    and the random draw. *)
Theorem backoffTime_at_most_ten_seconds (n : nat) (rnd : float) :
  (10000 <? BaseExchange.backoffTime n rnd)%float = false.
Proof.
  unfold BaseExchange.backoffTime, js_min, Math_min.
  cbn [map ToNumber Math_min_from].
  set (a := (timesPow2 2000 n + rnd * 1000)%float).
  destruct (is_nan a); [reflexivity|].
  change (is_nan 10000) with false. change (is_neg_zero 10000) with false.
  cbn [andb orb].
  destruct ((is_neg_zero a && is_pos_zero infinity) || (a <? infinity)%float).
  - destruct (10000 <? a)%float eqn:E; [reflexivity | exact E].
  - reflexivity.
Qed.

Section FetchLoopProperties.
Variable Row : Type.
Variable closeTimeOf openTimeOf : Row -> option Z.
Variable formatData : list Row -> list Kline.t.
Variable net : Network Row.
Variable config : Config.t.

(** X23. With a window that is empty, [endTime] not after [startTime], both
    fetch loops return at once what no row gives, without a probe, a request
    or a sleep: the client is as before. *)
Theorem empty_window_fetches_nothing (fuel : nat) (startTime endTime : Z) (c : Client.t) :
  endTime <= startTime ->
  PriceFetcher.fetchAllData Row closeTimeOf net config fuel startTime endTime c
  = (Returned [], Loop.mk [] (Some startTime) 0, c)
  /\ OKXExchange.fetchKlines Row openTimeOf formatData net fuel startTime endTime c
     = (Returned (formatData []), Loop.mk [] (Some startTime) 0, c).
Proof.
  intros Hle.
  assert (Hcond : lessThan (Some startTime) endTime = false).
  { cbn [lessThan]. apply Z.ltb_ge. exact Hle. }
  unfold PriceFetcher.fetchAllData, OKXExchange.fetchKlines.
  destruct fuel; cbn [PriceFetcher.fetchAllDataFrom OKXExchange.fetchKlinesFrom
                        Loop.currentStartTime Loop.allData];
    rewrite Hcond; cbn [negb]; auto.
Qed.

Lemma PriceFetcher_unresolved (remaining attempt : nat) (endpoint : string)
  (startTime : option Z) (c : Client.t) :
  lookupsFail net ->
  let '(r, c') :=
    PriceFetcher.makeRequestFrom Row net config remaining attempt endpoint startTime c in
  r = Normal None
  /\ exists events,
       Client.log c' = Client.log c ++ events
       /\ countEvents isRequest events = 0%nat
       /\ countEvents isFailedProbe events = remaining.
Proof.
  intros Hdns. revert attempt c.
  induction remaining as [|remaining IH]; intros attempt c;
    cbn [PriceFetcher.makeRequestFrom].
  - split; [reflexivity|]. exists []. now rewrite app_nil_r.
  - unfold PriceFetcher.checkDNS. rewrite Hdns. cbn [negb].
    match goal with |- context [PriceFetcher.makeRequestFrom _ _ _ _ ?a _ _ ?c0] =>
      specialize (IH a c0); set (c1 := c0) in * end.
    destruct (PriceFetcher.makeRequestFrom Row net config remaining (S attempt) endpoint
                startTime c1) as [r c'].
    destruct IH as (Hr & events & Hlog & Hreq & Hprobe). split; [exact Hr|].
    exists (Probe (PriceFetcher.baseURL config c) false
            :: Switch (PriceFetcher.baseURL config c1) :: events).
    split; [|split].
    + rewrite Hlog. subst c1.
      cbn [Client.log advance emit PriceFetcher.switchEndpoint PriceFetcher.baseURL
           Client.currentEndpointIndex].
      now rewrite <- !app_assoc.
    + unfold countEvents in *. cbn [List.filter isRequest]. exact Hreq.
    + unfold countEvents in *. cbn [List.filter isFailedProbe length]. now rewrite Hprobe.
Qed.

(** X24. When no lookup resolves, [PriceFetcher.fetchAllData] on a window
    that is not empty returns no row and counts no failure: the request
    spends its tries on probes, makes no request and returns [undefined],
    which the loop takes for the end of the data. *)
Theorem unresolved_host_reads_as_no_data (fuel : nat) (startTime endTime : Z)
  (c : Client.t) :
  lookupsFail net -> startTime < endTime -> (1 <= fuel)%nat ->
  let '(out, st, c') :=
    PriceFetcher.fetchAllData Row closeTimeOf net config fuel startTime endTime c in
  out = Returned []
  /\ Loop.failureCount st = 0%nat
  /\ exists events,
       Client.log c' = Client.log c ++ events
       /\ countEvents isRequest events = 0%nat
       /\ countEvents isFailedProbe events = Config.MAX_RETRIES config.
Proof.
  intros Hdns Hlt Hfuel. destruct fuel as [|fuel]; [lia|].
  unfold PriceFetcher.fetchAllData. cbn [PriceFetcher.fetchAllDataFrom Loop.currentStartTime
                                          lessThan].
  rewrite (proj2 (Z.ltb_lt startTime endTime) Hlt). cbn [negb].
  unfold PriceFetcher.fetchKlines, PriceFetcher.makeRequest.
  pose proof (PriceFetcher_unresolved (Config.MAX_RETRIES config) 0 "/api/v3/klines"
                (Some startTime) c Hdns) as H.
  destruct (PriceFetcher.makeRequestFrom Row net config (Config.MAX_RETRIES config) 0
              "/api/v3/klines" (Some startTime) c) as [r c'].
  destruct H as [-> H]. cbn [Loop.allData Loop.failureCount]. auto.
Qed.

(** A response of [PriceFetcher.makeRequest] is an answer of the network to
    a request with the start time of the call. *)
Lemma PriceFetcher_response (remaining attempt : nat) (endpoint : string)
  (startTime : option Z) (c : Client.t) (data : list Row) :
  fst (PriceFetcher.makeRequestFrom Row net config remaining attempt endpoint startTime c)
  = Normal (Some data) ->
  exists n url, http net n url startTime = Normal data.
Proof.
  revert attempt c. induction remaining as [|remaining IH]; intros attempt c;
    cbn [PriceFetcher.makeRequestFrom]; [discriminate|].
  unfold PriceFetcher.checkDNS. destruct (dns net _ _); cbn [negb]; [|apply IH].
  unfold PriceFetcher.axios_get.
  match goal with |- context [http net ?n ?u ?t] => destruct (http net n u t) eqn:E end.
  - cbn [fst]. intros [= <-]. eauto.
  - destruct (_ =? _)%nat; [discriminate | apply IH].
Qed.

Lemma OKXExchange_stuck (page : list Row) (t : Z) (fuel : nat) (startTime endTime : Z)
  (st : Loop.t Row) (c : Client.t) :
  lookupsResolve net -> answersWith net startTime page -> page <> [] ->
  lastTime openTimeOf page = Some t -> t < endTime ->
  lessThan (Loop.currentStartTime st) endTime = true ->
  let '(out, st', _) :=
    OKXExchange.fetchKlinesFrom Row openTimeOf formatData net fuel startTime endTime st c in
  out = Unfinished
  /\ Loop.allData st' = Loop.allData st ++ concat (repeat page fuel).
Proof.
  intros Hdns Hpage Hne Hlast Ht. revert st c.
  induction fuel as [|fuel IH]; intros st c Hcond;
    cbn [OKXExchange.fetchKlinesFrom]; rewrite Hcond; cbn [negb].
  - split; [reflexivity|]. cbn [repeat concat]. now rewrite app_nil_r.
  - unfold BaseExchange.makeRequest. cbn [BaseExchange.makeRequestFrom].
    unfold BaseExchange.checkDomain. rewrite Hdns. cbn [negb].
    unfold BaseExchange.axios. rewrite Hpage.
    destruct page as [|row rows] eqn:Ep; [congruence|]. rewrite <- Ep in *.
    match goal with |- context [OKXExchange.fetchKlinesFrom _ _ _ _ _ _ _ ?s ?c0] =>
      specialize (IH s c0) end.
    destruct (OKXExchange.fetchKlinesFrom Row openTimeOf formatData net fuel startTime
                endTime _ _) as [[out st'] c'].
    destruct IH as [Hout Hdata].
    { cbn [Loop.currentStartTime]. rewrite Hlast. cbn [lessThan]. now apply Z.ltb_lt. }
    split; [exact Hout|]. rewrite Hdata. cbn [Loop.allData repeat concat].
    now rewrite <- app_assoc.
Qed.

(** X25. Every request of [OKXExchange.fetchKlines] asks for the window that
    starts at [startTime], whatever was accumulated. On a network that
    answers this request with one and the same page, not empty and ending
    before [endTime], the loop never ends: after any number of iterations it
    is still running, having accumulated the page once per iteration. *)
Theorem OKXExchange_repeats_first_window (page : list Row) (t : Z) (fuel : nat)
  (startTime endTime : Z) (c : Client.t) :
  lookupsResolve net -> answersWith net startTime page -> page <> [] ->
  lastTime openTimeOf page = Some t -> t < endTime -> startTime < endTime ->
  let '(out, st, _) :=
    OKXExchange.fetchKlines Row openTimeOf formatData net fuel startTime endTime c in
  out = Unfinished /\ Loop.allData st = concat (repeat page fuel).
Proof.
  intros Hdns Hpage Hne Hlast Ht Hlt. unfold OKXExchange.fetchKlines.
  apply (OKXExchange_stuck page t fuel startTime endTime (Loop.mk [] (Some startTime) 0) c);
    auto.
  cbn [Loop.currentStartTime lessThan]. now apply Z.ltb_lt.
Qed.

Lemma PriceFetcher_terminates_from (fuel : nat) (endTime : Z) (st : Loop.t Row)
  (c : Client.t) :
  pagesAdvance closeTimeOf net ->
  (Loop.failureCount st < MAX_FAILURES)%nat ->
  match Loop.currentStartTime st with
  | Some t =>
      (MAX_FAILURES * Z.to_nat (endTime - t) + (MAX_FAILURES - Loop.failureCount st)
       <= fuel)%nat
  | None => True
  end ->
  exists data,
    fst (fst (PriceFetcher.fetchAllDataFrom Row closeTimeOf net config fuel endTime st c))
    = Returned data.
Proof.
  intros Hadv. revert st c. unfold MAX_FAILURES.
  induction fuel as [|fuel IH]; intros st c Hf Hm; cbn [PriceFetcher.fetchAllDataFrom];
    destruct (lessThan (Loop.currentStartTime st) endTime) eqn:E; cbn [negb];
    try (eexists; reflexivity).
  - destruct (Loop.currentStartTime st) as [t|]; [|discriminate]. lia.
  - destruct (Loop.currentStartTime st) as [t|] eqn:Et; [|discriminate].
    cbn [lessThan] in E. apply Z.ltb_lt in E.
    destruct (PriceFetcher.fetchKlines Row net config (Some t) c) as [r c1] eqn:Ek.
    destruct r as [[[|row data]|]|e]; try (eexists; reflexivity).
    + assert (Hresp : exists n url, http net n url (Some t) = Normal (row :: data)).
      { apply (PriceFetcher_response (Config.MAX_RETRIES config) 0 "/api/v3/klines"
                 (Some t) c).
        unfold PriceFetcher.fetchKlines, PriceFetcher.makeRequest in Ek. now rewrite Ek. }
      destruct Hresp as (n & url & Hresp). apply Hadv in Hresp.
      apply IH; cbn [Loop.failureCount Loop.currentStartTime]; [lia|].
      destruct (lastTime closeTimeOf (row :: data)) as [t'|]; [lia | exact I].
    + unfold MAX_FAILURES. cbn [Loop.failureCount Loop.allData Loop.currentStartTime].
      destruct (Nat.leb_spec 10 (S (Loop.failureCount st))); [eexists; reflexivity|].
      apply IH; cbn [Loop.failureCount Loop.currentStartTime]; lia.
Qed.

(** X26. [PriceFetcher.fetchAllData] ends when every page ends after the
    start time it was asked for: ten iterations for each millisecond of the
    window, and ten more, are enough for it to return. *)
Theorem PriceFetcher_fetchAllData_terminates (fuel : nat) (startTime endTime : Z)
  (c : Client.t) :
  pagesAdvance closeTimeOf net ->
  (MAX_FAILURES * Z.to_nat (endTime - startTime) + MAX_FAILURES <= fuel)%nat ->
  exists data,
    fst (fst (PriceFetcher.fetchAllData Row closeTimeOf net config fuel startTime endTime c))
    = Returned data.
Proof.
  intros Hadv Hfuel. unfold PriceFetcher.fetchAllData.
  apply PriceFetcher_terminates_from; cbn [Loop.failureCount Loop.currentStartTime];
    [exact Hadv | unfold MAX_FAILURES; lia | unfold MAX_FAILURES in *; lia].
Qed.

End FetchLoopProperties.

Lemma empty_window_fetches_nothing_witness :
  PriceFetcher.fetchAllData Z Some downNet defaultConfig 5 10 10 start
  = (Returned [], Loop.mk [] (Some 10) 0, start)
  /\ OKXExchange.fetchKlines Z Some sampleFormat downNet 5 10 10 start
     = (Returned (sampleFormat []), Loop.mk [] (Some 10) 0, start).
Proof.
  apply (empty_window_fetches_nothing Z Some Some sampleFormat downNet defaultConfig
           5 10 10 start).
  lia.
Defined.

Lemma unresolved_host_reads_as_no_data_witness :
  let '(out, st, c') :=
    PriceFetcher.fetchAllData Z Some unresolvableNet defaultConfig 1 0 10 start in
  out = Returned []
  /\ Loop.failureCount st = 0%nat
  /\ exists events,
       Client.log c' = Client.log start ++ events
       /\ countEvents isRequest events = 0%nat
       /\ countEvents isFailedProbe events = Config.MAX_RETRIES defaultConfig.
Proof.
  apply (unresolved_host_reads_as_no_data Z Some unresolvableNet defaultConfig 1 0 10 start).
  - intros n url. reflexivity.
  - lia.
  - lia.
Defined.

Lemma OKXExchange_repeats_first_window_witness :
  let '(out, st, _) := OKXExchange.fetchKlines Z Some sampleFormat stuckNet 3 0 5000 start in
  out = Unfinished /\ Loop.allData st = concat (repeat [1000] 3).
Proof.
  apply (OKXExchange_repeats_first_window Z Some sampleFormat stuckNet [1000] 1001 3
           0 5000 start).
  - intros n url. reflexivity.
  - intros n url. reflexivity.
  - discriminate.
  - reflexivity.
  - lia.
  - lia.
Defined.

Lemma PriceFetcher_fetchAllData_terminates_witness :
  exists data,
    fst (fst (PriceFetcher.fetchAllData Z Some advancingNet defaultConfig 30 0 2 start))
    = Returned data.
Proof.
  apply (PriceFetcher_fetchAllData_terminates Z Some advancingNet defaultConfig 30 0 2 start).
  - intros n url t rows H. cbn in H. injection H as <-. cbn. lia.
  - unfold MAX_FAILURES. change (Z.to_nat (2 - 0)) with 2%nat. lia.
Defined.

(* ===================================================================== *)
(** * Further properties of dates *)
(* ===================================================================== *)

Lemma YearFromDay_spec (day : Z) :
  DayFromYear (YearFromDay day) <= day < DayFromYear (YearFromDay day + 1).
Proof.
  unfold YearFromDay. set (y := 1970 + day * 400 / 146097).
  assert (B : DayFromYear (y - 1) <= day < DayFromYear (y + 2)).
  { unfold y, DayFromYear. Z.div_mod_to_equations. lia. }
  destruct (Z.ltb_spec day (DayFromYear y)).
  - replace (y - 1 + 1) with y by lia. lia.
  - destruct (Z.leb_spec (DayFromYear (y + 1)) day).
    + replace (y + 1 + 1) with (y + 2) by lia. lia.
    + lia.
Qed.

Lemma YearFromDay_unique (day y : Z) :
  DayFromYear y <= day < DayFromYear (y + 1) -> YearFromDay day = y.
Proof.
  intros H. pose proof (YearFromDay_spec day) as S.
  destruct (Z.lt_trichotomy (YearFromDay day) y) as [Hlt|[Heq|Hgt]]; [|exact Heq|].
  - pose proof (DayFromYear_mono (YearFromDay day + 1) y). lia.
  - pose proof (DayFromYear_mono (y + 1) (YearFromDay day)). lia.
Qed.

Lemma MonthFromDay_spec (y dayInYear : Z) :
  0 <= dayInYear <= 364 + (if isLeapYear y then 1 else 0) ->
  let m := MonthFromDay y dayInYear in
  1 <= m <= 12
  /\ daysBeforeMonth y m <= dayInYear < daysBeforeMonth y m + daysInMonth y m.
Proof.
  intros H. unfold MonthFromDay, monthFrom, daysBeforeMonth, daysInMonth.
  destruct (isLeapYear y);
    repeat match goal with
           | |- context [if ?a <=? ?b then _ else _] => destruct (Z.leb_spec a b)
           end; cbn; lia.
Qed.

Lemma digit_digitChar (n : Z) : 0 <= n <= 9 -> digit (digitChar n) = Some n.
Proof.
  intros H. unfold digit, digitChar.
  rewrite nat_ascii_embedding by lia. rewrite Z2Nat.id by lia.
  destruct (Z.leb_spec 48 (48 + n)); [|lia].
  destruct (Z.leb_spec (48 + n) 57); [|lia].
  cbn [andb]. f_equal. lia.
Qed.

Lemma parseYMD_formatted (y m d : Z) :
  0 <= y <= 9999 -> 0 <= m <= 99 -> 0 <= d <= 99 ->
  parseYMD (string_of_list_ascii (pad4 y ++ ["-"%char] ++ pad2 m ++ ["-"%char] ++ pad2 d))
  = Some (y, m, d).
Proof.
  intros Hy Hm Hd. unfold parseYMD. rewrite list_ascii_of_string_of_list_ascii.
  cbn [pad4 pad2 app].
  rewrite !digit_digitChar by (Z.div_mod_to_equations; lia).
  cbn [Ascii.eqb Bool.eqb andb]. f_equal. f_equal; [f_equal|];
    Z.div_mod_to_equations; lia.
Qed.

(** What [formatTimestamp] writes is read back by [new Date(s).getTime()]
    as the midnight that starts the day of the time value. *)
Lemma formatTimestamp_parses (t : Z) (s : string) :
  formatTimestamp t = Some s -> Date_getTime s = Some (t / msPerDay * msPerDay).
Proof.
  unfold formatTimestamp. cbn zeta.
  set (day := t / msPerDay). set (y := YearFromDay day).
  destruct ((0 <=? y) && (y <=? 9999)) eqn:R; [|discriminate].
  apply andb_prop in R as [R1 R2]. apply Z.leb_le in R1, R2.
  pose proof (YearFromDay_spec day) as Sy. fold y in Sy.
  pose proof (DayFromYear_succ y) as Hsucc.
  assert (Hdiy : 0 <= day - DayFromYear y <= 364 + (if isLeapYear y then 1 else 0))
    by (destruct (isLeapYear y); lia).
  pose proof (MonthFromDay_spec y (day - DayFromYear y) Hdiy) as Sm. cbn zeta in Sm.
  set (m := MonthFromDay y (day - DayFromYear y)) in *.
  set (d := day - DayFromYear y - daysBeforeMonth y m + 1).
  assert (Hdm : daysInMonth y m <= 31).
  { unfold daysInMonth. destruct (m =? 2); [destruct (isLeapYear y); lia|].
    destruct (_ || _); lia. }
  intros H.
  assert (E : string_of_list_ascii
                (pad4 y ++ ["-"%char] ++ pad2 m ++ ["-"%char] ++ pad2 d) = s)
    by (injection H as H; exact H).
  rewrite <- E. unfold Date_getTime.
  rewrite parseYMD_formatted by (unfold d; lia).
  assert (V : validYMD y m d = true).
  { unfold validYMD. rewrite !andb_true_iff, !Z.leb_le. unfold d. lia. }
  rewrite V. f_equal. unfold timeOfDay, d. f_equal. lia.
Qed.

(** X27. [formatTimestamp] and the reading of dates agree: what it writes
    for a time value is read back as the midnight UTC that starts the day of
    that time value, and every time value of the day of a date that reads as
    a calendar day is written as that date. *)
Theorem formatTimestamp_round_trip :
  (forall t s, formatTimestamp t = Some s ->
               Date_getTime s = Some (t / msPerDay * msPerDay))
  /\ (forall s t k, Date_getTime s = Some t -> 0 <= k < msPerDay ->
                    formatTimestamp (t + k) = Some s).
Proof.
  split; [exact formatTimestamp_parses|].
  intros s t k Hs Hk.
  pose proof Hs as Hs0. unfold Date_getTime in Hs0.
  destruct (parseYMD s) as [[[y m] d]|] eqn:P; [|discriminate].
  destruct (validYMD y m d) eqn:V; [|discriminate]. injection Hs0 as Ht.
  pose proof (dayOfYear_range y m d V) as Hr. unfold dayOfYear in Hr.
  assert (Hday : (t + k) / msPerDay = DayFromYear y + daysBeforeMonth y m + (d - 1)).
  { rewrite <- Ht. unfold timeOfDay. unfold msPerDay in *.
    Z.div_mod_to_equations. lia. }
  assert (Hyear : YearFromDay ((t + k) / msPerDay) = y).
  { apply YearFromDay_unique. rewrite Hday, DayFromYear_succ.
    destruct (isLeapYear y); lia. }
  assert (Hy : 0 <= y <= 9999).
  { apply parseYMD_inv in P
      as (y1 & y2 & y3 & y4 & m1 & m2 & d1 & d2 & a & b & c & e & f & g & h & i
          & _ & A & B & C & E & _ & _ & _ & _ & -> & _ & _).
    pose proof (digit_range _ _ A). pose proof (digit_range _ _ B).
    pose proof (digit_range _ _ C). pose proof (digit_range _ _ E). lia. }
  destruct (formatTimestamp (t + k)) as [s'|] eqn:F.
  - apply formatTimestamp_parses in F. f_equal. symmetry.
    apply (Date_getTime_inj s s' t); [exact Hs|].
    rewrite F. f_equal. rewrite Hday, <- Ht. reflexivity.
  - unfold formatTimestamp in F. cbn zeta in F. rewrite Hyear in F.
    destruct (Z.leb_spec 0 y); [|lia]. destruct (Z.leb_spec y 9999); [|lia].
    discriminate.
Qed.

(* ===================================================================== *)
(** * Further properties of the report *)
(* ===================================================================== *)

Lemma printResults_spec (toFixed : float -> nat -> string)
  (results : list (option FetchResult)) (out : list Line) :
  let '(r, out') := printResults toFixed results out in
  (isThrow r = true <-> exists res, In (Some res) results /\ data res = [])
  /\ ((forall res, In (Some res) results -> data res <> []) ->
      length out' = (length out + 4 * length (List.filter isNotNull results))%nat).
Proof.
  revert out. induction results as [|[res|] results IH]; intros out;
    cbn [printResults printResult List.filter isNotNull].
  - split; [|intros _; cbn; lia]. split; [discriminate | intros (res & [] & _)].
  - destruct (data res) as [|x l] eqn:E; cbn [nth_error length].
    + split; [|intros H; exfalso; apply (H res); [now left | exact E]].
      split; [intros _; exists res; split; [now left | exact E] | reflexivity].
    + destruct (nth_error (x :: l) (S (length l) - 1)%nat) as [y|] eqn:En.
      * specialize (IH ((out ++ [NameLine (name res); RecordsLine (S (length l))])
                        ++ [RangeLine (Kline.date x) (Kline.date y);
                            VolumeLine (String.append
                                          (toFixed (averageVolume (x :: l)) 2%nat)
                                          " BTC")])).
        destruct (printResults toFixed results _) as [r out'].
        destruct IH as [IH1 IH2]. split.
        -- rewrite IH1. split; intros (res' & Hin & He).
           ++ exists res'. split; [now right | exact He].
           ++ destruct Hin as [[= ->]|Hin]; [congruence|]. eauto.
        -- intros H. rewrite IH2 by (intros; apply H; now right).
           rewrite !length_app. cbn [length]. lia.
      * apply nth_error_None in En. cbn [length] in En. lia.
  - specialize (IH out). destruct (printResults toFixed results out) as [r out'].
    destruct IH as [IH1 IH2]. split.
    + rewrite IH1. split; intros (res' & Hin & He).
      * exists res'. split; [now right | exact He].
      * destruct Hin as [[=]|Hin]. eauto.
    + intros H. apply IH2. intros; apply H; now right.
Qed.

(** X28. [printComparison] throws a [TypeError] exactly when some result
    that is not [null] has no record, from reading the date of its first
    record; when none is so, it writes four lines for each result that is
    not [null], after the heading. *)
Theorem printComparison_throws_on_empty_result (toFixed : float -> nat -> string)
  (results : list (option FetchResult)) :
  (isThrow (fst (printComparison toFixed results)) = true <->
   exists res, In (Some res) results /\ data res = [])
  /\ ((forall res, In (Some res) results -> data res <> []) ->
      length (snd (printComparison toFixed results))
      = (1 + 4 * length (List.filter isNotNull results))%nat).
Proof.
  unfold printComparison.
  pose proof (printResults_spec toFixed results [Heading]) as H.
  destruct (printResults toFixed results [Heading]) as [r out']. exact H.
Qed.

(* ===================================================================== *)
(** * Further properties of the fetches of a run *)
(* ===================================================================== *)

Lemma fetchAll_nothing (env : Env.t) (exchanges : list Exchange.t)
  (fs : gmap string File) :
  (forall ex, In ex exchanges ->
     isThrow (Exchange.fetchKlines ex) = true
     \/ Env.writable env (rawFilename env (Exchange.name ex)) = false) ->
  fetchAll env exchanges fs = (map (fun _ => None) exchanges, fs).
Proof.
  induction exchanges as [|ex exchanges IH]; intros H; cbn [fetchAll map]; [reflexivity|].
  assert (E : exists e, fetchExchangeData env ex fs = (Throw e, fs)).
  { unfold fetchExchangeData, saveData.
    destruct (H ex (or_introl eq_refl)) as [Ht|Hw].
    - destruct (Exchange.fetchKlines ex); [discriminate | eauto].
    - rewrite Hw. destruct (Exchange.fetchKlines ex); eauto. }
  destruct E as [e ->]. rewrite IH by (intros; apply H; now right). reflexivity.
Qed.

(** X29. A source whose raw file cannot be written counts as a source whose
    fetch failed, whatever it fetched: when every source either throws or
    cannot write its raw file, the run writes nothing, leaves the files as
    they were and ends with the exit code 0. *)
Theorem pipeline_unwritable_raw_files_exit_zero (Math_log : float -> float)
  (Math_pow : float -> float -> float) (moment_format : string -> string -> string)
  (toFixed : float -> nat -> string) (env : Env.t) (exchanges : list Exchange.t)
  (fs : gmap string File) :
  (forall ex, In ex exchanges ->
     isThrow (Exchange.fetchKlines ex) = true
     \/ Env.writable env (rawFilename env (Exchange.name ex)) = false) ->
  pipeline Math_log Math_pow moment_format toFixed env exchanges fs = (0, fs).
Proof.
  intros H. unfold pipeline. rewrite (fetchAll_nothing env exchanges fs H).
  assert (E : List.filter isNotNull (map (fun _ : Exchange.t => @None FetchResult) exchanges)
              = []).
  { clear H. induction exchanges as [|ex exchanges IH]; cbn [map List.filter isNotNull];
      auto. }
  rewrite E. reflexivity.
Qed.

Lemma pipeline_unwritable_raw_files_exit_zero_witness :
  pipeline libLog libPow libFormat libFixed readOnlyEnv
    [oneDayExchange; downExchange "Huobi"] sampleFiles
  = (0, sampleFiles).
Proof.
  apply (pipeline_unwritable_raw_files_exit_zero libLog libPow libFormat libFixed
           readOnlyEnv [oneDayExchange; downExchange "Huobi"] sampleFiles).
  intros ex [<-|[<-|[]]]; [right | left]; reflexivity.
Defined.
